(** * Infy CAN module simulator (src/src/app.py): protocol layer

    A shallow embedding of [InfyModuleSimulator]: the 29-bit identifier
    codec, the receive filter, the command router with its handlers and
    the heartbeat cycle.

    Python values are modelled as follows.
    - [int] is [Z] (unbounded, two's complement bit operations).
    - [float] is IEEE-754 binary64, as [spec_float] with precision 53 and
      [emax] 1024; the operators are the correctly rounded ones of
      [SpecFloat].  A NaN carries neither sign nor payload there.
    - [bytes]/[bytearray] is [list byte].
    - An exception is a value of [exn]; a method is a function of the
      world (the object's fields, the frames sent on the bus, the recorded
      calls) to a new world and a result.  Fields written before an
      exception is raised stay written. *)

From Stdlib Require Import ZArith List Bool Lia SpecFloat.
From Stdlib.Strings Require Import Byte.
Import ListNotations.
Local Open Scope Z_scope.

(** ** Python numbers *)

Module Py.

Definition float := spec_float.

Definition prec : Z := 53.
Definition emax : Z := 1024.

Definition fadd : float -> float -> float := SFadd prec emax.
Definition fsub : float -> float -> float := SFsub prec emax.
Definition fmul : float -> float -> float := SFmul prec emax.
Definition fdiv : float -> float -> float := SFdiv prec emax.

(** [float(n)] for an [int] [n]: the nearest binary64 (exact below 2^53). *)
Definition of_int (n : Z) : float := binary_normalize prec emax n 0 false.

(** A decimal literal [n / 10^k], such as [25.6] or [0.390]: the binary64
    nearest to the quotient of two exactly representable integers. *)
Definition decimal (n : Z) (k : Z) : float := fdiv (of_int n) (of_int (10 ^ k)).

Inductive exn : Type :=
| IndexError
| StructError
| ValueError
| OverflowError.

Inductive result (A : Type) : Type :=
| Ok (a : A)
| Raise (e : exn).
Arguments Ok {A} a.
Arguments Raise {A} e.

(** [int(x)]: truncation toward zero; NaN raises [ValueError], an
    infinity [OverflowError]. *)
Definition int_of_float (x : float) : result Z :=
  match x with
  | S754_nan => Raise ValueError
  | S754_infinity _ => Raise OverflowError
  | S754_zero _ => Ok 0
  | S754_finite s m e => Ok (cond_Zopp s (Z.shiftl (Zpos m) e))
  end.

Definition fleb (x y : float) : bool := SFleb x y.
Definition fltb (x y : float) : bool := SFltb x y.

(** [random.uniform(a, b)] is [a + (b - a) * random()]; the draw of
    [random()] is the argument [r]. *)
Definition uniform (a b r : float) : float := fadd a (fmul (fsub b a) r).

End Py.

Import Py.

(** ** struct: big-endian packing *)

Definition byte_of_Z (z : Z) : byte :=
  match Byte.of_N (Z.to_N (z mod 256)) with
  | Some b => b
  | None => x00
  end.

Definition Z_of_byte (b : byte) : Z := Z.of_N (Byte.to_N b).

(** The [n] low bytes of [v], most significant first. *)
Fixpoint be_bytes (n : nat) (v : Z) : list byte :=
  match n with
  | O => []
  | S n' => be_bytes n' (Z.shiftr v 8) ++ [byte_of_Z v]
  end.

Definition be_value (bs : list byte) : Z :=
  fold_left (fun acc b => acc * 256 + Z_of_byte b) bs 0.

(** One [I] (4 bytes) or [H] (2 bytes) field of [struct.pack]: a value
    outside the field's range raises [struct.error]. *)
Definition pack_uint (n : nat) (v : Z) : result (list byte) :=
  if (0 <=? v) && (v <? 2 ^ (8 * Z.of_nat n)) then Ok (be_bytes n v)
  else Raise StructError.

(** [struct.pack('>II', a, b)] *)
Definition pack_II (a b : Z) : result (list byte) :=
  match pack_uint 4 a, pack_uint 4 b with
  | Ok x, Ok y => Ok (x ++ y)
  | _, _ => Raise StructError
  end.

(** [struct.pack('>HHHH', a, b, c, d)] *)
Definition pack_HHHH (a b c d : Z) : result (list byte) :=
  match pack_uint 2 a, pack_uint 2 b, pack_uint 2 c, pack_uint 2 d with
  | Ok x, Ok y, Ok z, Ok t => Ok (x ++ y ++ z ++ t)
  | _, _, _, _ => Raise StructError
  end.

(** [struct.unpack('>I', bs)[0]]: the buffer must hold exactly 4 bytes. *)
Definition unpack_I (bs : list byte) : result Z :=
  if Nat.eqb (length bs) 4 then Ok (be_value bs) else Raise StructError.

(** The slice [data[i:j]] for [0 <= i <= j]; it is shorter when [data] is. *)
Definition slice (data : list byte) (i j : nat) : list byte :=
  firstn (j - i) (skipn i data).

(** The binary32 bit pattern of a value already rounded to binary32. *)
Definition bits_of_b32 (x : spec_float) : Z :=
  let sign (s : bool) := if s then Z.shiftl 1 31 else 0 in
  match x with
  | S754_nan => 0x7FC00000
  | S754_infinity s => Z.lor (sign s) 0x7F800000
  | S754_zero s => sign s
  | S754_finite s m e =>
      if Zpos m <? 2 ^ 23 then Z.lor (sign s) (Zpos m)
      else Z.lor (sign s) (Z.lor (Z.shiftl (e + 150) 23) (Zpos m - 2 ^ 23))
  end.

(** [struct.pack('>f', x)]: round to binary32; a finite [x] that rounds to
    an infinity raises [OverflowError]. *)
Definition pack_f (x : float) : result (list byte) :=
  match x with
  | S754_finite s m e =>
      match binary_round 24 128 s m e with
      | S754_infinity _ => Raise OverflowError
      | y => Ok (be_bytes 4 (bits_of_b32 y))
      end
  | _ => Ok (be_bytes 4 (bits_of_b32 x))
  end.

(** ** The 29-bit identifier *)

Record IdFields : Type := mkId {
  err_code : Z;
  device_no : Z;
  cmd_no : Z;
  dest_addr : Z;
  src_addr : Z
}.

(** The extraction of [_process_message] (lines 105-109). *)
Definition decodeId (can_id : Z) : IdFields :=
  {| err_code := Z.land (Z.shiftr can_id 26) 0x07;
     device_no := Z.land (Z.shiftr can_id 22) 0x0F;
     cmd_no := Z.land (Z.shiftr can_id 16) 0x3F;
     dest_addr := Z.land (Z.shiftr can_id 8) 0xFF;
     src_addr := Z.land can_id 0xFF |}.

(** The packing of [_send_response] (line 182) and of the client's
    [send_command], with the two constant fields as arguments. *)
Definition encodeId (err scope cmd dest src : Z) : Z :=
  Z.lor (Z.lor (Z.lor (Z.lor (Z.shiftl err 26) (Z.shiftl scope 22))
                      (Z.shiftl cmd 16))
               (Z.shiftl dest 8))
        src.

(** ** Frames and the simulator object *)

Record Message : Type := mkMessage {
  arbitration_id : Z;
  data : list byte;
  is_extended_id : bool;
  is_error_frame : bool
}.

Record InfyModuleSimulator : Type := mkSim {
  module_id : Z;
  group_id : Z;
  voltage_out : float;
  current_out : float;
  set_voltage : float;
  set_current : float;
  max_current : float;
  cap_voltage_max : float;
  cap_voltage_min : float;
  cap_power_rated : float;
  is_power_on : bool;
  is_connected : bool;
  running : bool
}.

(** [__init__] *)
Definition init (module_id group_id : Z) : InfyModuleSimulator :=
  {| module_id := module_id;
     group_id := group_id;
     voltage_out := S754_zero false;
     current_out := S754_zero false;
     set_voltage := of_int 500;
     set_current := of_int 10;
     max_current := decimal 256 1;
     cap_voltage_max := of_int 750;
     cap_voltage_min := of_int 100;
     cap_power_rated := of_int 15000;
     is_power_on := false;
     is_connected := false;
     running := false |}.

(** One call of [_route_command], as recorded on entry. *)
Record RouteCall : Type := mkCall {
  call_cmd : Z;
  call_data : list byte;
  call_remote_src : Z;
  call_device_mode : Z;
  call_dest_addr : Z
}.

(** The world a method runs in: the object, the frames handed to
    [bus.send] (oldest first), the durations handed to [time.sleep], and
    the calls of [_route_command]. *)
Record World : Type := mkWorld {
  self : InfyModuleSimulator;
  sent : list Message;
  slept : list float;
  routed : list RouteCall
}.

Definition M (A : Type) : Type := World -> World * result A.

Definition ret {A} (a : A) : M A := fun w => (w, Ok a).

Definition bind {A B} (c : M A) (k : A -> M B) : M B :=
  fun w =>
    match c w with
    | (w', Ok a) => k a w'
    | (w', Raise e) => (w', Raise e)
    end.

Definition raise {A} (e : exn) : M A := fun w => (w, Raise e).

Definition lift {A} (r : result A) : M A := fun w => (w, r).

Notation "x <- c ;; k" := (bind c (fun x => k))
  (at level 61, c at next level, right associativity).
Notation "c ;;; k" := (bind c (fun _ => k))
  (at level 61, right associativity).

Definition get_self : M InfyModuleSimulator := fun w => (w, Ok (self w)).

Definition put_self (s : InfyModuleSimulator) : M unit :=
  fun w => ({| self := s; sent := sent w; slept := slept w; routed := routed w |}, Ok tt).

Definition bus_send (msg : Message) : M unit :=
  fun w => ({| self := self w; sent := sent w ++ [msg]; slept := slept w; routed := routed w |}, Ok tt).

Definition time_sleep (d : float) : M unit :=
  fun w => ({| self := self w; sent := sent w; slept := slept w ++ [d]; routed := routed w |}, Ok tt).

Definition record_call (c : RouteCall) : M unit :=
  fun w => ({| self := self w; sent := sent w; slept := slept w; routed := routed w ++ [c] |}, Ok tt).

(** ** Command handlers *)

(** CMD 0x03 (and 0x01): measured voltage and current as two binary32. *)
Definition _handle_read_module_float : M (list byte) :=
  s <- get_self ;;
  v_bytes <- lift (pack_f (voltage_out s)) ;;
  c_bytes <- lift (pack_f (current_out s)) ;;
  ret (v_bytes ++ c_bytes).

(** CMD 0x04: four status bytes, ambient temperature 25, three spare bytes. *)
Definition _handle_read_status : M (list byte) :=
  let temp := 25 in
  ret [x00; x00; x00; x00; byte_of_Z temp; x00; x00; x00].

(** [data[0]] of a [bytearray]: [IndexError] on an empty one. *)
Definition index0 (data : list byte) : result byte :=
  match data with
  | [] => Raise IndexError
  | b :: _ => Ok b
  end.

(** CMD 0x1A: byte 0 is 0 for power on, anything else for power off. *)
Definition _handle_power_control (data : list byte) : M unit :=
  b <- lift (index0 data) ;;
  s <- get_self ;;
  if Z_of_byte b =? 0x00 then
    put_self {| module_id := module_id s; group_id := group_id s;
                voltage_out := set_voltage s;
                current_out := fdiv (set_current s) (of_int 2);
                set_voltage := set_voltage s; set_current := set_current s;
                max_current := max_current s;
                cap_voltage_max := cap_voltage_max s;
                cap_voltage_min := cap_voltage_min s;
                cap_power_rated := cap_power_rated s;
                is_power_on := true;
                is_connected := is_connected s; running := running s |}
  else
    put_self {| module_id := module_id s; group_id := group_id s;
                voltage_out := S754_zero false;
                current_out := S754_zero false;
                set_voltage := set_voltage s; set_current := set_current s;
                max_current := max_current s;
                cap_voltage_max := cap_voltage_max s;
                cap_voltage_min := cap_voltage_min s;
                cap_power_rated := cap_power_rated s;
                is_power_on := false;
                is_connected := is_connected s; running := running s |}.

(** The reply to 0x1A: 0 when on, 1 when off, then seven zero bytes. *)
Definition _handle_read_power_state : M (list byte) :=
  s <- get_self ;;
  let state := if is_power_on s then 0x00 else 0x01 in
  ret [byte_of_Z state; x00; x00; x00; x00; x00; x00; x00].

(** CMD 0x1B: bytes 0-3 are the voltage in mV, bytes 4-7 the current in
    mA.  Both fields are unpacked before anything is stored. *)
Definition _handle_set_output (data : list byte) : M unit :=
  v_val <- lift (unpack_I (slice data 0 4)) ;;
  c_val <- lift (unpack_I (slice data 4 8)) ;;
  s <- get_self ;;
  let new_voltage := fdiv (of_int v_val) (of_int 1000) in
  let new_current := fdiv (of_int c_val) (of_int 1000) in
  put_self {| module_id := module_id s; group_id := group_id s;
              voltage_out := if is_power_on s then new_voltage else voltage_out s;
              current_out := current_out s;
              set_voltage := new_voltage; set_current := new_current;
              max_current := max_current s;
              cap_voltage_max := cap_voltage_max s;
              cap_voltage_min := cap_voltage_min s;
              cap_power_rated := cap_power_rated s;
              is_power_on := is_power_on s;
              is_connected := is_connected s; running := running s |}.

(** The reply to 0x1B/0x1C: the setpoint in mV and mA. *)
Definition _handle_read_output_setting : M (list byte) :=
  s <- get_self ;;
  v_int <- lift (int_of_float (fmul (set_voltage s) (of_int 1000))) ;;
  c_int <- lift (int_of_float (fmul (set_current s) (of_int 1000))) ;;
  lift (pack_II v_int c_int).

Definition _handle_read_system_float : M (list byte) :=
  _handle_read_module_float.

(** CMD 0x08 (and 0x09): measured values in mV and mA, not below 0. *)
Definition _handle_read_system_fixed : M (list byte) :=
  s <- get_self ;;
  v <- lift (int_of_float (fmul (voltage_out s) (of_int 1000))) ;;
  c <- lift (int_of_float (fmul (current_out s) (of_int 1000))) ;;
  let v_int := Z.max 0 v in
  let c_int := Z.max 0 c in
  lift (pack_II v_int c_int).

Definition _handle_read_module_fixed : M (list byte) :=
  _handle_read_system_fixed.

(** CMD 0x0A: the capability constants. *)
Definition _handle_read_module_info : M (list byte) :=
  s <- get_self ;;
  vmax <- lift (int_of_float (fmul (cap_voltage_max s) (of_int 10))) ;;
  vmin <- lift (int_of_float (fmul (cap_voltage_min s) (of_int 10))) ;;
  imax <- lift (int_of_float (fmul (max_current s) (of_int 10))) ;;
  prate <- lift (int_of_float (fdiv (cap_power_rated s) (of_int 10))) ;;
  lift (pack_HHHH vmax vmin imax prate).

(** CMD 0x0C: measured voltage and allowed current, in tenths. *)
Definition _handle_read_module_external : M (list byte) :=
  s <- get_self ;;
  v <- lift (int_of_float (fmul (voltage_out s) (of_int 10))) ;;
  let ext_v := Z.max 0 v in
  allow_i <- (if is_power_on s
              then lift (int_of_float (fmul (max_current s) (of_int 10)))
              else ret 0) ;;
  lift (pack_HHHH ext_v allow_i 0 0).

Definition _handle_set_output_fixed (data : list byte) : M unit :=
  _handle_set_output data.

(** ** Reply and router *)

(** [_send_response]: error 0, device 0x0A, the command, the requester as
    destination, this module as source. *)
Definition _send_response (cmd : Z) (payload : list byte) (target_addr : Z) : M unit :=
  s <- get_self ;;
  let resp_id := encodeId 0x00 0x0A cmd target_addr (module_id s) in
  bus_send {| arbitration_id := resp_id; data := payload;
              is_extended_id := true; is_error_frame := false |}.

(** The truth value of [reply_data]: [None] and the empty buffer are false. *)
Definition truthy (reply_data : option (list byte)) : bool :=
  match reply_data with
  | Some (_ :: _) => true
  | _ => false
  end.

Definition some {A} (c : M A) : M (option A) := a <- c ;; ret (Some a).

(** The [if]/[elif] chain of [_route_command]: the handler's reply, or
    [None] where [reply_data] keeps its initial value. *)
Definition dispatch (cmd : Z) (payload : list byte) (device_mode dest : Z)
    : M (option (list byte)) :=
  if cmd =? 0x01 then some _handle_read_system_float
  else if cmd =? 0x03 then some _handle_read_module_float
  else if cmd =? 0x04 then some _handle_read_status
  else if cmd =? 0x08 then some _handle_read_system_fixed
  else if cmd =? 0x09 then some _handle_read_module_fixed
  else if cmd =? 0x0A then some _handle_read_module_info
  else if cmd =? 0x0C then some _handle_read_module_external
  else if cmd =? 0x1A then
    _handle_power_control payload ;;;
    if (device_mode =? 0x0A) && negb (dest =? 0x3F)
    then some _handle_read_power_state
    else ret None
  else if cmd =? 0x1B then
    _handle_set_output payload ;;;
    some _handle_read_output_setting
  else if cmd =? 0x1C then
    _handle_set_output_fixed payload ;;;
    if negb (dest =? 0x3F)
    then some _handle_read_output_setting
    else ret None
  else ret None.

Definition _route_command (cmd : Z) (payload : list byte)
    (remote_src device_mode dest : Z) : M unit :=
  record_call {| call_cmd := cmd; call_data := payload;
                 call_remote_src := remote_src;
                 call_device_mode := device_mode;
                 call_dest_addr := dest |} ;;;
  reply_data <- dispatch cmd payload device_mode dest ;;
  if truthy reply_data
  then _send_response cmd (match reply_data with Some d => d | None => [] end) remote_src
  else ret tt.

(** ** Receive path *)

(** [_process_message]: decode the identifier, keep the frame when it is
    a broadcast, or addressed to this module, or to its group. *)
Definition _process_message (msg : Message) : M unit :=
  s <- get_self ;;
  let can_id := arbitration_id msg in
  let f := decodeId can_id in
  let is_for_me :=
    if dest_addr f =? 0x3F then true
    else if (device_no f =? 0x0A) && (dest_addr f =? module_id s) then true
    else if (device_no f =? 0x0B) && (dest_addr f =? group_id s) then true
    else false in
  if is_for_me
  then _route_command (cmd_no f) (data msg) (src_addr f) (device_no f) (dest_addr f)
  else ret tt.

Inductive loop_ctl : Type := Continue | Break.

(** The body of the [for msg in self.bus] loop. *)
Definition _receive_body (msg : Message) : M loop_ctl :=
  s <- get_self ;;
  if negb (running s) then ret Break
  else if is_error_frame msg then ret Continue
  else if Z.land (arbitration_id msg) 0xFF =? module_id s then ret Continue
  else _process_message msg ;;; ret Continue.

(** [_receive_loop] over the frames the bus delivers; an exception
    raised by the body ends the loop and leaves the method. *)
Fixpoint _receive_loop (msgs : list Message) : M unit :=
  match msgs with
  | [] => ret tt
  | msg :: rest =>
      c <- _receive_body msg ;;
      match c with
      | Break => ret tt
      | Continue => _receive_loop rest
      end
  end.

(** ** Heartbeat *)

(** One cycle of [_broadcast_heartbeat_loop]; [r] is the draw of
    [random.random()] behind [random.uniform]. *)
Definition _heartbeat_cycle (r : float) : M unit :=
  s <- get_self ;;
  let arb_id := Z.lor 0x0757F800 (module_id s) in
  bus_send {| arbitration_id := arb_id; data := repeat x00 8;
              is_extended_id := true; is_error_frame := false |} ;;;
  let sleep_time := uniform (decimal 390 3) (decimal 410 3) r in
  time_sleep sleep_time.

(** The [while self.running] loop, for as many cycles as there are draws. *)
Fixpoint _broadcast_heartbeat_loop (draws : list float) : M unit :=
  match draws with
  | [] => ret tt
  | r :: rest =>
      s <- get_self ;;
      if running s
      then _heartbeat_cycle r ;;; _broadcast_heartbeat_loop rest
      else ret tt
  end.

(** ** Specification-side predicates *)

(** The addressing rule, as the data model words it. *)
Definition for_me (my_id my_group scope dest : Z) : Prop :=
  dest = 0x3F \/ (scope = 0x0A /\ dest = my_id) \/ (scope = 0x0B /\ dest = my_group).

(** The call [_process_message] makes for a frame it keeps. *)
Definition call_of (msg : Message) : RouteCall :=
  let f := decodeId (arbitration_id msg) in
  {| call_cmd := cmd_no f; call_data := data msg;
     call_remote_src := src_addr f;
     call_device_mode := device_no f;
     call_dest_addr := dest_addr f |}.

(** A computation leaves an observation of the world alone, whether it
    returns or raises. *)
Definition keeps {X A} (obs : World -> X) (c : M A) : Prop :=
  forall w, obs (fst (c w)) = obs w.

(** The least payload length a state-writing command reads. *)
Definition required_length (cmd : Z) : nat :=
  if cmd =? 0x1A then 1%nat
  else if (cmd =? 0x1B) || (cmd =? 0x1C) then 8%nat
  else 0%nat.

(** A started module with the defaults of [__init__]: id 0, group 0. *)
Definition world0 : World :=
  {| self := {| module_id := 0x00; group_id := 0x00;
                voltage_out := S754_zero false; current_out := S754_zero false;
                set_voltage := of_int 500; set_current := of_int 10;
                max_current := decimal 256 1;
                cap_voltage_max := of_int 750; cap_voltage_min := of_int 100;
                cap_power_rated := of_int 15000;
                is_power_on := false; is_connected := false; running := true |};
     sent := []; slept := []; routed := [] |}.

(** Failing gracefully, read on the router: it returns normally and the
    device state is as before. *)
Definition fails_gracefully (w : World) (cmd : Z) (payload : list byte)
    (remote_src device_mode dest : Z) : Prop :=
  let r := _route_command cmd payload remote_src device_mode dest w in
  snd r = Ok tt /\ self (fst r) = self w.

(** The commands the [if]/[elif] chain of [_route_command] names. *)
Definition in_dispatch_table (cmd : Z) : bool :=
  (cmd =? 0x01) || (cmd =? 0x03) || (cmd =? 0x04) || (cmd =? 0x08) ||
  (cmd =? 0x09) || (cmd =? 0x0A) || (cmd =? 0x0C) || (cmd =? 0x1A) ||
  (cmd =? 0x1B) || (cmd =? 0x1C).

(** Between two worlds: exactly the frame [m] was sent. *)
Definition replied (w w' : World) (m : Message) : Prop := sent w' = sent w ++ [m].

(** Between two worlds: no frame was sent. *)
Definition silent (w w' : World) : Prop := sent w' = sent w.

(** The frame of one heartbeat of module [mid]. *)
Definition heartbeat_frame (mid : Z) : Message :=
  {| arbitration_id := Z.lor 0x0757F800 mid; data := repeat x00 8;
     is_extended_id := true; is_error_frame := false |}.

(** A draw of [random.random()]: a binary64 number in [0, 1). *)
Definition unit_draw (r : float) : Prop :=
  valid_binary prec emax r = true /\
  fleb (S754_zero false) r = true /\ fltb r (of_int 1) = true.

(** The sleep durations the heartbeat may draw: 0.390 s to 0.410 s. *)
Definition in_jitter_band (d : float) : Prop :=
  fleb (decimal 390 3) d = true /\ fleb d (decimal 410 3) = true.

(** The exponent binary64 gives a number of magnitude [e]
    ([fexp] at precision 53, [emax] 1024). *)
Definition fexp64 (e : Z) : Z := Z.max (e - 53) (-1074).

(** [m1 * 2^e1 <= m2 * 2^e2], compared at the smaller of the two
    exponents, so that only integers are involved. *)
Definition val_le (m1 e1 m2 e2 : Z) : Prop :=
  m1 * 2 ^ (e1 - Z.min e1 e2) <= m2 * 2 ^ (e2 - Z.min e1 e2).

(** The tail of [binary_round_aux]: the second shift and the overflow
    test, on the mantissa the rounding produced. *)
Definition round_finish (sx : bool) (m e : Z) : spec_float :=
  let '(mrs, e') := shr_fexp prec emax m e loc_Exact in
  match shr_m mrs with
  | Z0 => S754_zero sx
  | Zpos p => if e' <=? emax - prec then S754_finite sx p e' else S754_infinity sx
  | Zneg _ => S754_nan
  end.

(** [0 <= x <= mB * 2^eB] for a float [x]: a zero, or a positive finite
    number whose value is at most the bound. *)
Definition nonneg_le (x : spec_float) (mB eB : Z) : Prop :=
  match x with
  | S754_zero _ => True
  | S754_finite false m e => val_le (Zpos m) e mB eB
  | _ => False
  end.

(** ** The object over time *)

(** The fields no method assigns after [__init__] and [start]: the two
    addresses, the four capability constants and the two flags. *)
Definition configuration (s : InfyModuleSimulator)
    : Z * Z * float * float * float * float * bool * bool :=
  (module_id s, group_id s, max_current s, cap_voltage_max s,
   cap_voltage_min s, cap_power_rated s, is_connected s, running s).

(** The object when the two loops of [start] begin: [__init__], then
    [self.running = True]; nothing sent, slept or routed yet. *)
Definition started (module_id group_id : Z) : World :=
  let s := init module_id group_id in
  {| self := mkSim module_id group_id (voltage_out s) (current_out s)
                   (set_voltage s) (set_current s) (max_current s)
                   (cap_voltage_max s) (cap_voltage_min s) (cap_power_rated s)
                   (is_power_on s) (is_connected s) true;
     sent := []; slept := []; routed := [] |}.

(** The three tests of the receive path a frame passes before
    [_route_command] is called, for a module with the given id and group:
    not an error frame, not the module's own echo, and addressed to it. *)
Definition wanted (my_id my_group : Z) (msg : Message) : bool :=
  let f := decodeId (arbitration_id msg) in
  negb (is_error_frame msg) &&
  negb (src_addr f =? my_id) &&
  ((dest_addr f =? 0x3F) ||
   ((device_no f =? 0x0A) && (dest_addr f =? my_id)) ||
   ((device_no f =? 0x0B) && (dest_addr f =? my_group))).

(** Measured values agree with the power state: a module that is off
    measures 0 V and 0 A, one that is on measures its voltage setpoint. *)
Definition measured_consistent (s : InfyModuleSimulator) : Prop :=
  if is_power_on s then voltage_out s = set_voltage s
  else voltage_out s = S754_zero false /\ current_out s = S754_zero false.

(** A computation whose result, when it returns one, is [n] bytes long. *)
Definition returns_length (n : nat) (c : M (list byte)) : Prop :=
  forall w w' d, c w = (w', Ok d) -> length d = n.

(** The world on entry of [_route_command]: the call recorded. *)
Definition entered (w : World) (c : RouteCall) : World :=
  {| self := self w; sent := sent w; slept := slept w; routed := routed w ++ [c] |}.

(** A wire value in thousandths as the handlers store it: [v / 1000.0]. *)
Definition of_milli (v : Z) : float := fdiv (of_int v) (of_int 1000).

(** The electrical fields are what 32-bit wire values make them: both
    setpoints and the measured voltage are some [v / 1000.0], the measured
    current is half of such a value, and the capability constants are
    those of [__init__]. *)
Definition from_wire (s : InfyModuleSimulator) : Prop :=
  (exists v, 0 <= v < 2 ^ 32 /\ set_voltage s = of_milli v) /\
  (exists c, 0 <= c < 2 ^ 32 /\ set_current s = of_milli c) /\
  (exists v, 0 <= v < 2 ^ 32 /\ voltage_out s = of_milli v) /\
  (exists c, 0 <= c < 2 ^ 32 /\ current_out s = fdiv (of_milli c) (of_int 2)) /\
  max_current s = decimal 256 1 /\ cap_voltage_max s = of_int 750 /\
  cap_voltage_min s = of_int 100 /\ cap_power_rated s = of_int 15000.

(** A frame whose payload is as long as its command reads, and whose
    command is not the external report 0x0C. *)
Definition well_formed (msg : Message) : Prop :=
  let cmd := cmd_no (decodeId (arbitration_id msg)) in
  cmd <> 0x0C /\ (required_length cmd <= length (data msg))%nat.

(** The exponent binary32 gives a number of magnitude [e]. *)
Definition fexp32 (e : Z) : Z := Z.max (e - 24) (-149).

(** ** The command-line client (src/src/can_client.py) *)

Module Client.

(** [_make_output_data]: volts and amperes to the payload of command
    0x1B, millivolts and milliamperes as two big-endian uint32. *)
Definition _make_output_data (voltage current : float) : result (list byte) :=
  match int_of_float (fmul voltage (of_int 1000)) with
  | Raise e => Raise e
  | Ok v_int =>
      match int_of_float (fmul current (of_int 1000)) with
      | Raise e => Raise e
      | Ok c_int => pack_II v_int c_int
      end
  end.

(** The frame [send_command] hands to [bus.send]: error code 0, scope
    0x0A, the command, the target module as destination and the monitor
    address 0xF0 as source; eight zero bytes when no data is given. *)
Definition send_command (cmd : Z) (payload : option (list byte)) (target_addr : Z)
    : Message :=
  let can_id := encodeId 0x00 0x0A cmd target_addr 0xF0 in
  let payload := match payload with
                 | None => repeat x00 8
                 | Some d => d
                 end in
  {| arbitration_id := can_id; data := payload;
     is_extended_id := true; is_error_frame := false |}.

End Client.

(** * Basic facts *)

Section Frame.
Context {X : Type} (obs : World -> X).

Lemma keeps_ret {A} (a : A) : keeps obs (ret a).
Proof. intros w; reflexivity. Qed.

Lemma keeps_lift {A} (r : result A) : keeps obs (lift r).
Proof. intros w; reflexivity. Qed.

Lemma keeps_raise {A} (e : exn) : keeps obs (@raise A e).
Proof. intros w; reflexivity. Qed.

Lemma keeps_get_self : keeps obs get_self.
Proof. intros w; reflexivity. Qed.

Lemma keeps_bind {A B} (c : M A) (k : A -> M B) :
  keeps obs c -> (forall a, keeps obs (k a)) -> keeps obs (bind c k).
Proof.
  intros Hc Hk w. unfold bind.
  specialize (Hc w). destruct (c w) as [w' [a | e]]; simpl in *.
  - rewrite Hk. exact Hc.
  - exact Hc.
Qed.

Lemma keeps_if {A} (b : bool) (c1 c2 : M A) :
  keeps obs c1 -> keeps obs c2 -> keeps obs (if b then c1 else c2).
Proof. destruct b; auto. Qed.

Lemma keeps_some {A} (c : M A) : keeps obs c -> keeps obs (some c).
Proof. intros H. apply keeps_bind; [exact H | intros; apply keeps_ret]. Qed.
End Frame.

Create HintDb keeps.
#[local] Hint Resolve keeps_ret keeps_lift keeps_raise keeps_get_self
  keeps_bind keeps_if keeps_some : keeps.

Lemma put_self_keeps_sent s : keeps sent (put_self s).
Proof. intros w; reflexivity. Qed.
Lemma put_self_keeps_routed s : keeps routed (put_self s).
Proof. intros w; reflexivity. Qed.
Lemma put_self_keeps_slept s : keeps slept (put_self s).
Proof. intros w; reflexivity. Qed.
Lemma bus_send_keeps_self m : keeps self (bus_send m).
Proof. intros w; reflexivity. Qed.
Lemma bus_send_keeps_routed m : keeps routed (bus_send m).
Proof. intros w; reflexivity. Qed.
Lemma bus_send_keeps_slept m : keeps slept (bus_send m).
Proof. intros w; reflexivity. Qed.
Lemma time_sleep_keeps_self d : keeps self (time_sleep d).
Proof. intros w; reflexivity. Qed.
Lemma time_sleep_keeps_routed d : keeps routed (time_sleep d).
Proof. intros w; reflexivity. Qed.
Lemma time_sleep_keeps_sent d : keeps sent (time_sleep d).
Proof. intros w; reflexivity. Qed.
Lemma record_call_keeps_self c : keeps self (record_call c).
Proof. intros w; reflexivity. Qed.
Lemma record_call_keeps_sent c : keeps sent (record_call c).
Proof. intros w; reflexivity. Qed.
Lemma record_call_keeps_slept c : keeps slept (record_call c).
Proof. intros w; reflexivity. Qed.

#[local] Hint Resolve put_self_keeps_sent put_self_keeps_routed
  put_self_keeps_slept bus_send_keeps_self bus_send_keeps_routed
  bus_send_keeps_slept time_sleep_keeps_self time_sleep_keeps_routed
  time_sleep_keeps_sent record_call_keeps_self record_call_keeps_sent
  record_call_keeps_slept : keeps.

(** Unfold a handler and discharge the frame condition piece by piece. *)
Ltac keeps_tac :=
  repeat first
    [ solve [auto with keeps]
    | progress intros
    | apply keeps_bind
    | apply keeps_if
    | match goal with
      | |- keeps _ (match ?x with _ => _ end) => destruct x
      end ].

(** The reading handlers never write the object. *)
Lemma read_module_float_keeps_self : keeps self _handle_read_module_float.
Proof. unfold _handle_read_module_float. keeps_tac. Qed.

Lemma read_status_keeps_self : keeps self _handle_read_status.
Proof. unfold _handle_read_status. keeps_tac. Qed.

Lemma read_power_state_keeps_self : keeps self _handle_read_power_state.
Proof. unfold _handle_read_power_state. keeps_tac. Qed.

Lemma read_output_setting_keeps_self : keeps self _handle_read_output_setting.
Proof. unfold _handle_read_output_setting. keeps_tac. Qed.

Lemma read_system_fixed_keeps_self : keeps self _handle_read_system_fixed.
Proof. unfold _handle_read_system_fixed. keeps_tac. Qed.

Lemma read_module_info_keeps_self : keeps self _handle_read_module_info.
Proof. unfold _handle_read_module_info. keeps_tac. Qed.

Lemma read_module_external_keeps_self : keeps self _handle_read_module_external.
Proof. unfold _handle_read_module_external. keeps_tac. Qed.

Lemma send_response_keeps_self cmd d t : keeps self (_send_response cmd d t).
Proof. unfold _send_response. keeps_tac. Qed.

#[local] Hint Resolve read_module_float_keeps_self read_status_keeps_self
  read_power_state_keeps_self read_output_setting_keeps_self
  read_system_fixed_keeps_self read_module_info_keeps_self
  read_module_external_keeps_self send_response_keeps_self : keeps.

(** No handler sends, sleeps or records a call: whatever [put_self]
    leaves alone, the whole dispatch chain leaves alone. *)
Section HandlersKeep.
Context {X : Type} (obs : World -> X).
Hypothesis put_keeps : forall s, keeps obs (put_self s).

Lemma dispatch_keeps cmd payload device_mode dest :
  keeps obs (dispatch cmd payload device_mode dest).
Proof.
  unfold dispatch, _handle_read_system_float, _handle_read_module_float,
    _handle_read_status, _handle_read_system_fixed, _handle_read_module_fixed,
    _handle_read_system_fixed, _handle_read_module_info,
    _handle_read_module_external, _handle_power_control,
    _handle_read_power_state, _handle_set_output_fixed, _handle_set_output,
    _handle_read_output_setting, some.
  keeps_tac.
Qed.
End HandlersKeep.

Lemma dispatch_keeps_sent cmd payload device_mode dest :
  keeps sent (dispatch cmd payload device_mode dest).
Proof. apply dispatch_keeps. auto with keeps. Qed.

Lemma dispatch_keeps_routed cmd payload device_mode dest :
  keeps routed (dispatch cmd payload device_mode dest).
Proof. apply dispatch_keeps. auto with keeps. Qed.

Lemma send_response_keeps_routed cmd d t : keeps routed (_send_response cmd d t).
Proof. unfold _send_response. keeps_tac. Qed.

#[local] Hint Resolve dispatch_keeps_sent dispatch_keeps_routed
  send_response_keeps_routed : keeps.

(** Every call of the router is recorded once, whatever the handler does. *)
Lemma route_command_routed cmd payload remote_src device_mode dest w :
  routed (fst (_route_command cmd payload remote_src device_mode dest w))
  = routed w ++ [ {| call_cmd := cmd; call_data := payload;
                     call_remote_src := remote_src;
                     call_device_mode := device_mode;
                     call_dest_addr := dest |} ].
Proof.
  unfold _route_command. unfold bind at 1. cbn [record_call].
  match goal with
  | |- routed (fst (?c ?w1)) = _ =>
      assert (K : keeps routed c) by keeps_tac; rewrite (K w1)
  end.
  reflexivity.
Qed.

(** * The identifier codec *)

Lemma testbit_field (f k j : Z) :
  0 <= f < 2 ^ k -> j < 0 \/ k <= j -> Z.testbit f j = false.
Proof.
  intros Hf [Hj | Hj].
  - apply Z.testbit_neg_r; exact Hj.
  - destruct (Z.eq_dec f 0) as [-> | Hnz]; [apply Z.bits_0 |].
    apply Z.bits_above_log2; [lia |].
    assert (0 <= k) by (destruct (Z.le_gt_cases 0 k); [assumption |];
                        rewrite Z.pow_neg_r in Hf; lia).
    assert (Z.log2 f < k) by (apply Z.log2_lt_pow2; lia).
    lia.
Qed.

(** Decide one field of a packed identifier bit by bit: the mask [Z.ones k]
    selects the bits below [k]; every other field lies outside them. *)
Ltac field_bits k :=
  apply Z.bits_inj'; intros i Hi;
  rewrite Z.land_spec; rewrite ?Z.shiftr_spec by lia; rewrite ?Z.add_0_r;
  unfold encodeId; rewrite !Z.lor_spec, !Z.shiftl_spec by lia;
  rewrite (Z.testbit_ones_nonneg k i) by lia;
  rewrite ?Z.add_simpl_r, ?Z.sub_0_r;
  destruct (Z.ltb_spec i k);
  repeat match goal with
    | H : 0 <= ?f < 2 ^ ?n |- context [Z.testbit ?f ?j] =>
        rewrite (testbit_field f n j H) by lia
    end;
  rewrite ?orb_false_r, ?orb_false_l, ?andb_true_r, ?andb_false_r;
  reflexivity.

Lemma decode_encode (e s c d r : Z) :
  0 <= e < 2 ^ 3 -> 0 <= s < 2 ^ 4 -> 0 <= c < 2 ^ 6 ->
  0 <= d < 2 ^ 8 -> 0 <= r < 2 ^ 8 ->
  decodeId (encodeId e s c d r) = mkId e s c d r.
Proof.
  intros He Hs Hc Hd Hr. unfold decodeId. f_equal.
  - change 0x07 with (Z.ones 3). field_bits 3.
  - change 0x0F with (Z.ones 4). field_bits 4.
  - change 0x3F with (Z.ones 6). field_bits 6.
  - change 0xFF with (Z.ones 8). field_bits 8.
  - change 0xFF with (Z.ones 8).
    rewrite <- (Z.shiftr_0_r (encodeId e s c d r)). field_bits 8.
Qed.

(** C2: for every tuple within the field widths (error code 0..7, scope
    0..15, command 0..0x3F, destination and source 0..0xFF), decoding the
    packed identifier gives the tuple back. *)
Theorem decodeId_encodeId_roundtrip (errorCode scope command dest src : Z) :
  0 <= errorCode <= 7 -> 0 <= scope <= 15 -> 0 <= command <= 0x3F ->
  0 <= dest <= 0xFF -> 0 <= src <= 0xFF ->
  decodeId (encodeId errorCode scope command dest src)
  = {| err_code := errorCode; device_no := scope; cmd_no := command;
       dest_addr := dest; src_addr := src |}.
Proof.
  intros. apply decode_encode; lia.
Qed.

Lemma decodeId_encodeId_roundtrip_witness :
  decodeId (encodeId 5 0x0B 0x1C 0x3F 0xF0)
  = {| err_code := 5; device_no := 0x0B; cmd_no := 0x1C;
       dest_addr := 0x3F; src_addr := 0xF0 |}.
Proof.
  apply (decodeId_encodeId_roundtrip 5 0x0B 0x1C 0x3F 0xF0); lia.
Defined.

Lemma land_ones_range (x k : Z) : 0 <= k -> 0 <= Z.land x (Z.ones k) < 2 ^ k.
Proof.
  intros Hk. rewrite Z.land_ones by exact Hk.
  apply Z.mod_pos_bound. apply Z.pow_pos_nonneg; lia.
Qed.

(** Every decoded field lies within its width, whatever the identifier. *)
Lemma decodeId_range (can_id : Z) :
  let f := decodeId can_id in
  0 <= err_code f < 2 ^ 3 /\ 0 <= device_no f < 2 ^ 4 /\
  0 <= cmd_no f < 2 ^ 6 /\ 0 <= dest_addr f < 2 ^ 8 /\ 0 <= src_addr f < 2 ^ 8.
Proof.
  unfold decodeId; cbn [err_code device_no cmd_no dest_addr src_addr].
  change 7 with (Z.ones 3). change 15 with (Z.ones 4).
  change 63 with (Z.ones 6). change 255 with (Z.ones 8).
  repeat split; apply land_ones_range; lia.
Qed.

(** * The receive filter *)

Lemma bind_get_self {A} (k : InfyModuleSimulator -> M A) (w : World) :
  bind get_self k w = k (self w) w.
Proof. reflexivity. Qed.

Lemma bind_ret {A B} (a : A) (k : A -> M B) (w : World) :
  bind (ret a) k w = k a w.
Proof. reflexivity. Qed.

Lemma bind_lift_ok {A B} (a : A) (k : A -> M B) (w : World) :
  bind (lift (Ok a)) k w = k a w.
Proof. reflexivity. Qed.

Lemma bind_raised {A B} (c : M A) (k : A -> M B) (w w' : World) (e : exn) :
  c w = (w', Raise e) -> bind c k w = (w', Raise e).
Proof. intros H. unfold bind. rewrite H. reflexivity. Qed.

Lemma bind_returned {A B} (c : M A) (k : A -> M B) (w w' : World) (a : A) :
  c w = (w', Ok a) -> bind c k w = k a w'.
Proof. intros H. unfold bind. rewrite H. reflexivity. Qed.

(** [_route_command], one step at a time. *)
Lemma route_command_run cmd payload remote_src device_mode dest w :
  _route_command cmd payload remote_src device_mode dest w
  = match dispatch cmd payload device_mode dest
            {| self := self w; sent := sent w; slept := slept w;
               routed := routed w ++ [ {| call_cmd := cmd; call_data := payload;
                                          call_remote_src := remote_src;
                                          call_device_mode := device_mode;
                                          call_dest_addr := dest |} ] |} with
    | (w2, Ok reply_data) =>
        if truthy reply_data
        then _send_response cmd (match reply_data with Some d => d | None => [] end)
               remote_src w2
        else (w2, Ok tt)
    | (w2, Raise e) => (w2, Raise e)
    end.
Proof.
  unfold _route_command, bind, record_call.
  destruct (dispatch _ _ _ _ _) as [w2 [rd | e]]; [| reflexivity].
  destruct (truthy rd); reflexivity.
Qed.

Lemma bind_lift_raise {A B} (e : exn) (k : A -> M B) (w : World) :
  bind (lift (Raise e)) k w = (w, Raise e).
Proof. reflexivity. Qed.

Lemma app_one_neq {A} (l : list A) (a : A) : l <> l ++ [a].
Proof.
  intros H. apply (f_equal (@length A)) in H.
  rewrite length_app in H. simpl in H. lia.
Qed.

(** What [_process_message] does, by the value of its filter. *)
Lemma process_message_cases (msg : Message) (w : World) :
  let f := decodeId (arbitration_id msg) in
  (for_me (module_id (self w)) (group_id (self w)) (device_no f) (dest_addr f) /\
   _process_message msg w
   = _route_command (cmd_no f) (data msg) (src_addr f) (device_no f) (dest_addr f) w)
  \/
  (~ for_me (module_id (self w)) (group_id (self w)) (device_no f) (dest_addr f) /\
   _process_message msg w = (w, Ok tt)).
Proof.
  intros f. unfold _process_message, bind, get_self. fold f. unfold for_me.
  destruct (Z.eqb_spec (dest_addr f) 0x3F) as [E1 | E1]; [left; split; auto |].
  destruct (Z.eqb_spec (device_no f) 0x0A) as [E2 | E2];
    destruct (Z.eqb_spec (dest_addr f) (module_id (self w))) as [E3 | E3];
    cbn [andb]; try (left; split; [auto | reflexivity]);
    destruct (Z.eqb_spec (device_no f) 0x0B) as [E4 | E4];
    destruct (Z.eqb_spec (dest_addr f) (group_id (self w))) as [E5 | E5];
    cbn [andb]; try (left; split; [auto | reflexivity]);
    right; (split; [intros [? | [[? ?] | [? ?]]]; congruence || lia | reflexivity]).
Qed.

(** C1: while the module runs, a received (non-error) frame reaches the
    router exactly when its source byte differs from the module id and it
    is addressed to this module (destination 0x3F in any scope, or scope
    0x0A with the module id, or scope 0x0B with the group id); the router
    is then called with the decoded fields, and every other frame leaves
    the world as it was. *)
Theorem receive_routes_iff_for_me (w : World) (msg : Message) :
  running (self w) = true -> is_error_frame msg = false ->
  let f := decodeId (arbitration_id msg) in
  let me := self w in
  let accepted :=
    src_addr f <> module_id me /\
    for_me (module_id me) (group_id me) (device_no f) (dest_addr f) in
  let w' := fst (_receive_body msg w) in
  (routed w' = routed w ++ [call_of msg] <-> accepted) /\
  (accepted ->
   w' = fst (_route_command (cmd_no f) (data msg) (src_addr f)
                            (device_no f) (dest_addr f) w)) /\
  (~ accepted -> w' = w).
Proof.
  intros Hrun Herr f me accepted w'.
  assert (Hsrc : src_addr f = Z.land (arbitration_id msg) 0xFF) by reflexivity.
  assert (Hbody :
    (accepted /\
     w' = fst (_route_command (cmd_no f) (data msg) (src_addr f)
                              (device_no f) (dest_addr f) w))
    \/ (~ accepted /\ w' = w)).
  { subst w' accepted me. unfold _receive_body. rewrite bind_get_self.
    rewrite Hrun, Herr. cbn [negb].
    destruct (Z.eqb_spec (Z.land (arbitration_id msg) 0xFF) (module_id (self w)))
      as [E | E].
    - right. split; [| reflexivity]. intros [H _]. apply H. rewrite Hsrc. exact E.
    - unfold bind.
      destruct (process_message_cases msg w) as [[Hfor Hp] | [Hnot Hp]];
        fold f in Hfor || fold f in Hnot; rewrite Hp.
      + left. split; [split; [rewrite Hsrc; exact E | exact Hfor] |].
        destruct (_route_command _ _ _ _ _ w) as [w1 [[] | e]]; reflexivity.
      + right. split; [intros [_ H]; exact (Hnot H) | reflexivity]. }
  destruct Hbody as [[Hacc Hw] | [Hnacc Hw]].
  - split; [| split]; [| intros _; exact Hw | intros H; contradiction].
    split; [intros _; exact Hacc | intros _].
    rewrite Hw, route_command_routed. reflexivity.
  - split; [| split]; [| intros H; contradiction | intros _; exact Hw].
    split; [| intros H; contradiction].
    rewrite Hw. intros H. exfalso. exact (app_one_neq _ _ H).
Qed.

Lemma receive_routes_iff_for_me_witness :
  let msg := {| arbitration_id := encodeId 0 0x0A 0x1A 0x3F 0xF0; data := [x01];
                is_extended_id := true; is_error_frame := false |} in
  routed (fst (_receive_body msg world0)) = routed world0 ++ [call_of msg].
Proof.
  intros msg.
  apply (proj1 (receive_routes_iff_for_me world0 msg eq_refl eq_refl)).
  split; [vm_compute; discriminate | left; reflexivity].
Defined.

(** * Power control *)

Lemma Z_of_byte_zero (b : byte) : (Z_of_byte b =? 0x00) = true <-> b = x00.
Proof.
  split.
  - destruct b; vm_compute; intros H; (reflexivity || discriminate H).
  - intros ->. reflexivity.
Qed.

(** Run the monadic plumbing of a handler, leaving numbers alone. *)
Ltac run_handler :=
  cbv beta iota zeta delta
    [bind lift ret raise some get_self put_self index0 fst snd
     self sent slept routed
     module_id group_id voltage_out current_out set_voltage set_current
     max_current cap_voltage_max cap_voltage_min cap_power_rated
     is_power_on is_connected running].

(** C5: on a command-0x1A payload whose first byte is 0x00 the module
    switches on, its measured voltage becomes the setpoint voltage and its
    measured current the setpoint current divided by 2; on any other
    first byte it switches off and both measured values become 0.  The
    bytes after the first play no part, and the setpoint stays as it was. *)
Theorem power_control_effect (w : World) (b : byte) (rest : list byte) :
  let s := self w in
  let r := _handle_power_control (b :: rest) w in
  let s' := self (fst r) in
  snd r = Ok tt /\
  (b = x00 ->
     is_power_on s' = true /\ voltage_out s' = set_voltage s /\
     current_out s' = fdiv (set_current s) (of_int 2)) /\
  (b <> x00 ->
     is_power_on s' = false /\ voltage_out s' = S754_zero false /\
     current_out s' = S754_zero false) /\
  set_voltage s' = set_voltage s /\ set_current s' = set_current s /\
  (forall rest', _handle_power_control (b :: rest') w = r).
Proof.
  intros s r s'. subst s' r s. unfold _handle_power_control.
  destruct (Z.eqb_spec (Z_of_byte b) 0x00) as [E | E].
  - assert (Hb : b = x00) by (apply Z_of_byte_zero, Z.eqb_eq, E).
    run_handler. rewrite (proj2 (Z.eqb_eq _ _) E). run_handler.
    split; [reflexivity |]. split; [intros _; repeat split |].
    split; [intros Hn; contradiction |]. repeat split.
  - assert (Hb : b <> x00)
      by (intros H; apply E, Z.eqb_eq, Z_of_byte_zero, H).
    run_handler. rewrite (proj2 (Z.eqb_neq _ _) E). run_handler.
    split; [reflexivity |]. split; [intros Hn; contradiction |].
    split; [intros _; repeat split |]. repeat split.
Qed.

(** C10: a second power-control command selecting the same action as the
    first (first byte 0x00 both times, or nonzero both times) leaves the
    world exactly as the first one left it. *)
Theorem power_control_idempotent (w : World) (b b' : byte) (rest rest' : list byte) :
  (b = x00 <-> b' = x00) ->
  let once := fst (_handle_power_control (b :: rest) w) in
  _handle_power_control (b' :: rest') once = (once, Ok tt).
Proof.
  intros Hsame once. subst once. unfold _handle_power_control.
  destruct (Z.eqb_spec (Z_of_byte b) 0x00) as [E | E].
  - assert (Hb : b = x00) by (apply Z_of_byte_zero, Z.eqb_eq, E).
    assert (E' : (Z_of_byte b' =? 0x00) = true)
      by (apply Z_of_byte_zero, Hsame, Hb).
    run_handler. rewrite (proj2 (Z.eqb_eq _ _) E), E'. run_handler.
    reflexivity.
  - assert (E' : (Z_of_byte b' =? 0x00) = false).
    { apply not_true_is_false. intros H. apply E, Z.eqb_eq, Z_of_byte_zero.
      apply Hsame, Z_of_byte_zero, H. }
    run_handler. rewrite (proj2 (Z.eqb_neq _ _) E), E'. run_handler.
    reflexivity.
Qed.

Lemma power_control_idempotent_witness :
  let once := fst (_handle_power_control [x00; x07] world0) in
  _handle_power_control [x00] once = (once, Ok tt).
Proof.
  apply (power_control_idempotent world0 x00 x00 [x07] []).
  split; intros; reflexivity.
Defined.

(** * Set output *)

Lemma slice_0_4 (b0 b1 b2 b3 : byte) (rest : list byte) :
  slice (b0 :: b1 :: b2 :: b3 :: rest) 0 4 = [b0; b1; b2; b3].
Proof. reflexivity. Qed.

Lemma slice_4_8 (b0 b1 b2 b3 b4 b5 b6 b7 : byte) (rest : list byte) :
  slice (b0 :: b1 :: b2 :: b3 :: b4 :: b5 :: b6 :: b7 :: rest) 4 8
  = [b4; b5; b6; b7].
Proof. reflexivity. Qed.

Lemma unpack_I_4 (b0 b1 b2 b3 : byte) :
  unpack_I [b0; b1; b2; b3] = Ok (be_value [b0; b1; b2; b3]).
Proof. reflexivity. Qed.

(** What [_handle_set_output] does on a payload of at least 8 bytes. *)
Lemma set_output_run (w : World) (b0 b1 b2 b3 b4 b5 b6 b7 : byte) (rest : list byte) :
  let s := self w in
  let new_voltage := fdiv (of_int (be_value [b0; b1; b2; b3])) (of_int 1000) in
  let new_current := fdiv (of_int (be_value [b4; b5; b6; b7])) (of_int 1000) in
  _handle_set_output (b0 :: b1 :: b2 :: b3 :: b4 :: b5 :: b6 :: b7 :: rest) w
  = ({| self :=
          {| module_id := module_id s; group_id := group_id s;
             voltage_out := if is_power_on s then new_voltage else voltage_out s;
             current_out := current_out s;
             set_voltage := new_voltage; set_current := new_current;
             max_current := max_current s;
             cap_voltage_max := cap_voltage_max s;
             cap_voltage_min := cap_voltage_min s;
             cap_power_rated := cap_power_rated s;
             is_power_on := is_power_on s;
             is_connected := is_connected s; running := running s |};
        sent := sent w; slept := slept w; routed := routed w |}, Ok tt).
Proof.
  intros s nv nc. unfold _handle_set_output.
  rewrite slice_0_4, slice_4_8, !unpack_I_4. reflexivity.
Qed.

(** C6: on a payload of 8 bytes (or more) the set-output handler, under
    either command, stores the setpoint voltage (mV / 1000.0) and current
    (mA / 1000.0); the measured voltage follows the new setpoint when the
    module is on and stays when it is off; the measured current, the power
    flag, the capability constants, the two ids and the remaining flags
    stay. *)
Theorem set_output_effect (w : World) (b0 b1 b2 b3 b4 b5 b6 b7 : byte) (rest : list byte) :
  let payload := b0 :: b1 :: b2 :: b3 :: b4 :: b5 :: b6 :: b7 :: rest in
  let mv := be_value [b0; b1; b2; b3] in
  let ma := be_value [b4; b5; b6; b7] in
  let s := self w in
  let r := _handle_set_output payload w in
  let s' := self (fst r) in
  snd r = Ok tt /\ _handle_set_output_fixed payload w = r /\
  set_voltage s' = fdiv (of_int mv) (of_int 1000) /\
  set_current s' = fdiv (of_int ma) (of_int 1000) /\
  voltage_out s' = (if is_power_on s then set_voltage s' else voltage_out s) /\
  current_out s' = current_out s /\
  is_power_on s' = is_power_on s /\
  max_current s' = max_current s /\
  cap_voltage_max s' = cap_voltage_max s /\
  cap_voltage_min s' = cap_voltage_min s /\
  cap_power_rated s' = cap_power_rated s /\
  module_id s' = module_id s /\ group_id s' = group_id s /\
  is_connected s' = is_connected s /\ running s' = running s.
Proof.
  intros payload mv ma s r s'. subst s' r payload.
  rewrite set_output_run. cbn [fst snd self].
  repeat split; reflexivity.
Qed.

(** * Which commands write the device state *)

Lemma dispatch_read_keeps_self cmd payload device_mode dest :
  cmd <> 0x1A -> cmd <> 0x1B -> cmd <> 0x1C ->
  keeps self (dispatch cmd payload device_mode dest).
Proof.
  intros H1 H2 H3. unfold dispatch.
  rewrite (proj2 (Z.eqb_neq cmd 0x1A) H1), (proj2 (Z.eqb_neq cmd 0x1B) H2),
    (proj2 (Z.eqb_neq cmd 0x1C) H3).
  unfold _handle_read_system_float, _handle_read_module_fixed.
  keeps_tac.
Qed.

(** C8: routing a command other than 0x1A, 0x1B and 0x1C (the reading
    commands 0x01, 0x03, 0x04, 0x08, 0x09, 0x0A, 0x0C and every command
    outside the dispatch table) leaves every field of the device state as
    it was, whether the handler replies, stays silent or raises. *)
Theorem route_non_writing_keeps_state
    (w : World) (cmd : Z) (payload : list byte) (remote_src device_mode dest : Z) :
  cmd <> 0x1A -> cmd <> 0x1B -> cmd <> 0x1C ->
  self (fst (_route_command cmd payload remote_src device_mode dest w)) = self w.
Proof.
  intros H1 H2 H3. revert w. change (keeps self (_route_command cmd payload remote_src device_mode dest)).
  unfold _route_command.
  pose proof (dispatch_read_keeps_self cmd payload device_mode dest H1 H2 H3).
  keeps_tac.
Qed.

Lemma route_non_writing_keeps_state_witness :
  self (fst (_route_command 0x0C [] 0xF0 0x0A 0x00 world0)) = self world0.
Proof.
  apply (route_non_writing_keeps_state world0 0x0C [] 0xF0 0x0A 0x00); lia.
Defined.

(** * Undersized payloads *)

(** An empty power-control payload is not rejected: [data[0]] raises
    [IndexError], nothing catches it, and the receive loop ends before the
    next frame (a well-formed power-on here) is looked at. *)
Lemma empty_power_control_not_graceful :
  let bad := {| arbitration_id := encodeId 0 0x0A 0x1A 0x00 0xF0; data := [];
                is_extended_id := true; is_error_frame := false |} in
  let good := {| arbitration_id := encodeId 0 0x0A 0x1A 0x00 0xF0; data := [x00];
                 is_extended_id := true; is_error_frame := false |} in
  ~ fails_gracefully world0 0x1A [] 0xF0 0x0A 0x00 /\
  snd (_route_command 0x1A [] 0xF0 0x0A 0x00 world0) = Raise IndexError /\
  snd (_receive_loop [bad; good] world0) = Raise IndexError /\
  routed (fst (_receive_loop [bad; good] world0)) = [call_of bad] /\
  is_power_on (self (fst (_receive_loop [bad; good] world0))) = false /\
  is_power_on (self (fst (_receive_loop [good] world0))) = true.
Proof.
  cbv zeta. split; [| repeat split; vm_compute; reflexivity].
  unfold fails_gracefully. intros [H _]. vm_compute in H. discriminate H.
Qed.

Lemma slice_short_0_4 (payload : list byte) :
  (length payload < 8)%nat ->
  unpack_I (slice payload 0 4) = Raise StructError
  \/ unpack_I (slice payload 4 8) = Raise StructError.
Proof.
  intros H. unfold unpack_I, slice.
  do 8 (destruct payload as [| ? payload]; [cbn; auto |]).
  cbn in H. lia.
Qed.

Lemma set_output_short (payload : list byte) (w : World) :
  (length payload < 8)%nat ->
  _handle_set_output payload w = (w, Raise StructError).
Proof.
  intros H. unfold _handle_set_output, bind, lift.
  destruct (slice_short_0_4 payload H) as [E | E].
  - rewrite E. reflexivity.
  - rewrite E. destruct (unpack_I (slice payload 0 4)) as [v | e] eqn:E0;
      [reflexivity |].
    unfold unpack_I in E0. destruct (Nat.eqb _ 4); congruence.
Qed.

(** C3, as the code has it: a power-control frame with an empty payload
    raises [IndexError], and a set-output frame (0x1B or 0x1C) with fewer
    than 8 bytes raises [struct.error]; in both cases no field of the
    device state has been written and no reply has been sent when the
    exception leaves the router. *)
Theorem undersized_payload_raises
    (w : World) (cmd : Z) (payload : list byte) (remote_src device_mode dest : Z) :
  cmd = 0x1A \/ cmd = 0x1B \/ cmd = 0x1C ->
  (length payload < required_length cmd)%nat ->
  let r := _route_command cmd payload remote_src device_mode dest w in
  snd r = Raise (if cmd =? 0x1A then IndexError else StructError) /\
  self (fst r) = self w /\ sent (fst r) = sent w.
Proof.
  intros Hcmd Hlen r. subst r. rewrite route_command_run.
  destruct Hcmd as [-> | [-> | ->]]; cbn [Z.eqb Pos.eqb] in *;
    unfold required_length in Hlen; cbn in Hlen; unfold dispatch;
    cbn [Z.eqb Pos.eqb].
  - destruct payload; [| cbn in Hlen; lia]. repeat split.
  - rewrite (bind_raised _ _ _ _ _ (set_output_short payload _ Hlen)).
    repeat split.
  - unfold _handle_set_output_fixed.
    rewrite (bind_raised _ _ _ _ _ (set_output_short payload _ Hlen)).
    repeat split.
Qed.

Lemma undersized_payload_raises_witness :
  let r := _route_command 0x1B [x00; x07; xa1] 0xF0 0x0A 0x00 world0 in
  snd r = Raise StructError /\ self (fst r) = self world0 /\ sent (fst r) = sent world0.
Proof.
  apply (undersized_payload_raises world0 0x1B [x00; x07; xa1] 0xF0 0x0A 0x00).
  - right; left; reflexivity.
  - cbn. lia.
Defined.

(** * The 500 V / 10 A scenario *)

Lemma payload_500V_10A :
  be_bytes 4 500000 ++ be_bytes 4 10000 = [x00; x07; xa1; x20; x00; x00; x27; x10].
Proof. vm_compute. reflexivity. Qed.

Lemma volts_500 : fdiv (of_int (be_value [x00; x07; xa1; x20])) (of_int 1000) = of_int 500.
Proof. vm_compute. reflexivity. Qed.

Lemma amps_10 : fdiv (of_int (be_value [x00; x00; x27; x10])) (of_int 1000) = of_int 10.
Proof. vm_compute. reflexivity. Qed.

Lemma millivolts_500 : int_of_float (fmul (of_int 500) (of_int 1000)) = Ok 500000.
Proof. vm_compute. reflexivity. Qed.

Lemma milliamps_10 : int_of_float (fmul (of_int 10) (of_int 1000)) = Ok 10000.
Proof. vm_compute. reflexivity. Qed.

(** [_handle_read_output_setting] when both products convert and fit. *)
Lemma read_output_setting_run (w : World) (v_int c_int : Z) (reply : list byte) :
  int_of_float (fmul (set_voltage (self w)) (of_int 1000)) = Ok v_int ->
  int_of_float (fmul (set_current (self w)) (of_int 1000)) = Ok c_int ->
  pack_II v_int c_int = Ok reply ->
  _handle_read_output_setting w = (w, Ok reply).
Proof.
  intros Hv Hc Hp. unfold _handle_read_output_setting.
  rewrite bind_get_self. unfold bind, lift. rewrite Hv, Hc, Hp. reflexivity.
Qed.

(** C7: whatever the device state, a command-0x1B frame carrying
    uint32BE(500000) ++ uint32BE(10000) sets the setpoint to 500.0 V and
    10.0 A, and the reply sent for it carries the setpoint read back as
    two big-endian uint32 that decode to 500000 and 10000. *)
Theorem set_output_500V_10A_readback (w : World) (remote_src device_mode dest : Z) :
  let payload := be_bytes 4 500000 ++ be_bytes 4 10000 in
  let r := _route_command 0x1B payload remote_src device_mode dest w in
  let w' := fst r in
  snd r = Ok tt /\
  set_voltage (self w') = of_int 500 /\ set_current (self w') = of_int 10 /\
  _handle_read_output_setting w' = (w', Ok payload) /\
  exists reply,
    sent w' = sent w ++ [reply] /\ data reply = payload /\
    unpack_I (slice (data reply) 0 4) = Ok 500000 /\
    unpack_I (slice (data reply) 4 8) = Ok 10000.
Proof.
  intros payload r w'. subst w' r payload. rewrite payload_500V_10A.
  set (r := _route_command _ _ _ _ _ _).
  set (reply := {| arbitration_id := encodeId 0x00 0x0A 0x1B remote_src (module_id (self w));
                   data := [x00; x07; xa1; x20; x00; x00; x27; x10];
                   is_extended_id := true; is_error_frame := false |}).
  assert (Hrun : exists w2,
             r = (w2, Ok tt) /\ sent w2 = sent w ++ [reply] /\
             set_voltage (self w2) = of_int 500 /\
             set_current (self w2) = of_int 10).
  { subst r. rewrite route_command_run.
    unfold dispatch. cbn [Z.eqb Pos.eqb].
    rewrite (bind_returned _ _ _ _ _ (set_output_run _ _ _ _ _ _ _ _ _ _)).
    cbn [self sent slept routed]. rewrite volts_500, amps_10.
    set (w1 := {| self := _; sent := sent w; slept := slept w; routed := _ |}).
    assert (Hread : _handle_read_output_setting w1
                    = (w1, Ok [x00; x07; xa1; x20; x00; x00; x27; x10])).
    { apply (read_output_setting_run w1 500000 10000).
      - exact millivolts_500.
      - exact milliamps_10.
      - vm_compute. reflexivity. }
    unfold some. rewrite (bind_returned _ _ _ _ _ Hread).
    unfold ret. cbn [truthy].
    unfold _send_response. rewrite bind_get_self. unfold bus_send.
    eexists. split; [reflexivity |]. repeat split. }
  destruct Hrun as (w2 & Hr & Hsent & Hv & Hc).
  rewrite Hr. cbn [fst snd].
  split; [reflexivity |]. split; [exact Hv |]. split; [exact Hc |].
  split.
  - apply (read_output_setting_run w2 500000 10000).
    + rewrite Hv. exact millivolts_500.
    + rewrite Hc. exact milliamps_10.
    + vm_compute. reflexivity.
  - exists reply. split; [exact Hsent |]. split; [reflexivity |].
    split; vm_compute; reflexivity.
Qed.

(** * Binary64 rounding: bounds on the results *)

(** ** Powers of two and digit counts *)

Lemma pow2_pos (k : Z) : 0 <= k -> 0 < 2 ^ k.
Proof. intros. apply Z.pow_pos_nonneg; lia. Qed.

Lemma pow2_split (a b : Z) : 0 <= a -> 0 <= b -> 2 ^ (a + b) = 2 ^ a * 2 ^ b.
Proof. intros. apply Z.pow_add_r; assumption. Qed.

Lemma digits2_pos_bounds (p : positive) :
  2 ^ (Zpos (digits2_pos p) - 1) <= Zpos p < 2 ^ Zpos (digits2_pos p).
Proof.
  induction p as [p IH | p IH |]; cbn [digits2_pos].
  - rewrite Pos2Z.inj_succ.
    replace (Z.succ (Zpos (digits2_pos p)) - 1) with (Z.succ (Zpos (digits2_pos p) - 1)) by lia.
    rewrite !Z.pow_succ_r by lia. lia.
  - rewrite Pos2Z.inj_succ.
    replace (Z.succ (Zpos (digits2_pos p)) - 1) with (Z.succ (Zpos (digits2_pos p) - 1)) by lia.
    rewrite !Z.pow_succ_r by lia. lia.
  - cbn. lia.
Qed.

Lemma Zdigits2_bounds (m : Z) :
  0 < m -> 0 < Zdigits2 m /\ 2 ^ (Zdigits2 m - 1) <= m < 2 ^ Zdigits2 m.
Proof.
  destruct m as [| p | p]; try lia. intros _. cbn [Zdigits2].
  split; [lia | apply digits2_pos_bounds].
Qed.

Lemma Zdigits2_unique (m d : Z) :
  2 ^ (d - 1) <= m < 2 ^ d -> 0 < m -> Zdigits2 m = d.
Proof.
  intros Hd Hm. destruct (Zdigits2_bounds m Hm) as [Hpos Hb].
  assert (0 < d).
  { destruct (Z.lt_trichotomy d 0) as [H | [H | H]]; try lia.
    - rewrite (Z.pow_neg_r 2 d) in Hd by lia. lia.
    - subst d. cbn in Hd. lia. }
  destruct (Z.lt_trichotomy (Zdigits2 m) d) as [H1 | [H1 | H1]]; [| exact H1 |].
  - assert (2 ^ Zdigits2 m <= 2 ^ (d - 1)) by (apply Z.pow_le_mono_r; lia). lia.
  - assert (2 ^ d <= 2 ^ (Zdigits2 m - 1)) by (apply Z.pow_le_mono_r; lia). lia.
Qed.

Lemma Zdigits2_le (m d : Z) : 0 < m -> 0 <= d -> m < 2 ^ d -> Zdigits2 m <= d.
Proof.
  intros Hm Hd Hlt. destruct (Zdigits2_bounds m Hm) as [Hpos Hb].
  destruct (Z.le_gt_cases (Zdigits2 m) d) as [H | H]; [exact H |].
  assert (2 ^ d <= 2 ^ (Zdigits2 m - 1)) by (apply Z.pow_le_mono_r; lia). lia.
Qed.

Lemma Zdigits2_ge (m d : Z) : 0 < m -> 2 ^ (d - 1) <= m -> d <= Zdigits2 m.
Proof.
  intros Hm Hge. destruct (Zdigits2_bounds m Hm) as [Hpos Hb].
  destruct (Z.le_gt_cases d (Zdigits2 m)) as [H | H]; [exact H |].
  assert (2 ^ Zdigits2 m <= 2 ^ (d - 1)) by (apply Z.pow_le_mono_r; lia). lia.
Qed.

(** ** Right shifts with rounding bits *)

Lemma iter_pos_invariant {A} (f : A -> A) (P : Z -> A -> Prop) :
  (forall k x, 0 <= k -> P k x -> P (k + 1) (f x)) ->
  forall p k x, 0 <= k -> P k x -> P (k + Zpos p) (iter_pos f p x).
Proof.
  intros Hstep. induction p as [p IH | p IH |]; intros k x Hk HP; cbn [iter_pos].
  - replace (k + Zpos p~1) with (k + 1 + Zpos p + Zpos p) by lia.
    apply IH; [lia |]. apply IH; [lia |]. apply Hstep; assumption.
  - replace (k + Zpos p~0) with (k + Zpos p + Zpos p) by lia.
    apply IH; [lia |]. apply IH; assumption.
  - apply Hstep; assumption.
Qed.

Lemma shr_1_m (mrs : shr_record) :
  0 <= shr_m mrs -> shr_m (shr_1 mrs) = shr_m mrs / 2.
Proof.
  destruct mrs as [m r s]. cbn [shr_m]. intros Hm.
  destruct m as [| [p | p |] | p]; cbn [shr_1 shr_m]; try lia;
    try reflexivity.
  - rewrite Pos2Z.inj_xI. apply Z.div_unique with (r := 1); lia.
  - rewrite Pos2Z.inj_xO. apply Z.div_unique with (r := 0); lia.
Qed.

Lemma shr_1_exact (mrs : shr_record) :
  0 <= shr_m mrs -> shr_m mrs mod 2 = 0 -> shr_r mrs = false -> shr_s mrs = false ->
  shr_r (shr_1 mrs) = false /\ shr_s (shr_1 mrs) = false.
Proof.
  destruct mrs as [m r s]. cbn [shr_m shr_r shr_s]. intros Hm Hmod -> ->.
  destruct m as [| [p | p |] | p]; cbn [shr_1 shr_r shr_s]; try lia; auto.
  - rewrite Pos2Z.inj_xI in Hmod.
    rewrite Z.add_comm, Z.mul_comm, Z.mod_add in Hmod by lia. discriminate Hmod.
  - discriminate Hmod.
Qed.

(** [p] right shifts divide the mantissa by [2 ^ p]; they report an
    exact result when nothing was lost. *)
Lemma iter_shr_1 (p : positive) (m : Z) (r s : bool) :
  0 <= m ->
  let mrs := iter_pos shr_1 p {| shr_m := m; shr_r := r; shr_s := s |} in
  shr_m mrs = m / 2 ^ Zpos p /\
  (m mod 2 ^ Zpos p = 0 -> r = false -> s = false ->
   shr_r mrs = false /\ shr_s mrs = false).
Proof.
  intros Hm mrs. subst mrs.
  pose (P := fun (k : Z) (x : shr_record) =>
    shr_m x = m / 2 ^ k /\
    (m mod 2 ^ k = 0 -> r = false -> s = false ->
     shr_r x = false /\ shr_s x = false)).
  assert (Hstep : forall k x, 0 <= k -> P k x -> P (k + 1) (shr_1 x)).
  { intros k x Hk [Hx Hex]. unfold P.
    assert (Hp : 0 < 2 ^ k) by (apply pow2_pos; exact Hk).
    assert (Hx0 : 0 <= shr_m x) by (rewrite Hx; apply Z.div_pos; lia).
    rewrite pow2_split by lia. change (2 ^ 1) with 2.
    split.
    - rewrite shr_1_m by exact Hx0. rewrite Hx. apply Z.div_div; lia.
    - intros Hmod Hr Hs.
      assert (Hmodk : m mod 2 ^ k = 0).
      { rewrite Z.rem_mul_r in Hmod by lia. 
        pose proof (Z.mod_pos_bound m (2 ^ k) Hp).
        pose proof (Z.mod_pos_bound (m / 2 ^ k) 2 ltac:(lia)). nia. }
      destruct (Hex Hmodk Hr Hs) as [Hr' Hs'].
      apply shr_1_exact; try assumption.
      rewrite Hx. rewrite Z.rem_mul_r in Hmod by lia.
      pose proof (Z.mod_pos_bound (m / 2 ^ k) 2 ltac:(lia)). nia. }
  replace (Zpos p) with (0 + Zpos p) by lia.
  apply (iter_pos_invariant shr_1 P Hstep p 0); [lia |].
  unfold P. cbn [shr_m shr_r shr_s]. change (2 ^ 0) with 1.
  rewrite Z.div_1_r. split; [reflexivity | intros _ Hr Hs; auto].
Qed.

Lemma fexp64_eq (e : Z) : fexp prec emax e = fexp64 e.
Proof. reflexivity. Qed.

(** ** Comparing scaled values *)

Lemma val_le_at (m1 e1 m2 e2 k : Z) :
  k <= e1 -> k <= e2 ->
  (val_le m1 e1 m2 e2 <-> m1 * 2 ^ (e1 - k) <= m2 * 2 ^ (e2 - k)).
Proof.
  intros H1 H2. unfold val_le.
  set (mn := Z.min e1 e2).
  assert (Hmn : k <= mn) by (subst mn; lia).
  assert (Hmn1 : mn <= e1) by (subst mn; lia).
  assert (Hmn2 : mn <= e2) by (subst mn; lia).
  replace (e1 - k) with ((e1 - mn) + (mn - k)) by lia.
  replace (e2 - k) with ((e2 - mn) + (mn - k)) by lia.
  rewrite (pow2_split (e1 - mn) (mn - k)), (pow2_split (e2 - mn) (mn - k)) by lia.
  assert (0 < 2 ^ (mn - k)) by (apply pow2_pos; lia).
  rewrite !Z.mul_assoc.
  split; intros H0.
  - apply Z.mul_le_mono_nonneg_r; lia.
  - apply Z.mul_le_mono_pos_r in H0; lia.
Qed.

Lemma val_le_trans (m1 e1 m2 e2 m3 e3 : Z) :
  val_le m1 e1 m2 e2 -> val_le m2 e2 m3 e3 -> val_le m1 e1 m3 e3.
Proof.
  intros H12 H23.
  set (k := Z.min e1 (Z.min e2 e3)).
  apply (val_le_at m1 e1 m2 e2 k) in H12; [| subst k; lia ..].
  apply (val_le_at m2 e2 m3 e3 k) in H23; [| subst k; lia ..].
  apply (val_le_at m1 e1 m3 e3 k); [subst k; lia .. |]. lia.
Qed.

(** A smaller value has no larger magnitude. *)
Lemma val_le_digits (m1 e1 m2 e2 : Z) :
  0 < m1 -> 0 < m2 -> val_le m1 e1 m2 e2 ->
  Zdigits2 m1 + e1 <= Zdigits2 m2 + e2.
Proof.
  intros H1 H2 Hle.
  destruct (Zdigits2_bounds m1 H1) as [Hd1 [Hlo1 _]].
  destruct (Zdigits2_bounds m2 H2) as [Hd2 [_ Hhi2]].
  set (k := Z.min e1 e2).
  apply (val_le_at m1 e1 m2 e2 k) in Hle; [| subst k; lia ..].
  assert (Hk1 : 0 <= e1 - k) by (subst k; lia).
  assert (Hk2 : 0 <= e2 - k) by (subst k; lia).
  assert (Hp1 : 0 < 2 ^ (e1 - k)) by (apply pow2_pos; lia).
  assert (Hp2 : 0 < 2 ^ (e2 - k)) by (apply pow2_pos; lia).
  assert (Hlt : 2 ^ (Zdigits2 m1 - 1 + (e1 - k)) < 2 ^ (Zdigits2 m2 + (e2 - k))).
  { rewrite (pow2_split (Zdigits2 m1 - 1) (e1 - k)),
      (pow2_split (Zdigits2 m2) (e2 - k)) by lia.
    apply Z.le_lt_trans with (m1 * 2 ^ (e1 - k)).
    - apply Z.mul_le_mono_nonneg_r; lia.
    - apply Z.le_lt_trans with (m2 * 2 ^ (e2 - k)); [exact Hle |].
      apply Z.mul_lt_mono_pos_r; lia. }
  apply Z.pow_lt_mono_r_iff in Hlt; lia.
Qed.

(** ** The two shifts of [binary_round_aux] *)

Lemma loc_of_shr_record_of_loc (m : Z) (l : location) :
  loc_of_shr_record (shr_record_of_loc m l) = l.
Proof. destruct l as [| []]; reflexivity. Qed.

Lemma shr_m_of_loc (m : Z) (l : location) : shr_m (shr_record_of_loc m l) = m.
Proof. destruct l as [| []]; reflexivity. Qed.

(** The first shift brings the mantissa to the exponent of its
    magnitude; it reports [loc_Exact] when no bit was lost. *)
Lemma shr_fexp_spec (mx ex : Z) (lx : location) :
  0 <= mx ->
  let n := fexp64 (Zdigits2 mx + ex) - ex in
  0 <= n ->
  let r := shr_fexp prec emax mx ex lx in
  snd r = ex + n /\ shr_m (fst r) = mx / 2 ^ n /\
  (lx = loc_Exact -> mx mod 2 ^ n = 0 -> loc_of_shr_record (fst r) = loc_Exact).
Proof.
  intros Hmx n Hn r. subst r. unfold shr_fexp. rewrite fexp64_eq. fold n.
  destruct n as [| p | p] eqn:En; [| | lia].
  - cbn [shr fst snd]. change (2 ^ 0) with 1. rewrite Z.div_1_r.
    rewrite shr_m_of_loc, loc_of_shr_record_of_loc.
    split; [lia |]. split; [reflexivity | auto].
  - cbn [shr fst snd].
    destruct (shr_record_of_loc mx lx) as [m0 r0 s0] eqn:Erec.
    assert (Hm0 : m0 = mx)
      by (rewrite <- (shr_m_of_loc mx lx), Erec; reflexivity).
    subst m0.
    destruct (iter_shr_1 p mx r0 s0 Hmx) as [Hm Hex].
    split; [reflexivity |]. split; [exact Hm |].
    intros -> Hmod. cbn in Erec. injection Erec as <- <-.
    destruct (Hex Hmod eq_refl eq_refl) as [Hr Hs].
    destruct (iter_pos shr_1 p _) as [m1 r1 s1]. cbn in Hr, Hs. subst.
    reflexivity.
Qed.

Lemma round_nearest_even_bounds (m : Z) (l : location) :
  m <= round_nearest_even m l <= m + 1.
Proof.
  destruct l as [| []]; cbn [round_nearest_even]; try lia.
  destruct (Z.even m); lia.
Qed.

Lemma binary_round_aux_finish (sx : bool) (mx ex : Z) (lx : location) :
  binary_round_aux prec emax sx mx ex lx
  = round_finish sx
      (round_nearest_even (shr_m (fst (shr_fexp prec emax mx ex lx)))
                          (loc_of_shr_record (fst (shr_fexp prec emax mx ex lx))))
      (snd (shr_fexp prec emax mx ex lx)).
Proof.
  unfold binary_round_aux, round_finish.
  destruct (shr_fexp prec emax mx ex lx) as [mrs' e']. reflexivity.
Qed.

(** The mantissa handed to the second shift: the quotient by [2 ^ n], or
    one more when something was lost. *)
Lemma binary_round_aux_steps (sx : bool) (mx ex : Z) (lx : location) :
  0 <= mx ->
  let n := fexp64 (Zdigits2 mx + ex) - ex in
  0 <= n ->
  exists m',
    binary_round_aux prec emax sx mx ex lx = round_finish sx m' (ex + n) /\
    mx / 2 ^ n <= m' <= mx / 2 ^ n + 1 /\
    (lx = loc_Exact -> mx mod 2 ^ n = 0 -> m' = mx / 2 ^ n).
Proof.
  intros Hmx n Hn.
  destruct (shr_fexp_spec mx ex lx Hmx Hn) as (He & Hm & Hloc).
  rewrite binary_round_aux_finish. rewrite He, Hm.
  eexists. split; [reflexivity |]. split.
  - apply round_nearest_even_bounds.
  - intros Hl Hmod. rewrite (Hloc Hl Hmod). reflexivity.
Qed.

(** The second shift, on a positive mantissa. *)
Lemma round_finish_spec (sx : bool) (m e : Z) :
  0 <= m ->
  let j := Z.max (fexp64 (Zdigits2 m + e) - e) 0 in
  round_finish sx m e
  = match m / 2 ^ j with
    | Z0 => S754_zero sx
    | Zpos p => if e + j <=? 971 then S754_finite sx p (e + j) else S754_infinity sx
    | Zneg _ => S754_nan
    end.
Proof.
  intros Hm j. unfold round_finish, shr_fexp. rewrite fexp64_eq.
  cbn [shr_record_of_loc]. subst j.
  destruct (fexp64 (Zdigits2 m + e) - e) as [| p | p] eqn:En.
  - cbn [shr shr_m Z.max Z.compare]. change (2 ^ 0) with 1.
    rewrite Z.div_1_r, Z.add_0_r. reflexivity.
  - cbn [shr]. destruct (iter_shr_1 p m false false Hm) as [Hq _].
    rewrite Hq. replace (Z.max (Zpos p) 0) with (Zpos p) by lia. reflexivity.
  - cbn [shr shr_m]. replace (Z.max (Zneg p) 0) with 0 by lia.
    change (2 ^ 0) with 1. rewrite Z.div_1_r, Z.add_0_r. reflexivity.
Qed.

(** Rounding at a grid step: a bound that is a multiple of the step is
    not crossed. *)
Lemma grid_upper (M n K m' : Z) :
  0 <= n -> M <= K * 2 ^ n ->
  m' <= M / 2 ^ n + 1 -> (M mod 2 ^ n = 0 -> m' = M / 2 ^ n) ->
  m' <= K.
Proof.
  intros Hn HM Hm' Hex.
  assert (Hp : 0 < 2 ^ n) by (apply pow2_pos; exact Hn).
  pose proof (Z.div_mod M (2 ^ n) ltac:(lia)) as Hdm.
  pose proof (Z.mod_pos_bound M (2 ^ n) Hp) as Hmod.
  destruct (Z.eq_dec (M mod 2 ^ n) 0) as [E | E].
  - rewrite (Hex E). nia.
  - assert (M / 2 ^ n < K) by nia. lia.
Qed.

Lemma grid_lower (M n K : Z) : 0 <= n -> K * 2 ^ n <= M -> K <= M / 2 ^ n.
Proof.
  intros Hn HM. assert (Hp : 0 < 2 ^ n) by (apply pow2_pos; exact Hn).
  apply Z.div_le_lower_bound; lia.
Qed.

(** ** A representable upper bound is not crossed by rounding *)

(** [mx * 2^ex], or a value strictly between it and [(mx + 1) * 2^ex]
    when [lx] is inexact, rounds to at most [mB * 2^eB] when it is at
    most that and [(mB, eB)] is a binary64 mantissa-exponent pair. *)
Theorem binary_round_aux_le (mx ex : Z) (lx : location) (mB eB : Z) :
  0 < mx -> ex <= fexp64 (Zdigits2 mx + ex) ->
  0 < mB -> fexp64 (Zdigits2 mB + eB) = eB -> eB <= 971 ->
  val_le mx ex mB eB ->
  (lx <> loc_Exact -> val_le (mx + 1) ex mB eB) ->
  nonneg_le (binary_round_aux prec emax false mx ex lx) mB eB.
Proof.
  intros Hmx Hn HmB Hcan HeB Hle Hle1.
  pose proof (val_le_digits mx ex mB eB Hmx HmB Hle) as Hdig.
  set (E := fexp64 (Zdigits2 mx + ex)) in *.
  assert (HE : E <= eB) by (subst E; unfold fexp64 in *; lia).
  destruct (binary_round_aux_steps false mx ex lx ltac:(lia) ltac:(fold E; lia))
    as (m' & Hbra & Hm' & Hexact).
  fold E in Hbra, Hm', Hexact.
  replace (ex + (E - ex)) with E in Hbra by lia.
  set (n := E - ex) in *.
  set (K := mB * 2 ^ (eB - E)).
  assert (Hpn : 0 < 2 ^ n) by (apply pow2_pos; subst n; lia).
  assert (HK : K * 2 ^ n = mB * 2 ^ (eB - ex)).
  { subst K. rewrite <- Z.mul_assoc, <- pow2_split by (subst n; lia).
    f_equal. f_equal. subst n. lia. }
  assert (Hm'K : m' <= K).
  { destruct lx as [| c] eqn:El.
    - apply (grid_upper mx n K m'); [subst n; lia | | lia | auto].
      rewrite HK. apply (val_le_at mx ex mB eB ex) in Hle; [| lia ..].
      rewrite Z.sub_diag in Hle. change (2 ^ 0) with 1 in Hle. lia.
    - assert (Hlt : mx + 1 <= K * 2 ^ n).
      { rewrite HK. specialize (Hle1 ltac:(discriminate)).
        apply (val_le_at (mx + 1) ex mB eB ex) in Hle1; [| lia ..].
        rewrite Z.sub_diag in Hle1. change (2 ^ 0) with 1 in Hle1. lia. }
      assert (mx / 2 ^ n < K) by (apply Z.div_lt_upper_bound; lia).
      lia. }
  assert (Hm'0 : 0 <= m').
  { assert (0 <= mx / 2 ^ n) by (apply Z.div_pos; lia). lia. }
  rewrite Hbra, (round_finish_spec false m' E Hm'0).
  set (j := Z.max (fexp64 (Zdigits2 m' + E) - E) 0).
  assert (Hj : 0 <= j) by (subst j; lia).
  assert (Hpj : 0 < 2 ^ j) by (apply pow2_pos; exact Hj).
  destruct (m' / 2 ^ j) as [| p | p] eqn:Eq.
  - exact I.
  - assert (Hm'pos : 0 < m').
    { destruct (Z.eq_dec m' 0) as [-> | ]; [| lia].
      rewrite Z.div_0_l in Eq by lia. discriminate Eq. }
    assert (HleK : val_le m' E mB eB).
    { apply (val_le_at m' E mB eB E); [lia .. |].
      rewrite Z.sub_diag. change (2 ^ 0) with 1. fold K. lia. }
    pose proof (val_le_digits m' E mB eB Hm'pos HmB HleK) as Hdig'.
    assert (HEj : E + j <= eB) by (subst j; unfold fexp64 in *; lia).
    replace (E + j <=? 971) with true by (symmetry; apply Z.leb_le; lia).
    cbn [nonneg_le].
    apply (val_le_at (Zpos p) (E + j) mB eB E); [lia .. |].
    replace (E + j - E) with j by lia. fold K.
    pose proof (Z.mul_div_le m' (2 ^ j) Hpj) as Hfloor.
    rewrite Eq in Hfloor. lia.
  - assert (0 <= m' / 2 ^ j) by (apply Z.div_pos; lia). lia.
Qed.

(** ** Multiplication, division, conversion *)

Lemma fexp64_ge (z : Z) : z - 53 <= fexp64 z /\ -1074 <= fexp64 z.
Proof. unfold fexp64. lia. Qed.

(** A product with at least 53 digits, bounded by a binary64 number. *)
Lemma fmul_finite_le (m1 : positive) (e1 : Z) (m2 : positive) (e2 : Z) (mB eB : Z) :
  2 ^ 52 <= Zpos m1 * Zpos m2 ->
  0 < mB -> fexp64 (Zdigits2 mB + eB) = eB -> eB <= 971 ->
  val_le (Zpos m1 * Zpos m2) (e1 + e2) mB eB ->
  nonneg_le (fmul (S754_finite false m1 e1) (S754_finite false m2 e2)) mB eB.
Proof.
  intros Hbig HmB Hcan HeB Hle.
  unfold fmul. cbn [SFmul xorb]. rewrite Pos2Z.inj_mul.
  apply binary_round_aux_le; try assumption; try lia.
  - assert (53 <= Zdigits2 (Zpos m1 * Zpos m2))
      by (apply Zdigits2_ge; [lia | exact Hbig]).
    pose proof (fexp64_ge (Zdigits2 (Zpos m1 * Zpos m2) + (e1 + e2))). lia.
  - intros H. contradiction H. reflexivity.
Qed.

Lemma new_location_exact (nb_steps : Z) : new_location nb_steps 0 = loc_Exact.
Proof.
  unfold new_location, new_location_even, new_location_odd.
  destruct (Z.even nb_steps); reflexivity.
Qed.

(** The integer quotient [SFdiv] rounds, for a numerator of at most 53
    digits and a quotient in the normal range. *)
Lemma SFdiv_core_binary_spec (m1 e1 m2 e2 : Z) :
  0 < m1 -> 0 < m2 -> Zdigits2 m1 <= 53 ->
  -1074 < Zdigits2 m1 + e1 - (Zdigits2 m2 + e2) - 53 ->
  let e' := Zdigits2 m1 + e1 - (Zdigits2 m2 + e2) - 53 in
  let s := e1 - e2 - e' in
  exists q l,
    SFdiv_core_binary prec emax m1 e1 m2 e2 = (q, e', l) /\
    0 < s /\ q = m1 * 2 ^ s / m2 /\ 2 ^ 52 <= q /\
    ((m1 * 2 ^ s) mod m2 = 0 -> l = loc_Exact).
Proof.
  intros H1 H2 Hd1 Hnormal e' s.
  destruct (Zdigits2_bounds m1 H1) as [Hp1 [Hlo1 Hhi1]].
  destruct (Zdigits2_bounds m2 H2) as [Hp2 [Hlo2 Hhi2]].
  assert (Hs : 0 < s) by (subst s e'; lia).
  unfold SFdiv_core_binary. rewrite fexp64_eq.
  replace (Z.min (fexp64 (Zdigits2 m1 + e1 - (Zdigits2 m2 + e2))) (e1 - e2))
    with e' by (subst e'; unfold fexp64; lia).
  fold s. destruct s as [| ps | ps] eqn:Es; try lia.
  rewrite Z.shiftl_mul_pow2 by lia. rewrite <- Es in *.
  pose proof (Z.div_eucl_eq (m1 * 2 ^ s) m2 ltac:(lia)) as Heq.
  unfold Z.div, Z.modulo.
  destruct (Z.div_eucl (m1 * 2 ^ s) m2) as [q r] eqn:Ediv.
  exists q, (new_location m2 r).
  split; [reflexivity |]. split; [lia |]. split; [reflexivity |].
  split.
  - assert (Hq : q = m1 * 2 ^ s / m2) by (unfold Z.div; rewrite Ediv; reflexivity).
    rewrite Hq. apply Z.div_le_lower_bound; [lia |].
    assert (Hpow : 2 ^ (Zdigits2 m2 + 52) <= 2 ^ (Zdigits2 m1 - 1 + s)).
    { apply Z.pow_le_mono_r; [lia |]. subst e'. lia. }
    rewrite (pow2_split (Zdigits2 m2) 52) in Hpow by lia.
    rewrite (pow2_split (Zdigits2 m1 - 1) s) in Hpow by lia.
    assert (0 < 2 ^ s) by (apply pow2_pos; lia).
    assert (0 < 2 ^ 52) by (apply pow2_pos; lia).
    apply Z.le_trans with (2 ^ Zdigits2 m2 * 2 ^ 52); [nia |].
    apply Z.le_trans with (2 ^ (Zdigits2 m1 - 1) * 2 ^ s); [exact Hpow |].
    apply Z.mul_le_mono_nonneg_r; lia.
  - intros Hr. rewrite Hr. apply new_location_exact.
Qed.

(** A quotient bounded by a binary64 number. *)
Lemma fdiv_finite_le (m1 : positive) (e1 : Z) (m2 : positive) (e2 : Z) (mB eB : Z) :
  Zdigits2 (Zpos m1) <= 53 ->
  -1074 < Zdigits2 (Zpos m1) + e1 - (Zdigits2 (Zpos m2) + e2) - 53 ->
  0 < mB -> fexp64 (Zdigits2 mB + eB) = eB -> eB <= 971 ->
  val_le (Zpos m1) e1 (mB * Zpos m2) (eB + e2) ->
  nonneg_le (fdiv (S754_finite false m1 e1) (S754_finite false m2 e2)) mB eB.
Proof.
  intros Hd1 Hnormal HmB Hcan HeB Hle.
  destruct (SFdiv_core_binary_spec (Zpos m1) e1 (Zpos m2) e2
              ltac:(lia) ltac:(lia) Hd1 Hnormal)
    as (q & l & Hcore & Hs & Hq & Hqbig & Hexact).
  set (e' := Zdigits2 (Zpos m1) + e1 - (Zdigits2 (Zpos m2) + e2) - 53) in *.
  set (s := e1 - e2 - e') in *.
  unfold fdiv. cbn [SFdiv xorb]. rewrite Hcore.
  assert (Hps : 0 < 2 ^ s) by (apply pow2_pos; lia).
  assert (Hp52 : 0 < 2 ^ 52) by (apply pow2_pos; lia).
  assert (Hq0 : 0 < q) by lia.
  pose proof (Z.div_mod (Zpos m1 * 2 ^ s) (Zpos m2) ltac:(lia)) as Hdm.
  pose proof (Z.mod_pos_bound (Zpos m1 * 2 ^ s) (Zpos m2) ltac:(lia)) as Hmod.
  rewrite <- Hq in Hdm.
  (* the exact quotient, scaled: [m1 * 2^s * 2^(e'-k) <= mB * m2 * 2^(eB-k)] *)
  assert (Hscaled : forall k, k <= e' -> k <= eB ->
            Zpos m1 * 2 ^ s * 2 ^ (e' - k) <= mB * Zpos m2 * 2 ^ (eB - k)).
  { intros k Hk1 Hk2.
    apply (val_le_at (Zpos m1) e1 (mB * Zpos m2) (eB + e2) (k + e2)) in Hle;
      [| subst s; lia ..].
    replace (eB + e2 - (k + e2)) with (eB - k) in Hle by lia.
    replace (e1 - (k + e2)) with (s + (e' - k)) in Hle by (subst s; lia).
    rewrite (pow2_split s (e' - k)) in Hle by lia.
    rewrite Z.mul_assoc in Hle. exact Hle. }
  assert (Hqle : val_le q e' mB eB).
  { set (k := Z.min e' eB).
    apply (val_le_at q e' mB eB k); [subst k; lia .. |].
    specialize (Hscaled k ltac:(subst k; lia) ltac:(subst k; lia)).
    assert (0 < 2 ^ (e' - k)) by (apply pow2_pos; subst k; lia).
    assert (0 < 2 ^ (eB - k)) by (apply pow2_pos; subst k; lia).
    assert (Hm2 : Zpos m2 * (q * 2 ^ (e' - k)) <= Zpos m2 * (mB * 2 ^ (eB - k)))
      by nia.
    apply Z.mul_le_mono_pos_l in Hm2; lia. }
  assert (Hdigq : 53 <= Zdigits2 q) by (apply Zdigits2_ge; lia).
  assert (Hn : e' <= fexp64 (Zdigits2 q + e')).
  { pose proof (fexp64_ge (Zdigits2 q + e')). lia. }
  pose proof (val_le_digits q e' mB eB Hq0 HmB Hqle) as Hdig.
  assert (He'B : e' <= eB) by (unfold fexp64 in *; lia).
  apply binary_round_aux_le; try assumption.
  intros Hl.
  apply (val_le_at (q + 1) e' mB eB e'); [lia .. |].
  rewrite Z.sub_diag. change (2 ^ 0) with 1.
  specialize (Hscaled e' ltac:(lia) He'B).
  rewrite Z.sub_diag in Hscaled. change (2 ^ 0) with 1 in Hscaled.
  assert (Hr : (Zpos m1 * 2 ^ s) mod Zpos m2 <> 0).
  { intros Hr0. apply Hl, Hexact, Hr0. }
  assert (0 < 2 ^ (eB - e')) by (apply pow2_pos; lia).
  assert (Hm2 : Zpos m2 * q < Zpos m2 * (mB * 2 ^ (eB - e'))) by nia.
  apply Z.mul_lt_mono_pos_l in Hm2; lia.
Qed.

Lemma val_le_scale (m1 e1 m2 e2 c f : Z) :
  0 <= c -> val_le m1 e1 m2 e2 -> val_le (m1 * c) (e1 + f) (m2 * c) (e2 + f).
Proof.
  intros Hc H. unfold val_le in *.
  replace (Z.min (e1 + f) (e2 + f)) with (Z.min e1 e2 + f) by lia.
  replace (e1 + f - (Z.min e1 e2 + f)) with (e1 - Z.min e1 e2) by lia.
  replace (e2 + f - (Z.min e1 e2 + f)) with (e2 - Z.min e1 e2) by lia.
  nia.
Qed.

(** ** Exact conversions *)

Lemma Pos_iter_xO (m d : positive) : Zpos (Pos.iter xO m d) = Zpos m * 2 ^ Zpos d.
Proof.
  apply (Pos.iter_ind positive xO m (fun p a => Zpos a = Zpos m * 2 ^ Zpos p)).
  - rewrite Pos2Z.inj_xO. change (2 ^ 1) with 2. lia.
  - intros p a' IH. rewrite Pos2Z.inj_xO, IH, Pos2Z.inj_succ.
    rewrite Z.pow_succ_r by lia. lia.
Qed.

Lemma shl_align_spec (mx : positive) (ex ex' : Z) :
  ex' <= ex ->
  exists m', shl_align mx ex ex' = (m', ex') /\ Zpos m' = Zpos mx * 2 ^ (ex - ex').
Proof.
  intros H. unfold shl_align.
  destruct (ex' - ex) as [| d | d] eqn:E; try lia.
  - exists mx. replace ex' with ex by lia. rewrite Z.sub_diag.
    change (2 ^ 0) with 1. split; [reflexivity | lia].
  - exists (Pos.iter xO mx d). split; [reflexivity |].
    rewrite Pos_iter_xO. f_equal. f_equal. lia.
Qed.

(** A mantissa already at the exponent of its magnitude is left alone. *)
Lemma binary_round_aux_canonical (s : bool) (m : positive) (e : Z) :
  fexp64 (Zdigits2 (Zpos m) + e) = e -> e <= 971 ->
  binary_round_aux prec emax s (Zpos m) e loc_Exact = S754_finite s m e.
Proof.
  intros Hcan He.
  destruct (binary_round_aux_steps s (Zpos m) e loc_Exact ltac:(lia) ltac:(lia))
    as (m' & Hbra & _ & Hexact).
  rewrite Hcan, Z.sub_diag in *. change (2 ^ 0) with 1 in Hexact.
  rewrite Z.div_1_r in Hexact. rewrite (Hexact eq_refl (Z.mod_1_r _)) in Hbra.
  rewrite Hbra, Z.add_0_r, round_finish_spec by lia.
  rewrite Hcan, Z.sub_diag. cbn [Z.max Z.compare]. change (2 ^ 0) with 1.
  rewrite Z.div_1_r, Z.add_0_r.
  replace (e <=? 971) with true by (symmetry; apply Z.leb_le; exact He).
  reflexivity.
Qed.

(** [float(v)] for a positive [v] below 2^53: the 53-digit mantissa of
    [v] itself. *)
Lemma of_int_exact (v : Z) :
  0 < v < 2 ^ 53 ->
  exists m e,
    of_int v = S754_finite false m e /\
    Zdigits2 (Zpos m) = 53 /\ e = Zdigits2 v - 53 /\ Zpos m = v * 2 ^ (- e).
Proof.
  intros Hv. destruct v as [| p | p]; try lia.
  destruct (Zdigits2_bounds (Zpos p) ltac:(lia)) as [Hd0 [Hlo Hhi]].
  assert (Hd : Zdigits2 (Zpos p) <= 53) by (apply Zdigits2_le; lia).
  set (d := Zdigits2 (Zpos p)) in *.
  unfold of_int, binary_normalize, binary_round. rewrite fexp64_eq.
  change (Zpos (digits2_pos p)) with d.
  replace (fexp64 (d + 0)) with (d - 53) by (unfold fexp64; lia).
  destruct (shl_align_spec p 0 (d - 53) ltac:(lia)) as (mz & Hal & Hmz).
  rewrite Hal. replace (0 - (d - 53)) with (53 - d) in Hmz by lia.
  assert (Hp : 0 < 2 ^ (53 - d)) by (apply pow2_pos; lia).
  assert (Hdz : Zdigits2 (Zpos mz) = 53).
  { apply Zdigits2_unique; [| lia]. rewrite Hmz.
    assert (E1 : 2 ^ (53 - 1) = 2 ^ (d - 1) * 2 ^ (53 - d))
      by (rewrite <- pow2_split by lia; f_equal; lia).
    assert (E2 : 2 ^ 53 = 2 ^ d * 2 ^ (53 - d))
      by (rewrite <- pow2_split by lia; f_equal; lia).
    rewrite E1, E2.
    split; [apply Z.mul_le_mono_nonneg_r | apply Z.mul_lt_mono_pos_r]; lia. }
  exists mz, (d - 53).
  split; [| split; [exact Hdz | split; [reflexivity |]]].
  - apply binary_round_aux_canonical; [| lia].
    rewrite Hdz. unfold fexp64. lia.
  - rewrite Hmz. f_equal. f_equal. lia.
Qed.

(** [floor (m * 2^e)] through a common scale. *)
Lemma shiftl_scaled (m e k : Z) :
  k <= e -> k <= 0 -> Z.shiftl m e = m * 2 ^ (e - k) / 2 ^ (- k).
Proof.
  intros Hke Hk0.
  assert (Hpk : 0 < 2 ^ (- k)) by (apply pow2_pos; lia).
  destruct (Z.le_gt_cases 0 e) as [He | He].
  - rewrite Z.shiftl_mul_pow2 by exact He.
    replace (e - k) with (e + - k) by lia. rewrite pow2_split by lia.
    rewrite Z.mul_assoc, Z.div_mul by lia. reflexivity.
  - replace e with (- (- e)) at 1 by lia. rewrite Z.shiftl_opp_r.
    rewrite Z.shiftr_div_pow2 by lia.
    replace (- k) with ((- e) + (e - k)) by lia.
    rewrite (pow2_split (- e) (e - k)) by lia.
    assert (0 < 2 ^ (e - k)) by (apply pow2_pos; lia).
    assert (0 < 2 ^ (- e)) by (apply pow2_pos; lia).
    rewrite Z.div_mul_cancel_r by lia. reflexivity.
Qed.

Lemma shiftl_val_le (m e mB eB : Z) :
  val_le m e mB eB -> Z.shiftl m e <= Z.shiftl mB eB.
Proof.
  intros H. set (k := Z.min 0 (Z.min e eB)).
  apply (val_le_at m e mB eB k) in H; [| subst k; lia ..].
  rewrite (shiftl_scaled m e k), (shiftl_scaled mB eB k) by (subst k; lia).
  apply Z.div_le_mono; [apply pow2_pos; subst k; lia | exact H].
Qed.

(** [int(y)] for [0 <= y <= mB * 2^eB]. *)
Lemma int_of_float_le (y : float) (mB eB : Z) :
  0 <= mB -> nonneg_le y mB eB ->
  exists n, int_of_float y = Ok n /\ 0 <= n <= Z.shiftl mB eB.
Proof.
  intros HmB Hy. destruct y as [s | s | | [|] m e]; cbn in Hy; try contradiction.
  - exists 0. split; [reflexivity |]. split; [lia |].
    apply Z.shiftl_nonneg. exact HmB.
  - exists (Z.shiftl (Zpos m) e). split; [reflexivity |]. split.
    + apply Z.shiftl_nonneg. lia.
    + apply shiftl_val_le. exact Hy.
Qed.

(** ** The setpoint read back *)

Lemma of_int_1000 : of_int 1000 = S754_finite false 8796093022208000 (-43).
Proof. vm_compute. reflexivity. Qed.

(** The readback of any 32-bit millivolt or milliampere value converts to
    an integer that fits 32 bits: [int((v / 1000.0) * 1000)] lies in
    [0, 2^32). *)
Lemma readback_in_range (v : Z) :
  0 <= v < 2 ^ 32 ->
  exists n,
    int_of_float (fmul (fdiv (of_int v) (of_int 1000)) (of_int 1000)) = Ok n /\
    0 <= n < 2 ^ 32.
Proof.
  intros Hv. rewrite of_int_1000.
  destruct (Z.eq_dec v 0) as [-> | Hnz].
  { exists 0. split; [vm_compute; reflexivity | lia]. }
  destruct (of_int_exact v ltac:(lia)) as (m1 & e1 & Hof & Hd1 & He1 & Hm1).
  rewrite Hof.
  destruct (Zdigits2_bounds v ltac:(lia)) as [Hdv0 _].
  assert (Hdv : Zdigits2 v <= 32) by (apply Zdigits2_le; lia).
  set (mB1 := 4611686017353647). set (mB2 := 9007199253692416).
  assert (Hx : nonneg_le (fdiv (S754_finite false m1 e1)
                               (S754_finite false 8796093022208000 (-43)))
                         mB1 (-30)).
  { apply fdiv_finite_le.
    - lia.
    - rewrite Hd1. change (Zdigits2 (Zpos 8796093022208000)) with 53. lia.
    - subst mB1; lia.
    - reflexivity.
    - lia.
    - apply (val_le_at _ _ _ _ (-73)); [lia .. |].
      rewrite Hm1. rewrite <- Z.mul_assoc, <- pow2_split by lia.
      replace (- e1 + (e1 - -73)) with 73 by lia.
      change (2 ^ (-30 + -43 - -73)) with 1.
      change (2 ^ 73) with 9444732965739290427392.
      change (2 ^ 32) with 4294967296 in Hv. subst mB1. lia. }
  destruct (fdiv _ _) as [sx | sx | | [|] mx ex]; cbn in Hx; try contradiction.
  - exists 0. split; [reflexivity | lia].
  - assert (Hy : nonneg_le (fmul (S754_finite false mx ex)
                                 (S754_finite false 8796093022208000 (-43)))
                           mB2 (-21)).
    { apply fmul_finite_le.
      - change (2 ^ 52) with 4503599627370496. lia.
      - subst mB2; lia.
      - reflexivity.
      - lia.
      - apply val_le_trans with (mB1 * 8796093022208000) (-30 + -43).
        + apply val_le_scale; [lia | exact Hx].
        + vm_compute. discriminate. }
    destruct (int_of_float_le _ mB2 (-21) ltac:(subst mB2; lia) Hy) as (n & Hn & Hrange).
    exists n. split; [exact Hn |].
    change (Z.shiftl mB2 (-21)) with 4294967295 in Hrange.
    change (2 ^ 32) with 4294967296. lia.
Qed.

(** * Replies *)

Lemma Z_of_byte_range (b : byte) : 0 <= Z_of_byte b < 256.
Proof. destruct b; vm_compute; split; congruence. Qed.

Lemma be_value_4_range (b0 b1 b2 b3 : byte) :
  0 <= be_value [b0; b1; b2; b3] < 2 ^ 32.
Proof.
  unfold be_value. cbn [fold_left].
  pose proof (Z_of_byte_range b0). pose proof (Z_of_byte_range b1).
  pose proof (Z_of_byte_range b2). pose proof (Z_of_byte_range b3).
  change (2 ^ 32) with 4294967296. lia.
Qed.

Lemma be_bytes_length (n : nat) (v : Z) : length (be_bytes n v) = n.
Proof.
  revert v. induction n as [| n IH]; intros v; cbn [be_bytes]; [reflexivity |].
  rewrite length_app, IH. cbn. lia.
Qed.

Lemma truthy_nonempty (d : list byte) : d <> [] -> truthy (Some d) = true.
Proof. destruct d; [congruence | reflexivity]. Qed.

Lemma pack_II_ok (a b : Z) :
  0 <= a < 2 ^ 32 -> 0 <= b < 2 ^ 32 ->
  exists d, pack_II a b = Ok d /\ length d = 8%nat.
Proof.
  intros Ha Hb. unfold pack_II, pack_uint.
  change (2 ^ (8 * Z.of_nat 4)) with (2 ^ 32).
  replace ((0 <=? a) && (a <? 2 ^ 32)) with true
    by (symmetry; apply andb_true_iff; split; [apply Z.leb_le | apply Z.ltb_lt]; lia).
  replace ((0 <=? b) && (b <? 2 ^ 32)) with true
    by (symmetry; apply andb_true_iff; split; [apply Z.leb_le | apply Z.ltb_lt]; lia).
  eexists. split; [reflexivity |].
  rewrite length_app, !be_bytes_length. reflexivity.
Qed.

(** After a set-output the readback always succeeds: both setpoints are
    32-bit values divided by 1000.0. *)
Lemma set_output_then_read (w : World) (b0 b1 b2 b3 b4 b5 b6 b7 : byte) (rest : list byte) :
  exists w2 reply,
    _handle_set_output (b0 :: b1 :: b2 :: b3 :: b4 :: b5 :: b6 :: b7 :: rest) w
    = (w2, Ok tt) /\
    _handle_read_output_setting w2 = (w2, Ok reply) /\
    length reply = 8%nat /\ sent w2 = sent w /\
    module_id (self w2) = module_id (self w).
Proof.
  rewrite set_output_run.
  destruct (readback_in_range _ (be_value_4_range b0 b1 b2 b3)) as (nv & Hnv & Rv).
  destruct (readback_in_range _ (be_value_4_range b4 b5 b6 b7)) as (nc & Hnc & Rc).
  destruct (pack_II_ok nv nc Rv Rc) as (d & Hd & Hlen).
  eexists. exists d. split; [reflexivity |]. split; [| repeat split; assumption].
  apply (read_output_setting_run _ nv nc); assumption.
Qed.

Lemma power_control_run (w : World) (b : byte) (rest : list byte) :
  exists w2,
    _handle_power_control (b :: rest) w = (w2, Ok tt) /\
    sent w2 = sent w /\ module_id (self w2) = module_id (self w) /\
    is_power_on (self w2) = (Z_of_byte b =? 0x00).
Proof.
  unfold _handle_power_control. run_handler.
  destruct (Z_of_byte b =? 0); eexists; (split; [reflexivity |]); repeat split.
Qed.

Lemma keeps_self_field {A X} (g : InfyModuleSimulator -> X) (c : M A) :
  keeps self c -> keeps (fun w => g (self w)) c.
Proof. intros H w. cbv beta. rewrite (H w). reflexivity. Qed.

Lemma power_control_keeps_module_id payload :
  keeps (fun w => module_id (self w)) (_handle_power_control payload).
Proof.
  intros w. destruct payload as [| b rest]; [reflexivity |].
  destruct (power_control_run w b rest) as (w2 & -> & _ & H & _). exact H.
Qed.

Lemma set_output_keeps_module_id payload :
  keeps (fun w => module_id (self w)) (_handle_set_output payload).
Proof.
  intros w. unfold _handle_set_output, bind, lift.
  destruct (unpack_I (slice payload 0 4)); [| reflexivity].
  destruct (unpack_I (slice payload 4 8)); reflexivity.
Qed.

Lemma dispatch_keeps_module_id cmd payload device_mode dest :
  keeps (fun w => module_id (self w)) (dispatch cmd payload device_mode dest).
Proof.
  pose proof power_control_keeps_module_id.
  pose proof set_output_keeps_module_id.
  unfold dispatch, _handle_read_system_float, _handle_read_module_fixed,
    _handle_set_output_fixed.
  repeat first
    [ solve [auto with keeps]
    | solve [apply keeps_some, keeps_self_field; auto with keeps]
    | apply keeps_bind; [| intros ?]
    | apply keeps_if ].
Qed.

(** What the router sends, by the outcome of the dispatch chain. *)
Lemma route_command_sends cmd payload remote_src device_mode dest w :
  let w' := fst (_route_command cmd payload remote_src device_mode dest w) in
  let r := dispatch cmd payload device_mode dest
             {| self := self w; sent := sent w; slept := slept w;
                routed := routed w ++ [ {| call_cmd := cmd; call_data := payload;
                                           call_remote_src := remote_src;
                                           call_device_mode := device_mode;
                                           call_dest_addr := dest |} ] |} in
  match snd r with
  | Ok (Some (b :: d)) =>
      replied w w' {| arbitration_id :=
                        encodeId 0x00 0x0A cmd remote_src (module_id (self w));
                      data := b :: d;
                      is_extended_id := true; is_error_frame := false |}
  | _ => silent w w'
  end /\ self w' = self (fst r).
Proof.
  intros w' r. subst w'. rewrite route_command_run. fold r.
  pose proof (dispatch_keeps_sent cmd payload device_mode dest
                {| self := self w; sent := sent w; slept := slept w;
                   routed := routed w ++ [ {| call_cmd := cmd; call_data := payload;
                                              call_remote_src := remote_src;
                                              call_device_mode := device_mode;
                                              call_dest_addr := dest |} ] |}) as Hs.
  pose proof (dispatch_keeps_module_id cmd payload device_mode dest
                {| self := self w; sent := sent w; slept := slept w;
                   routed := routed w ++ [ {| call_cmd := cmd; call_data := payload;
                                              call_remote_src := remote_src;
                                              call_device_mode := device_mode;
                                              call_dest_addr := dest |} ] |}) as Hm.
  fold r in Hs, Hm. cbn [sent self] in Hs, Hm.
  destruct r as [w2 [[[| b d] |] | e]]; cbn [fst snd truthy] in *;
    unfold silent, replied; try (split; [exact Hs | reflexivity]).
  unfold _send_response. rewrite bind_get_self. cbn [bus_send fst sent self].
  rewrite Hs, Hm. split; reflexivity.
Qed.

Lemma dispatch_power_control (w1 : World) (b : byte) (rest : list byte)
    (device_mode dest : Z) :
  exists w2,
    dispatch 0x1A (b :: rest) device_mode dest w1
    = (w2, Ok (if (device_mode =? 0x0A) && negb (dest =? 0x3F)
               then Some [if is_power_on (self w2) then x00 else x01;
                          x00; x00; x00; x00; x00; x00; x00]
               else None)).
Proof.
  destruct (power_control_run w1 b rest) as (w2 & Hrun & _).
  exists w2. unfold dispatch. cbn [Z.eqb Pos.eqb].
  rewrite (bind_returned _ _ _ _ _ Hrun).
  destruct ((device_mode =? 0x0A) && negb (dest =? 0x3F)); [| reflexivity].
  unfold some, _handle_read_power_state, bind, get_self, ret.
  destruct (is_power_on (self w2)); reflexivity.
Qed.

Lemma at_least_8 (payload : list byte) :
  (8 <= length payload)%nat ->
  exists b0 b1 b2 b3 b4 b5 b6 b7 rest,
    payload = b0 :: b1 :: b2 :: b3 :: b4 :: b5 :: b6 :: b7 :: rest.
Proof.
  intros H.
  do 8 (destruct payload as [| ? payload]; [cbn in H; lia |]).
  repeat eexists.
Qed.

Lemma length_8_cons (d : list byte) : length d = 8%nat -> exists b t, d = b :: t.
Proof. destruct d as [| b t]; [discriminate | intros _; eauto]. Qed.

Lemma dispatch_set_output (w1 : World) (payload : list byte) (device_mode dest : Z) :
  (8 <= length payload)%nat ->
  exists w2 b d,
    dispatch 0x1B payload device_mode dest w1 = (w2, Ok (Some (b :: d))) /\
    dispatch 0x1C payload device_mode dest w1
    = (w2, Ok (if negb (dest =? 0x3F) then Some (b :: d) else None)).
Proof.
  intros Hlen.
  destruct (at_least_8 payload Hlen)
    as (b0 & b1 & b2 & b3 & b4 & b5 & b6 & b7 & rest & ->).
  destruct (set_output_then_read w1 b0 b1 b2 b3 b4 b5 b6 b7 rest)
    as (w2 & reply & Hset & Hread & Hlen8 & _).
  destruct (length_8_cons reply Hlen8) as (b & d & ->).
  exists w2, b, d. unfold dispatch, _handle_set_output_fixed. cbn [Z.eqb Pos.eqb].
  rewrite !(bind_returned _ _ _ _ _ Hset).
  unfold some. split.
  - rewrite (bind_returned _ _ _ _ _ Hread). reflexivity.
  - destruct (negb (dest =? 0x3F)); [| reflexivity].
    rewrite (bind_returned _ _ _ _ _ Hread). reflexivity.
Qed.

Lemma dispatch_unknown (w1 : World) (cmd : Z) (payload : list byte)
    (device_mode dest : Z) :
  in_dispatch_table cmd = false ->
  dispatch cmd payload device_mode dest w1 = (w1, Ok None).
Proof.
  unfold in_dispatch_table, dispatch. intros H.
  repeat (apply orb_false_iff in H; destruct H as [H ?]).
  repeat match goal with E : (_ =? _) = false |- _ => rewrite E; clear E end.
  reflexivity.
Qed.

Lemma replied_not_silent (w w' : World) (m : Message) :
  replied w w' m -> silent w w' -> False.
Proof.
  unfold replied, silent. intros H1 H2. rewrite H2 in H1.
  exact (app_one_neq _ _ H1).
Qed.

Lemma replied_same (w w' : World) (m m' : Message) :
  replied w w' m -> replied w w' m' -> m = m'.
Proof.
  unfold replied. intros H1 H2. rewrite H1 in H2.
  apply app_inj_tail in H2. destruct H2 as [_ H]. exact H.
Qed.

(** C4, for payloads the handlers can read: a routed frame whose payload
    has the length its command needs (1 byte for 0x1A, 8 for 0x1B and
    0x1C) draws at most one reply; command 0x1A replies exactly when the
    scope is 0x0A and the destination is not 0x3F, with the state byte
    (0x00 on, 0x01 off) and seven zero bytes; 0x1B always replies; 0x1C
    replies exactly when the destination is not 0x3F; a command outside
    the dispatch table never replies; and every reply carries error code
    0, scope 0x0A, the request's command, the request's source as
    destination and the module id as source. *)
Theorem reply_rule (w : World) (msg : Message) :
  let me := self w in
  let f := decodeId (arbitration_id msg) in
  let w' := fst (_process_message msg w) in
  0 <= module_id me <= 0xFF ->
  for_me (module_id me) (group_id me) (device_no f) (dest_addr f) ->
  (required_length (cmd_no f) <= length (data msg))%nat ->
  (silent w w' \/ exists m, replied w w' m) /\
  (forall m, replied w w' m ->
     decodeId (arbitration_id m)
     = {| err_code := 0; device_no := 0x0A; cmd_no := cmd_no f;
          dest_addr := src_addr f; src_addr := module_id me |}) /\
  (cmd_no f = 0x1A ->
     ((exists m, replied w w' m) <-> device_no f = 0x0A /\ dest_addr f <> 0x3F) /\
     (forall m, replied w w' m ->
        data m = [if is_power_on (self w') then x00 else x01;
                  x00; x00; x00; x00; x00; x00; x00])) /\
  (cmd_no f = 0x1B -> exists m, replied w w' m) /\
  (cmd_no f = 0x1C -> ((exists m, replied w w' m) <-> dest_addr f <> 0x3F)) /\
  (in_dispatch_table (cmd_no f) = false -> silent w w').
Proof.
  intros me f w' Hid Hfor Hlen.
  destruct (process_message_cases msg w) as [[_ Hp] | [Hnot _]];
    [| exfalso; exact (Hnot Hfor)].
  fold f in Hp. subst w'. rewrite Hp. clear Hp.
  destruct (decodeId_range (arbitration_id msg)) as (_ & _ & Hcmd & _ & Hsrc).
  fold f in Hcmd, Hsrc.
  set (cmd := cmd_no f) in *. set (src := src_addr f) in *.
  set (mode := device_no f) in *. set (dest := dest_addr f) in *.
  destruct (route_command_sends cmd (data msg) src mode dest w) as [Hsend Hself].
  set (w' := fst (_route_command cmd (data msg) src mode dest w)) in *.
  set (w1 := {| self := self w; sent := sent w; slept := slept w; routed := _ |}) in *.
  set (m0 := fun d => {| arbitration_id := encodeId 0x00 0x0A cmd src (module_id (self w));
                         data := d; is_extended_id := true; is_error_frame := false |}).
  assert (Hcases : (silent w w' /\ forall b d, snd (dispatch cmd (data msg) mode dest w1) <> Ok (Some (b :: d)))
                   \/ (exists b d, snd (dispatch cmd (data msg) mode dest w1) = Ok (Some (b :: d))
                                   /\ replied w w' (m0 (b :: d)))).
  { destruct (snd (dispatch cmd (data msg) mode dest w1)) as [[[| b d] |] | e];
      try (left; split; [exact Hsend | intros; discriminate]).
    right. exists b, d. split; [reflexivity | exact Hsend]. }
  clear Hsend.
  split; [| split; [| split; [| split; [| split]]]].
  - destruct Hcases as [[Hs _] | (b & d & _ & Hr)]; [left; exact Hs | right; eauto].
  - intros m Hm.
    destruct Hcases as [[Hs _] | (b & d & _ & Hr)];
      [exfalso; exact (replied_not_silent _ _ _ Hm Hs) |].
    rewrite (replied_same _ _ _ _ Hm Hr). cbn [m0 arbitration_id].
    apply decode_encode; lia.
  - intros Ecmd. rewrite Ecmd in *.
    destruct (data msg) as [| b0 rest]; [cbn in Hlen; lia |].
    destruct (dispatch_power_control w1 b0 rest mode dest) as (w2 & Hd).
    rewrite Hd in Hcases, Hself. cbn [fst snd] in Hcases, Hself.
    rewrite Hself.
    assert (Hcond : (mode =? 0x0A) && negb (dest =? 0x3F) = true
                    <-> mode = 0x0A /\ dest <> 0x3F).
    { rewrite andb_true_iff, negb_true_iff, Z.eqb_eq, Z.eqb_neq. reflexivity. }
    destruct ((mode =? 0x0A) && negb (dest =? 0x3F)).
    + destruct Hcases as [[_ Hn] | (b & d & Hbd & Hr)];
        [exfalso; eapply Hn; reflexivity |].
      injection Hbd as <- <-. split.
      * split; [intros _; apply Hcond; reflexivity | intros _; eauto].
      * intros m Hm. rewrite (replied_same _ _ _ _ Hm Hr). reflexivity.
    + destruct Hcases as [[Hs _] | (b & d & Hbd & _)]; [| discriminate Hbd].
      split.
      * split; [intros [m Hm]; exfalso; exact (replied_not_silent _ _ _ Hm Hs) |].
        intros H. apply Hcond in H. discriminate H.
      * intros m Hm. exfalso. exact (replied_not_silent _ _ _ Hm Hs).
  - intros Ecmd. rewrite Ecmd in *.
    destruct (dispatch_set_output w1 (data msg) mode dest Hlen) as (w2 & b & d & Hd & _).
    rewrite Hd in Hcases. cbn [snd] in Hcases.
    destruct Hcases as [[_ Hn] | (b' & d' & _ & Hr)];
      [exfalso; eapply Hn; reflexivity | eauto].
  - intros Ecmd. rewrite Ecmd in *.
    destruct (dispatch_set_output w1 (data msg) mode dest Hlen) as (w2 & b & d & _ & Hd).
    rewrite Hd in Hcases. cbn [snd] in Hcases.
    destruct (Z.eqb_spec dest 0x3F) as [E | E]; cbn [negb] in Hcases.
    + destruct Hcases as [[Hs _] | (b' & d' & Hbd & _)]; [| discriminate Hbd].
      split; [intros [m Hm]; exfalso; exact (replied_not_silent _ _ _ Hm Hs) |].
      intros H. contradiction.
    + destruct Hcases as [[_ Hn] | (b' & d' & _ & Hr)];
        [exfalso; eapply Hn; reflexivity |].
      split; [intros _; exact E | intros _; eauto].
  - intros Htab. rewrite (dispatch_unknown w1 cmd (data msg) mode dest Htab) in Hcases.
    destruct Hcases as [[Hs _] | (b & d & Hbd & _)]; [exact Hs | discriminate Hbd].
Qed.

Lemma reply_rule_witness :
  let msg := {| arbitration_id := encodeId 0 0x0A 0x1B 0x00 0xF0;
                data := [x00; x07; xa1; x20; x00; x00; x27; x10];
                is_extended_id := true; is_error_frame := false |} in
  exists m, replied world0 (fst (_process_message msg world0)) m.
Proof.
  intros msg.
  refine (proj1 (proj2 (proj2 (proj2 (reply_rule world0 msg _ _ _)))) _).
  - vm_compute. split; discriminate.
  - right; left. split; reflexivity.
  - vm_compute. lia.
  - reflexivity.
Defined.

(** A routed 0x1B frame that is too short draws no reply: the unpacking
    raises before the readback is reached. *)
Lemma short_set_output_draws_no_reply :
  let msg := {| arbitration_id := encodeId 0 0x0A 0x1B 0x00 0xF0; data := [];
                is_extended_id := true; is_error_frame := false |} in
  let f := decodeId (arbitration_id msg) in
  for_me (module_id (self world0)) (group_id (self world0))
         (device_no f) (dest_addr f) /\
  cmd_no f = 0x1B /\
  routed (fst (_process_message msg world0)) = [call_of msg] /\
  ~ (exists m, replied world0 (fst (_process_message msg world0)) m) /\
  snd (_process_message msg world0) = Raise StructError.
Proof.
  cbv zeta. split; [right; left; split; reflexivity |].
  split; [reflexivity |]. split; [vm_compute; reflexivity |].
  split; [| vm_compute; reflexivity].
  intros [m Hm]. unfold replied in Hm. vm_compute in Hm. discriminate Hm.
Qed.

(** * Heartbeat *)

Lemma shl_align_keep (mx : positive) (ex ex' : Z) :
  ex <= ex' -> shl_align mx ex ex' = (mx, ex).
Proof.
  intros H. unfold shl_align. destruct (ex' - ex) eqn:E; try reflexivity. lia.
Qed.

Lemma fleb_same_exponent (m1 m2 : positive) (e : Z) :
  (Zpos m1 <= Zpos m2) ->
  fleb (S754_finite false m1 e) (S754_finite false m2 e) = true.
Proof.
  intros H. unfold fleb, SFleb, SFcompare. rewrite Z.compare_refl.
  change (Pos.compare_cont Eq m1 m2) with (Pos.compare m1 m2).
  destruct (Pos.compare m1 m2) eqn:E; try reflexivity.
  apply Pos.compare_gt_iff in E. lia.
Qed.

(** Adding a small non-negative term to a normal number stays within the
    binade when the sum is bounded by a number of the same exponent. *)
Lemma fadd_within_binade (mA mB : positive) (eA : Z) (mt : positive) (et : Z) :
  2 ^ 52 <= Zpos mA -> Zpos mA <= Zpos mB -> Zpos mB < 2 ^ 53 ->
  -1074 <= eA <= 971 ->
  val_le (Zpos mt) et (Zpos mB - Zpos mA) eA ->
  exists m, fadd (S754_finite false mA eA) (S754_finite false mt et)
            = S754_finite false m eA /\ Zpos mA <= Zpos m <= Zpos mB.
Proof.
  intros HA HAB HB HeA Hle.
  unfold fadd. cbn [SFadd cond_Zopp].
  set (ez := Z.min eA et).
  destruct (shl_align_spec mA eA ez ltac:(subst ez; lia)) as (a & Ha & Hva).
  destruct (shl_align_spec mt et ez ltac:(subst ez; lia)) as (t & Ht & Hvt).
  rewrite Ha, Ht. cbn [fst]. change (Zpos a + Zpos t) with (Zpos (a + t)).
  cbn [binary_normalize]. unfold binary_round.
  set (n := eA - ez) in *.
  assert (Hn : 0 <= n) by (subst n ez; lia).
  assert (Hpn : 0 < 2 ^ n) by (apply pow2_pos; exact Hn).
  assert (Hpt : 0 < 2 ^ (et - ez)) by (apply pow2_pos; subst ez; lia).
  apply (val_le_at _ _ _ _ ez) in Hle; [| subst ez; lia ..]. fold n in Hle.
  assert (HM : Zpos mA * 2 ^ n <= Zpos (a + t) <= Zpos mB * 2 ^ n).
  { rewrite Pos2Z.inj_add, Hva, Hvt. nia. }
  assert (Hdig : Zdigits2 (Zpos (a + t)) = 53 + n).
  { apply Zdigits2_unique; [| lia].
    replace (53 + n - 1) with (52 + n) by lia.
    rewrite (pow2_split 52 n), (pow2_split 53 n) by lia. nia. }
  change (Zpos (digits2_pos (a + t))) with (Zdigits2 (Zpos (a + t))).
  rewrite fexp64_eq, Hdig.
  replace (fexp64 (53 + n + ez)) with eA by (unfold fexp64; subst n; lia).
  rewrite shl_align_keep by (subst ez; lia).
  destruct (binary_round_aux_steps false (Zpos (a + t)) ez loc_Exact ltac:(lia))
    as (m' & Hbra & Hm' & Hexact).
  { rewrite Hdig. unfold fexp64. subst n. lia. }
  rewrite Hdig in Hbra, Hm', Hexact.
  replace (fexp64 (53 + n + ez) - ez) with n in *
    by (unfold fexp64; subst n; lia).
  replace (ez + n) with eA in Hbra by (subst n; lia).
  assert (Hlo : Zpos mA <= m').
  { pose proof (grid_lower (Zpos (a + t)) n (Zpos mA) Hn ltac:(lia)). lia. }
  assert (Hhi : m' <= Zpos mB).
  { apply (grid_upper (Zpos (a + t)) n (Zpos mB) m' Hn); [lia | lia |].
    intros Hmod. apply Hexact; [reflexivity | exact Hmod]. }
  rewrite Hbra, round_finish_spec by lia.
  assert (Hd' : Zdigits2 m' = 53) by (apply Zdigits2_unique; lia).
  rewrite Hd'. replace (fexp64 (53 + eA) - eA) with 0 by (unfold fexp64; lia).
  cbn [Z.max Z.compare]. change (2 ^ 0) with 1. rewrite Z.div_1_r, Z.add_0_r.
  destruct m' as [| p | p]; try lia.
  replace (eA <=? 971) with true by (symmetry; apply Z.leb_le; lia).
  exists p. split; [reflexivity | lia].
Qed.

Lemma of_int_1 : of_int 1 = S754_finite false 4503599627370496 (-52).
Proof. vm_compute. reflexivity. Qed.

Lemma SFltb_finite (m1 m2 : positive) (e1 e2 : Z) :
  SFltb (S754_finite false m1 e1) (S754_finite false m2 e2) = true ->
  e1 < e2 \/ (e1 = e2 /\ Zpos m1 < Zpos m2).
Proof.
  unfold SFltb, SFcompare.
  destruct (Z.compare_spec e1 e2) as [E | E | E]; intros H.
  - right. split; [exact E |].
    change (Pos.compare_cont Eq m1 m2) with (Pos.compare m1 m2) in H.
    destruct (Pos.compare m1 m2) eqn:Ec; try discriminate H.
    apply Pos.compare_lt_iff in Ec. apply Pos2Z.pos_lt_pos. exact Ec.
  - left. exact E.
  - discriminate H.
Qed.

(** A draw is a zero or a positive number of value below 1. *)
Lemma unit_draw_cases (r : float) :
  unit_draw r ->
  (exists s, r = S754_zero s) \/
  (exists m e, r = S754_finite false m e /\ val_le (Zpos m) e 1 0).
Proof.
  intros (Hvalid & H0 & H1).
  rewrite of_int_1 in H1. unfold fleb in H0. unfold fltb in H1.
  destruct r as [s | s | | s m e].
  - left. eauto.
  - destruct s; [discriminate H0 | discriminate H1].
  - discriminate H1.
  - right. destruct s; [discriminate H0 |]. exists m, e.
    split; [reflexivity |].
    cbn [valid_binary] in Hvalid. unfold bounded, canonical_mantissa in Hvalid.
    apply andb_true_iff in Hvalid. destruct Hvalid as [Hcan _].
    apply Z.eqb_eq in Hcan. rewrite fexp64_eq in Hcan.
    change (Zpos (digits2_pos m)) with (Zdigits2 (Zpos m)) in Hcan.
    destruct (Zdigits2_bounds (Zpos m) ltac:(lia)) as [Hd0 [_ Hhi]].
    assert (Hd : Zdigits2 (Zpos m) <= 53) by (unfold fexp64 in Hcan; lia).
    apply SFltb_finite in H1.
    apply (val_le_at _ _ _ _ e); [lia .. |].
    rewrite Z.sub_diag. change (2 ^ 0) with 1.
    destruct H1 as [E | [E Hm]].
    + assert (2 ^ Zdigits2 (Zpos m) <= 2 ^ (0 - e)) by (apply Z.pow_le_mono_r; lia).
      lia.
    + subst e. change (2 ^ (0 - -52)) with 4503599627370496. lia.
Qed.

Lemma decimal_390 : decimal 390 3 = S754_finite false 7025615418697974 (-54).
Proof. vm_compute. reflexivity. Qed.

Lemma decimal_410 : decimal 410 3 = S754_finite false 7385903388887613 (-54).
Proof. vm_compute. reflexivity. Qed.

Lemma jitter_width :
  fsub (decimal 410 3) (decimal 390 3) = S754_finite false 5764607523034224 (-58).
Proof. vm_compute. reflexivity. Qed.

(** [random.uniform(0.390, 0.410)] stays within its end points, whatever
    the draw. *)
Lemma uniform_in_jitter_band (r : float) :
  unit_draw r -> in_jitter_band (uniform (decimal 390 3) (decimal 410 3) r).
Proof.
  intros Hr. unfold uniform, in_jitter_band. rewrite jitter_width.
  rewrite decimal_390, decimal_410.
  assert (Hends : forall m, 7025615418697974 <= Zpos m <= 7385903388887613 ->
            fleb (S754_finite false 7025615418697974 (-54)) (S754_finite false m (-54)) = true /\
            fleb (S754_finite false m (-54)) (S754_finite false 7385903388887613 (-54)) = true).
  { intros m Hm. split; apply fleb_same_exponent; lia. }
  destruct (unit_draw_cases r Hr) as [[s ->] | (m & e & -> & Hlt)].
  - cbn [fmul SFmul fadd SFadd xorb]. apply Hends. lia.
  - assert (Ht : nonneg_le (fmul (S754_finite false 5764607523034224 (-58))
                                 (S754_finite false m e))
                           5764607523034224 (-58)).
    { apply fmul_finite_le.
      - change (2 ^ 52) with 4503599627370496. lia.
      - lia.
      - reflexivity.
      - lia.
      - pose proof (val_le_scale _ _ _ _ 5764607523034224 (-58) ltac:(lia) Hlt) as H.
        replace (5764607523034224 * Zpos m) with (Zpos m * 5764607523034224) by lia.
        replace (-58 + e) with (e + -58) by lia. exact H. }
    destruct (fmul _ _) as [s | s | | [|] mt et]; cbn in Ht; try contradiction.
    + cbn [fadd SFadd]. apply Hends. lia.
    + assert (H52 : 2 ^ 52 <= 7025615418697974)
        by (change (2 ^ 52) with 4503599627370496; lia).
      assert (H53 : 7385903388887613 < 2 ^ 53)
        by (change (2 ^ 53) with 9007199254740992; lia).
      assert (Hw : val_le (Zpos mt) et (7385903388887613 - 7025615418697974) (-54)).
      { apply val_le_trans with 5764607523034224 (-58); [exact Ht |].
        vm_compute. discriminate. }
      destruct (fadd_within_binade 7025615418697974 7385903388887613 (-54) mt et
                  H52 ltac:(lia) H53 ltac:(lia) Hw) as (m' & -> & Hm').
      apply Hends. exact Hm'.
Qed.

Lemma heartbeat_cycle_run (w : World) (r : float) :
  _heartbeat_cycle r w
  = ({| self := self w;
        sent := sent w ++ [heartbeat_frame (module_id (self w))];
        slept := slept w ++ [uniform (decimal 390 3) (decimal 410 3) r];
        routed := routed w |}, Ok tt).
Proof. reflexivity. Qed.

(** The module id sits alone in the low byte of the heartbeat identifier. *)
Lemma heartbeat_id_low_byte (mid : Z) :
  0 <= mid <= 0xFF ->
  Z.land (Z.lor 0x0757F800 mid) 0xFF = mid /\
  Z.shiftr (Z.lor 0x0757F800 mid) 8 = 0x0757F8.
Proof.
  intros H. split.
  - rewrite Z.land_lor_distr_l. change (Z.land 0x0757F800 0xFF) with 0.
    rewrite Z.lor_0_l. change 0xFF with (Z.ones 8).
    rewrite Z.land_ones by lia. apply Z.mod_small. change (2 ^ 8) with 256. lia.
  - rewrite Z.shiftr_lor. change (Z.shiftr 0x0757F800 8) with 0x0757F8.
    rewrite (Z.shiftr_div_pow2 mid 8) by lia. change (2 ^ 8) with 256.
    rewrite Z.div_small by lia. apply Z.lor_0_r.
Qed.

(** C9: while the module runs, every heartbeat cycle sends the frame with
    identifier 0x0757F800 | module id (the module id alone in the low
    byte) and eight zero bytes, then sleeps for
    [random.uniform(0.390, 0.410)]; whatever the draws of the random
    source in [0, 1), every one of these durations, over any number of
    consecutive cycles, lies between 0.390 s and 0.410 s. *)
Theorem heartbeat_loop_jitter (w : World) (draws : list float) :
  running (self w) = true -> Forall unit_draw draws ->
  let r := _broadcast_heartbeat_loop draws w in
  let w' := fst r in
  let frame := heartbeat_frame (module_id (self w)) in
  let durations := map (uniform (decimal 390 3) (decimal 410 3)) draws in
  snd r = Ok tt /\
  sent w' = sent w ++ repeat frame (length draws) /\
  slept w' = slept w ++ durations /\
  Forall in_jitter_band durations /\
  arbitration_id frame = Z.lor 0x0757F800 (module_id (self w)) /\
  data frame = [x00; x00; x00; x00; x00; x00; x00; x00] /\
  (0 <= module_id (self w) <= 0xFF ->
   Z.land (arbitration_id frame) 0xFF = module_id (self w) /\
   Z.shiftr (arbitration_id frame) 8 = 0x0757F8).
Proof.
  intros Hrun Hdraws r w' frame durations.
  assert (Hloop : forall ds w0, running (self w0) = true ->
            _broadcast_heartbeat_loop ds w0
            = ({| self := self w0;
                  sent := sent w0 ++ repeat (heartbeat_frame (module_id (self w0))) (length ds);
                  slept := slept w0 ++ map (uniform (decimal 390 3) (decimal 410 3)) ds;
                  routed := routed w0 |}, Ok tt)).
  { induction ds as [| d ds IH]; intros w0 Hr; cbn [_broadcast_heartbeat_loop].
    - cbn [repeat length map]. rewrite !app_nil_r. destruct w0; reflexivity.
    - rewrite bind_get_self, Hr.
      rewrite (bind_returned _ _ _ _ _ (heartbeat_cycle_run w0 d)).
      rewrite IH by exact Hr. cbn [self sent slept routed length repeat map].
      rewrite <- !app_assoc. reflexivity. }
  subst w' r. rewrite (Hloop draws w Hrun). cbn [fst snd sent slept].
  split; [reflexivity |]. split; [reflexivity |]. split; [reflexivity |].
  split; [| split; [reflexivity | split; [reflexivity |]]].
  - subst durations. induction Hdraws as [| d ds Hd _ IH]; constructor.
    + apply uniform_in_jitter_band. exact Hd.
    + exact IH.
  - intros Hid. apply heartbeat_id_low_byte. exact Hid.
Qed.

Lemma heartbeat_loop_jitter_witness :
  let draws := [S754_zero false; decimal 5 1; decimal 999 3] in
  Forall in_jitter_band (map (uniform (decimal 390 3) (decimal 410 3)) draws).
Proof.
  intros draws.
  refine (proj1 (proj2 (proj2 (proj2
            (heartbeat_loop_jitter world0 draws eq_refl _))))).
  repeat constructor; vm_compute; reflexivity.
Defined.

(** * Reply frames *)

(** ** Reply payloads are 8 bytes long *)

Lemma pack_uint_length (n : nat) (v : Z) (d : list byte) :
  pack_uint n v = Ok d -> length d = n.
Proof.
  unfold pack_uint. destruct (_ && _); [| discriminate].
  intros H; injection H as <-. apply be_bytes_length.
Qed.

Lemma pack_II_length (a b : Z) (d : list byte) :
  pack_II a b = Ok d -> length d = 8%nat.
Proof.
  unfold pack_II.
  destruct (pack_uint 4 a) as [x |] eqn:Ea; [| discriminate].
  destruct (pack_uint 4 b) as [y |] eqn:Eb; [| discriminate].
  intros H; injection H as <-.
  rewrite length_app, (pack_uint_length _ _ _ Ea), (pack_uint_length _ _ _ Eb).
  reflexivity.
Qed.

Lemma pack_HHHH_length (a b c e : Z) (d : list byte) :
  pack_HHHH a b c e = Ok d -> length d = 8%nat.
Proof.
  unfold pack_HHHH.
  destruct (pack_uint 2 a) as [x |] eqn:Ea; [| discriminate].
  destruct (pack_uint 2 b) as [y |] eqn:Eb; [| discriminate].
  destruct (pack_uint 2 c) as [z |] eqn:Ec; [| discriminate].
  destruct (pack_uint 2 e) as [t |] eqn:Ee; [| discriminate].
  intros H; injection H as <-.
  rewrite !length_app, (pack_uint_length _ _ _ Ea), (pack_uint_length _ _ _ Eb),
    (pack_uint_length _ _ _ Ec), (pack_uint_length _ _ _ Ee).
  reflexivity.
Qed.

Lemma Ok_inj {A} (a b : A) : Ok a = Ok b -> a = b.
Proof. intros H. injection H as H. exact H. Qed.

Lemma pack_f_length (x : float) (d : list byte) :
  pack_f x = Ok d -> length d = 4%nat.
Proof.
  unfold pack_f. destruct x as [s | s | | s m e].
  1-3: intros H; apply Ok_inj in H; subst d; apply be_bytes_length.
  destruct (binary_round 24 128 s m e) as [s' | s' | | s' m' e'];
    intros H; [| discriminate H | |];
    apply Ok_inj in H; subst d; apply be_bytes_length.
Qed.

Lemma bind_lift_inv {A B} (r : result A) (k : A -> M B) (w w' : World) (b : B) :
  bind (lift r) k w = (w', Ok b) -> exists a, r = Ok a /\ k a w = (w', Ok b).
Proof.
  unfold bind, lift. destruct r as [a | e]; [| discriminate].
  intros H. exists a. split; [reflexivity | exact H].
Qed.

Lemma lift_inv {A} (r : result A) (w w' : World) (a : A) :
  lift r w = (w', Ok a) -> r = Ok a.
Proof. unfold lift. intros H. injection H as _ H. exact H. Qed.

Lemma read_module_float_length : returns_length 8 _handle_read_module_float.
Proof.
  intros w w' d. unfold _handle_read_module_float. rewrite bind_get_self.
  intros H. apply bind_lift_inv in H. destruct H as (v & Hv & H).
  apply bind_lift_inv in H. destruct H as (c & Hc & H).
  injection H as _ <-.
  rewrite length_app, (pack_f_length _ _ Hv), (pack_f_length _ _ Hc). reflexivity.
Qed.

Lemma read_status_length : returns_length 8 _handle_read_status.
Proof. intros w w' d H. injection H as _ <-. reflexivity. Qed.

Lemma read_power_state_length : returns_length 8 _handle_read_power_state.
Proof. intros w w' d H. injection H as _ <-. reflexivity. Qed.

Lemma read_output_setting_length : returns_length 8 _handle_read_output_setting.
Proof.
  intros w w' d. unfold _handle_read_output_setting. rewrite bind_get_self.
  intros H. apply bind_lift_inv in H. destruct H as (v & Hv & H).
  apply bind_lift_inv in H. destruct H as (c & Hc & H).
  apply lift_inv in H. exact (pack_II_length _ _ _ H).
Qed.

Lemma read_system_fixed_length : returns_length 8 _handle_read_system_fixed.
Proof.
  intros w w' d. unfold _handle_read_system_fixed. rewrite bind_get_self.
  intros H. apply bind_lift_inv in H. destruct H as (v & Hv & H).
  apply bind_lift_inv in H. destruct H as (c & Hc & H).
  apply lift_inv in H. exact (pack_II_length _ _ _ H).
Qed.

Lemma read_module_info_length : returns_length 8 _handle_read_module_info.
Proof.
  intros w w' d. unfold _handle_read_module_info. rewrite bind_get_self.
  intros H. apply bind_lift_inv in H. destruct H as (a & Ha & H).
  apply bind_lift_inv in H. destruct H as (b & Hb & H).
  apply bind_lift_inv in H. destruct H as (c & Hc & H).
  apply bind_lift_inv in H. destruct H as (e & He & H).
  apply lift_inv in H. exact (pack_HHHH_length _ _ _ _ _ H).
Qed.

Lemma read_module_external_length : returns_length 8 _handle_read_module_external.
Proof.
  intros w w' d. unfold _handle_read_module_external. rewrite bind_get_self.
  intros H. apply bind_lift_inv in H. destruct H as (a & Ha & H).
  destruct (is_power_on (self w)).
  - apply bind_lift_inv in H. destruct H as (b & Hb & H).
    apply lift_inv in H. exact (pack_HHHH_length _ _ _ _ _ H).
  - rewrite bind_ret in H.
    apply lift_inv in H. exact (pack_HHHH_length _ _ _ _ _ H).
Qed.

Lemma some_inv {A} (c : M A) (w w' : World) (o : option A) :
  some c w = (w', Ok o) -> exists a, o = Some a /\ c w = (w', Ok a).
Proof.
  unfold some, bind, ret. destruct (c w) as [w1 [a | e]]; [| discriminate].
  intros H. injection H as -> <-. exists a. split; reflexivity.
Qed.

Lemma bind_inv {A B} (c : M A) (k : A -> M B) (w w' : World) (b : B) :
  bind c k w = (w', Ok b) -> exists w1 a, c w = (w1, Ok a) /\ k a w1 = (w', Ok b).
Proof.
  unfold bind. destruct (c w) as [w1 [a | e]]; [| discriminate].
  intros H. exists w1, a. split; [reflexivity | exact H].
Qed.

Ltac reply_by L :=
  let H := fresh "H" in
  let a := fresh "a" in
  let Ha := fresh "Ha" in
  intros H; apply some_inv in H; destruct H as (a & Ha & H);
  injection Ha as <-; exact (L _ _ _ H).

Ltac after_write :=
  let H := fresh "H" in
  let w1 := fresh "w" in
  let u := fresh "u" in
  intros H; apply bind_inv in H; destruct H as (w1 & u & _ & H); revert H.

(** Whatever the command, a reply payload is 8 bytes long. *)
Lemma dispatch_reply_length cmd payload device_mode dest (w w' : World) (d : list byte) :
  dispatch cmd payload device_mode dest w = (w', Ok (Some d)) -> length d = 8%nat.
Proof.
  unfold dispatch, _handle_read_system_float, _handle_read_module_fixed,
    _handle_set_output_fixed.
  destruct (cmd =? 0x01); [reply_by read_module_float_length |].
  destruct (cmd =? 0x03); [reply_by read_module_float_length |].
  destruct (cmd =? 0x04); [reply_by read_status_length |].
  destruct (cmd =? 0x08); [reply_by read_system_fixed_length |].
  destruct (cmd =? 0x09); [reply_by read_system_fixed_length |].
  destruct (cmd =? 0x0A); [reply_by read_module_info_length |].
  destruct (cmd =? 0x0C); [reply_by read_module_external_length |].
  destruct (cmd =? 0x1A).
  { after_write. destruct (_ && _); [reply_by read_power_state_length |].
    intros H; discriminate H. }
  destruct (cmd =? 0x1B); [after_write; reply_by read_output_setting_length |].
  destruct (cmd =? 0x1C).
  { after_write. destruct (negb _); [reply_by read_output_setting_length |].
    intros H; discriminate H. }
  intros H; discriminate H.
Qed.

(** X1: one call of the router puts at most one frame on the bus, and that
    frame is a complete reply: 8 data bytes, an extended identifier made of
    error code 0, scope 0x0A, the request's command, the requester as
    destination and the module id as source; never an error frame.  This
    holds for every command and payload, also when a handler raises. *)
Theorem route_command_reply_shape
    (w : World) (cmd : Z) (payload : list byte) (remote_src device_mode dest : Z) :
  let w' := fst (_route_command cmd payload remote_src device_mode dest w) in
  silent w w' \/
  exists d,
    length d = 8%nat /\
    replied w w' {| arbitration_id :=
                      encodeId 0x00 0x0A cmd remote_src (module_id (self w));
                    data := d; is_extended_id := true; is_error_frame := false |}.
Proof.
  intros w'.
  pose proof (route_command_sends cmd payload remote_src device_mode dest w) as H.
  cbv zeta in H. fold w' in H. destruct H as [H _].
  match type of H with
  | match snd ?r with _ => _ end => destruct r as [w1 [[[| b d] |] | e]] eqn:Er
  end; cbn [snd] in H; try (left; exact H).
  right. exists (b :: d). split; [| exact H].
  exact (dispatch_reply_length _ _ _ _ _ _ _ Er).
Qed.

(** * The receive loop, frame by frame *)

(** [_receive_body] in one piece: stop when the module is not running,
    hand a wanted frame to the router, skip every other frame. *)
Lemma receive_body_run (msg : Message) (w : World) :
  let f := decodeId (arbitration_id msg) in
  _receive_body msg w
  = if negb (running (self w)) then (w, Ok Break)
    else if wanted (module_id (self w)) (group_id (self w)) msg
    then let r := _route_command (cmd_no f) (data msg) (src_addr f)
                                 (device_no f) (dest_addr f) w in
         (fst r, match snd r with Ok _ => Ok Continue | Raise e => Raise e end)
    else (w, Ok Continue).
Proof.
  intros f. unfold _receive_body, wanted. rewrite bind_get_self. fold f.
  destruct (running (self w)); cbn [negb]; [| reflexivity].
  destruct (is_error_frame msg); cbn [negb andb]; [reflexivity |].
  change (Z.land (arbitration_id msg) 255) with (src_addr f).
  destruct (src_addr f =? module_id (self w)); cbn [negb andb]; [reflexivity |].
  unfold bind at 1. unfold _process_message. rewrite bind_get_self. fold f.
  destruct (dest_addr f =? 63); cbn [orb].
  { destruct (_route_command _ _ _ _ _ w) as [w1 [[] | e]]; reflexivity. }
  destruct ((device_no f =? 10) && (dest_addr f =? module_id (self w))); cbn [orb].
  { destruct (_route_command _ _ _ _ _ w) as [w1 [[] | e]]; reflexivity. }
  destruct ((device_no f =? 11) && (dest_addr f =? group_id (self w))).
  { destruct (_route_command _ _ _ _ _ w) as [w1 [[] | e]]; reflexivity. }
  reflexivity.
Qed.

Lemma receive_loop_cons (msg : Message) (rest : list Message) (w : World) :
  _receive_loop (msg :: rest) w
  = match _receive_body msg w with
    | (w1, Ok Continue) => _receive_loop rest w1
    | (w1, Ok Break) => (w1, Ok tt)
    | (w1, Raise e) => (w1, Raise e)
    end.
Proof.
  cbn [_receive_loop]. unfold bind.
  destruct (_receive_body msg w) as [w1 [[|] | e]]; reflexivity.
Qed.

Lemma receive_loop_stopped (msgs : list Message) (w : World) :
  running (self w) = false -> _receive_loop msgs w = (w, Ok tt).
Proof.
  intros Hrun. destruct msgs as [| msg rest]; [reflexivity |].
  rewrite receive_loop_cons, receive_body_run. cbv zeta. rewrite Hrun. reflexivity.
Qed.

(** * What the router leaves alone *)

Lemma bind_self_after {A B} (c : M A) (k : A -> M B) (w : World) :
  (forall a, keeps self (k a)) ->
  self (fst (bind c k w)) = self (fst (c w)).
Proof.
  intros Hk. unfold bind. destruct (c w) as [w1 [a | e]]; [| reflexivity].
  cbn [fst]. apply Hk.
Qed.

Lemma route_command_self cmd payload remote_src device_mode dest w :
  self (fst (_route_command cmd payload remote_src device_mode dest w))
  = self (fst (dispatch cmd payload device_mode dest
                 {| self := self w; sent := sent w; slept := slept w;
                    routed := routed w ++ [ {| call_cmd := cmd; call_data := payload;
                                               call_remote_src := remote_src;
                                               call_device_mode := device_mode;
                                               call_dest_addr := dest |} ] |})).
Proof.
  exact (proj2 (route_command_sends cmd payload remote_src device_mode dest w)).
Qed.

Section SelfInvariant.
Variable P : InfyModuleSimulator -> Prop.
Hypothesis P_power : forall payload w,
  P (self w) -> P (self (fst (_handle_power_control payload w))).
Hypothesis P_set : forall payload w,
  P (self w) -> P (self (fst (_handle_set_output payload w))).

Lemma dispatch_invariant cmd payload device_mode dest w :
  P (self w) -> P (self (fst (dispatch cmd payload device_mode dest w))).
Proof.
  intros HP.
  destruct (Z.eq_dec cmd 0x1A) as [-> | N1].
  { change (dispatch 26 payload device_mode dest)
      with (_handle_power_control payload ;;;
            if (device_mode =? 0x0A) && negb (dest =? 0x3F)
            then some _handle_read_power_state else ret None).
    rewrite bind_self_after by (intros; keeps_tac). apply P_power, HP. }
  destruct (Z.eq_dec cmd 0x1B) as [-> | N2].
  { change (dispatch 27 payload device_mode dest)
      with (_handle_set_output payload ;;; some _handle_read_output_setting).
    rewrite bind_self_after by (intros; keeps_tac). apply P_set, HP. }
  destruct (Z.eq_dec cmd 0x1C) as [-> | N3].
  { change (dispatch 28 payload device_mode dest)
      with (_handle_set_output payload ;;;
            if negb (dest =? 0x3F)
            then some _handle_read_output_setting else ret None).
    rewrite bind_self_after by (intros; keeps_tac). apply P_set, HP. }
  rewrite (dispatch_read_keeps_self cmd payload device_mode dest N1 N2 N3 w).
  exact HP.
Qed.

Lemma route_command_invariant cmd payload remote_src device_mode dest w :
  P (self w) ->
  P (self (fst (_route_command cmd payload remote_src device_mode dest w))).
Proof.
  intros HP. rewrite route_command_self. apply dispatch_invariant. exact HP.
Qed.

Lemma receive_body_invariant msg w :
  P (self w) -> P (self (fst (_receive_body msg w))).
Proof.
  intros HP. rewrite receive_body_run. cbv zeta.
  destruct (negb _); [exact HP |].
  destruct (wanted _ _ _); [| exact HP].
  cbn [fst]. apply route_command_invariant, HP.
Qed.

Lemma receive_loop_invariant msgs w :
  P (self w) -> P (self (fst (_receive_loop msgs w))).
Proof.
  revert w. induction msgs as [| msg rest IH]; intros w HP; [exact HP |].
  rewrite receive_loop_cons.
  pose proof (receive_body_invariant msg w HP) as H1.
  destruct (_receive_body msg w) as [w1 [[|] | e]]; cbn [fst] in H1 |- *;
    [apply IH | |]; exact H1.
Qed.
End SelfInvariant.

Lemma power_control_cases (payload : list byte) (w : World) :
  let s := self w in
  let r := _handle_power_control payload w in
  (payload = [] /\ r = (w, Raise IndexError)) \/
  (exists b rest, payload = b :: rest /\ snd r = Ok tt /\
     sent (fst r) = sent w /\ slept (fst r) = slept w /\ routed (fst r) = routed w /\
     self (fst r)
     = if Z_of_byte b =? 0x00
       then {| module_id := module_id s; group_id := group_id s;
               voltage_out := set_voltage s;
               current_out := fdiv (set_current s) (of_int 2);
               set_voltage := set_voltage s; set_current := set_current s;
               max_current := max_current s;
               cap_voltage_max := cap_voltage_max s;
               cap_voltage_min := cap_voltage_min s;
               cap_power_rated := cap_power_rated s;
               is_power_on := true;
               is_connected := is_connected s; running := running s |}
       else {| module_id := module_id s; group_id := group_id s;
               voltage_out := S754_zero false;
               current_out := S754_zero false;
               set_voltage := set_voltage s; set_current := set_current s;
               max_current := max_current s;
               cap_voltage_max := cap_voltage_max s;
               cap_voltage_min := cap_voltage_min s;
               cap_power_rated := cap_power_rated s;
               is_power_on := false;
               is_connected := is_connected s; running := running s |}).
Proof.
  intros s r. subst r s. destruct payload as [| b rest]; [left; split; reflexivity |].
  right. exists b, rest. split; [reflexivity |].
  unfold _handle_power_control. run_handler.
  destruct (Z_of_byte b =? 0); repeat split.
Qed.

Lemma set_output_cases (payload : list byte) (w : World) :
  let s := self w in
  let r := _handle_set_output payload w in
  r = (w, Raise StructError) \/
  (exists v c, 0 <= v < 2 ^ 32 /\ 0 <= c < 2 ^ 32 /\
     unpack_I (slice payload 0 4) = Ok v /\ unpack_I (slice payload 4 8) = Ok c /\
     snd r = Ok tt /\
     sent (fst r) = sent w /\ slept (fst r) = slept w /\ routed (fst r) = routed w /\
     self (fst r)
     = {| module_id := module_id s; group_id := group_id s;
          voltage_out := if is_power_on s then fdiv (of_int v) (of_int 1000)
                         else voltage_out s;
          current_out := current_out s;
          set_voltage := fdiv (of_int v) (of_int 1000);
          set_current := fdiv (of_int c) (of_int 1000);
          max_current := max_current s;
          cap_voltage_max := cap_voltage_max s;
          cap_voltage_min := cap_voltage_min s;
          cap_power_rated := cap_power_rated s;
          is_power_on := is_power_on s;
          is_connected := is_connected s; running := running s |}).
Proof.
  intros s r. subst r s.
  destruct (Nat.lt_ge_cases (length payload) 8) as [Hshort | Hlong].
  { left. apply set_output_short. exact Hshort. }
  right. destruct (at_least_8 payload Hlong)
    as (b0 & b1 & b2 & b3 & b4 & b5 & b6 & b7 & rest & ->).
  exists (be_value [b0; b1; b2; b3]), (be_value [b4; b5; b6; b7]).
  split; [apply be_value_4_range |]. split; [apply be_value_4_range |].
  rewrite slice_0_4, slice_4_8, !unpack_I_4.
  split; [reflexivity |]. split; [reflexivity |].
  rewrite set_output_run. repeat split.
Qed.

(** ** The configuration is never written *)

Lemma power_control_keeps_configuration payload w :
  configuration (self (fst (_handle_power_control payload w)))
  = configuration (self w).
Proof.
  destruct (power_control_cases payload w) as [[_ ->] | (b & rest & _ & _ & _ & _ & _ & ->)];
    [reflexivity |].
  destruct (Z_of_byte b =? 0); reflexivity.
Qed.

Lemma set_output_keeps_configuration payload w :
  configuration (self (fst (_handle_set_output payload w)))
  = configuration (self w).
Proof.
  destruct (set_output_cases payload w)
    as [-> | (v & c & _ & _ & _ & _ & _ & _ & _ & _ & ->)]; reflexivity.
Qed.

Lemma route_command_keeps_configuration cmd payload remote_src device_mode dest w :
  configuration (self (fst (_route_command cmd payload remote_src device_mode dest w)))
  = configuration (self w).
Proof.
  apply (route_command_invariant (fun s => configuration s = configuration (self w)));
    [| | reflexivity]; intros p w0 H.
  - rewrite power_control_keeps_configuration. exact H.
  - rewrite set_output_keeps_configuration. exact H.
Qed.

Lemma route_command_keeps_slept cmd payload remote_src device_mode dest :
  keeps slept (_route_command cmd payload remote_src device_mode dest).
Proof.
  unfold _route_command.
  assert (keeps slept (dispatch cmd payload device_mode dest))
    by (apply dispatch_keeps; auto with keeps).
  assert (forall d, keeps slept (_send_response cmd d remote_src))
    by (intros d; unfold _send_response; keeps_tac).
  keeps_tac.
Qed.

Lemma receive_body_keeps_slept msg : keeps slept (_receive_body msg).
Proof.
  intros w. rewrite receive_body_run. cbv zeta.
  destruct (negb _); [reflexivity |].
  destruct (wanted _ _ _); [| reflexivity].
  cbn [fst]. apply route_command_keeps_slept.
Qed.

Lemma receive_loop_configuration (msgs : list Message) (w : World) :
  configuration (self (fst (_receive_loop msgs w))) = configuration (self w).
Proof.
  apply (receive_loop_invariant (fun s => configuration s = configuration (self w)));
    [| | reflexivity]; intros p w0 H.
  - rewrite power_control_keeps_configuration. exact H.
  - rewrite set_output_keeps_configuration. exact H.
Qed.

(** X2: the receive loop never writes the module's configuration: the
    module id, the group id, the four capability constants, the connection
    flag and the running flag are after any sequence of received frames
    what they were before; and it never sleeps. *)
Theorem receive_loop_keeps_configuration (msgs : list Message) (w : World) :
  let w' := fst (_receive_loop msgs w) in
  configuration (self w') = configuration (self w) /\ slept w' = slept w.
Proof.
  cbv zeta. split; [apply receive_loop_configuration |].
  revert w. induction msgs as [| msg rest IH]; intros w; [reflexivity |].
  rewrite receive_loop_cons.
  pose proof (receive_body_keeps_slept msg w) as H1.
  destruct (_receive_body msg w) as [w1 [[|] | e]]; cbn [fst] in H1 |- *;
    [rewrite IH | |]; exact H1.
Qed.

Lemma configuration_fields (s s' : InfyModuleSimulator) :
  configuration s' = configuration s ->
  module_id s' = module_id s /\ group_id s' = group_id s /\
  max_current s' = max_current s /\ cap_voltage_max s' = cap_voltage_max s /\
  cap_voltage_min s' = cap_voltage_min s /\ cap_power_rated s' = cap_power_rated s /\
  is_connected s' = is_connected s /\ running s' = running s.
Proof.
  unfold configuration. intros H. injection H as H1 H2 H3 H4 H5 H6 H7 H8.
  repeat split; assumption.
Qed.

(** X3: frames the filter rejects are invisible.  Running the receive loop
    over a stream of frames gives the same world and the same outcome as
    running it over the wanted frames only (not an error frame, source
    byte different from the module id, and addressed to the module: sent to
    0x3F, or in scope 0x0A to the module id, or in scope 0x0B to the group
    id), the filter being taken with the ids the module has at the start. *)
Theorem receive_loop_filter (msgs : list Message) (w : World) :
  _receive_loop msgs w
  = _receive_loop (filter (wanted (module_id (self w)) (group_id (self w))) msgs) w.
Proof.
  destruct (running (self w)) eqn:Hrun;
    [| rewrite !receive_loop_stopped by exact Hrun; reflexivity].
  remember (module_id (self w)) as mid eqn:Hmid.
  remember (group_id (self w)) as gid eqn:Hgid.
  revert w Hrun Hmid Hgid.
  induction msgs as [| msg rest IH]; intros w Hrun Hmid Hgid; [reflexivity |].
  cbn [filter]. destruct (wanted mid gid msg) eqn:Hw.
  - rewrite !receive_loop_cons, receive_body_run. cbv zeta.
    rewrite Hrun, <- Hmid, <- Hgid, Hw. cbn [negb].
    pose proof (route_command_keeps_configuration
                  (cmd_no (decodeId (arbitration_id msg))) (data msg)
                  (src_addr (decodeId (arbitration_id msg)))
                  (device_no (decodeId (arbitration_id msg)))
                  (dest_addr (decodeId (arbitration_id msg))) w) as Hc.
    apply configuration_fields in Hc.
    destruct Hc as (Hm & Hg & _ & _ & _ & _ & _ & Hr).
    destruct (_route_command _ _ _ _ _ w) as [w1 [[] | e]]; cbn [fst snd] in *;
      [| reflexivity].
    apply IH; congruence.
  - rewrite receive_loop_cons, receive_body_run. cbv zeta.
    rewrite Hrun, <- Hmid, <- Hgid, Hw. cbn [negb].
    apply IH; assumption.
Qed.

(** X4: the receive loop over two streams, one after the other, is the
    loop over the first followed by the loop over the second; an exception
    raised in the first stream ends the loop for good, so that no frame of
    the second stream is looked at. *)
Theorem receive_loop_app (pre rest : list Message) (w : World) :
  _receive_loop (pre ++ rest) w
  = match _receive_loop pre w with
    | (w1, Ok _) => _receive_loop rest w1
    | (w1, Raise e) => (w1, Raise e)
    end.
Proof.
  revert w. induction pre as [| msg pre IH]; intros w; [reflexivity |].
  cbn [app]. rewrite !receive_loop_cons.
  pose proof (receive_body_run msg w) as Hb. cbv zeta in Hb.
  destruct (running (self w)) eqn:Hrun; cbn [negb] in Hb.
  - destruct (_receive_body msg w) as [w1 [[|] | e]] eqn:Eb.
    + apply IH.
    + exfalso. destruct (wanted _ _ _); [| discriminate Hb].
      destruct (snd (_route_command _ _ _ _ _ w)); discriminate Hb.
    + reflexivity.
  - rewrite Hb. symmetry. apply receive_loop_stopped. exact Hrun.
Qed.

(** * Frames the module itself puts on the bus *)

(** The identifier of a heartbeat has bit 24 and bit 15 set, whatever the
    module id: its scope is neither 0x0A nor 0x0B and its destination is
    not 0x3F. *)
Lemma heartbeat_id_fields (mid : Z) :
  let f := decodeId (Z.lor 0x0757F800 mid) in
  (dest_addr f =? 0x3F) = false /\
  (device_no f =? 0x0A) = false /\ (device_no f =? 0x0B) = false.
Proof.
  intros f.
  assert (Hd : Z.testbit (dest_addr f) 7 = true).
  { subst f. unfold decodeId; cbn [dest_addr].
    rewrite Z.land_spec, Z.shiftr_spec, Z.lor_spec by lia. reflexivity. }
  assert (Hs : Z.testbit (device_no f) 2 = true).
  { subst f. unfold decodeId; cbn [device_no].
    rewrite Z.land_spec, Z.shiftr_spec, Z.lor_spec by lia. reflexivity. }
  repeat split; apply Z.eqb_neq; intros E;
    [rewrite E in Hd | rewrite E in Hs | rewrite E in Hs]; discriminate.
Qed.

(** X5: a heartbeat is inert.  The frame one heartbeat cycle of any
    module sends, whatever that module's id, is dropped before the router
    by every module that receives it (the sender included): the receiver's
    world is unchanged and its loop goes on, or stops when the receiver is
    not running. *)
Theorem heartbeat_never_routed (wa wb : World) (r : float) :
  exists m,
    sent (fst (_heartbeat_cycle r wa)) = sent wa ++ [m] /\
    _receive_body m wb = (wb, Ok (if running (self wb) then Continue else Break)).
Proof.
  rewrite heartbeat_cycle_run. cbn [fst sent].
  eexists. split; [reflexivity |].
  rewrite receive_body_run. cbv zeta.
  destruct (running (self wb)); cbn [negb]; [| reflexivity].
  unfold wanted, heartbeat_frame; cbn [arbitration_id is_error_frame].
  destruct (heartbeat_id_fields (module_id (self wa))) as (-> & -> & ->).
  rewrite andb_false_r. reflexivity.
Qed.

(** X6: where a reply goes.  The frame [_send_response] sends for command
    [cmd] to the requester [target] is, at any running module, dropped
    unchanged unless the receiver is another module than the sender and
    [target] is 0x3F or the receiver's own id; only then is it routed, as a
    command [cmd] in scope 0x0A coming from the sender.  In particular a
    module never routes its own replies, and a reply to an address that is
    no module's id (such as the client's 0xF0) is routed by nobody. *)
Theorem reply_routed_iff
    (wa wb : World) (cmd target : Z) (payload : list byte) :
  0 <= cmd <= 0x3F -> 0 <= target <= 0xFF -> 0 <= module_id (self wa) <= 0xFF ->
  running (self wb) = true ->
  exists m,
    replied wa (fst (_send_response cmd payload target wa)) m /\
    let wb' := fst (_receive_body m wb) in
    let taken :=
      module_id (self wa) <> module_id (self wb) /\
      (target = 0x3F \/ target = module_id (self wb)) in
    (taken ->
     wb' = fst (_route_command cmd payload (module_id (self wa)) 0x0A target wb)) /\
    (~ taken -> wb' = wb).
Proof.
  intros Hc Ht Ha Hrun.
  eexists. split; [unfold _send_response; rewrite bind_get_self; reflexivity |].
  cbv zeta. rewrite receive_body_run. cbv zeta. rewrite Hrun. cbn [negb].
  unfold wanted. cbn [arbitration_id is_error_frame data].
  rewrite (decode_encode 0 0x0A cmd target (module_id (self wa)))
    by (change (2 ^ 3) with 8; change (2 ^ 4) with 16; change (2 ^ 6) with 64;
        change (2 ^ 8) with 256; lia).
  cbn [err_code device_no cmd_no dest_addr src_addr negb andb].
  change (10 =? 10) with true. change (10 =? 11) with false.
  cbn [andb orb]. rewrite orb_false_r.
  destruct (Z.eqb_spec (module_id (self wa)) (module_id (self wb))) as [E1 | E1];
    cbn [negb andb].
  { split; [intros [H _]; contradiction | reflexivity]. }
  destruct (Z.eqb_spec target 63) as [E2 | E2]; cbn [orb].
  { split; [reflexivity | intros H; exfalso; apply H; split; [exact E1 | left; exact E2]]. }
  destruct (Z.eqb_spec target (module_id (self wb))) as [E3 | E3].
  { split; [reflexivity | intros H; exfalso; apply H; split; [exact E1 | right; exact E3]]. }
  split; [intros [_ [H | H]]; contradiction | reflexivity].
Qed.

Lemma reply_routed_iff_witness :
  exists m,
    replied world0 (fst (_send_response 0x1B [x00] 0xF0 world0)) m /\
    fst (_receive_body m world0) = world0.
Proof.
  destruct (reply_routed_iff world0 world0 0x1B 0xF0 [x00]) as (m & Hm & _ & Hdrop);
    [lia | lia | cbn; lia | reflexivity |].
  exists m. split; [exact Hm |].
  apply Hdrop. intros [H _]. apply H. reflexivity.
Defined.

(** * The identifier codec, the other way round *)

Lemma field_bit (x sh k i : Z) :
  0 <= sh -> 0 <= k -> 0 <= i ->
  Z.testbit (Z.shiftl (Z.land (Z.shiftr x sh) (Z.ones k)) sh) i
  = (sh <=? i) && (i <? sh + k) && Z.testbit x i.
Proof.
  intros Hsh Hk Hi. rewrite Z.shiftl_spec by exact Hi.
  destruct (Z.leb_spec sh i) as [H1 | H1].
  - rewrite Z.land_spec, Z.shiftr_spec, Z.testbit_ones_nonneg by lia.
    replace (i - sh + sh) with i by lia.
    replace (i - sh <? k) with (i <? sh + k)
      by (destruct (Z.ltb_spec i (sh + k)), (Z.ltb_spec (i - sh) k); lia || reflexivity).
    cbn [andb]. apply andb_comm.
  - rewrite Z.testbit_neg_r by lia. reflexivity.
Qed.

(** X7: the five fields determine a 29-bit identifier.  Packing the fields
    decoded from an identifier below 2^29 gives that identifier back, so
    that two different 29-bit identifiers never decode to the same fields. *)
Theorem encodeId_decodeId_roundtrip (can_id : Z) :
  0 <= can_id < 2 ^ 29 ->
  let f := decodeId can_id in
  encodeId (err_code f) (device_no f) (cmd_no f) (dest_addr f) (src_addr f) = can_id.
Proof.
  intros Hid f. subst f. unfold decodeId, encodeId.
  cbn [err_code device_no cmd_no dest_addr src_addr].
  change 7 with (Z.ones 3). change 15 with (Z.ones 4).
  change 63 with (Z.ones 6). change 255 with (Z.ones 8).
  rewrite <- (Z.shiftl_0_r (Z.land can_id (Z.ones 8))).
  rewrite <- (Z.shiftr_0_r can_id) at 5.
  apply Z.bits_inj'. intros i Hi.
  rewrite !Z.lor_spec, !field_bit by lia.
  destruct (Z.testbit can_id i) eqn:Hb.
  - assert (i < 29).
    { destruct (Z.lt_ge_cases i 29) as [H | H]; [exact H |].
      rewrite (testbit_field can_id 29 i Hid) in Hb by lia. discriminate. }
    rewrite !andb_true_r.
    destruct (Z.leb_spec 26 i), (Z.ltb_spec i (26 + 3)),
      (Z.leb_spec 22 i), (Z.ltb_spec i (22 + 4)),
      (Z.leb_spec 16 i), (Z.ltb_spec i (16 + 6)),
      (Z.leb_spec 8 i), (Z.ltb_spec i (8 + 8)),
      (Z.leb_spec 0 i), (Z.ltb_spec i (0 + 8)); cbn [andb orb]; reflexivity || lia.
  - rewrite !andb_false_r. reflexivity.
Qed.

Lemma encodeId_decodeId_roundtrip_witness :
  let f := decodeId 0x0757F800 in
  encodeId (err_code f) (device_no f) (cmd_no f) (dest_addr f) (src_addr f)
  = 0x0757F800.
Proof.
  apply (encodeId_decodeId_roundtrip 0x0757F800). vm_compute. split; congruence.
Defined.

(** * A malformed frame and the receive loop *)

Lemma dispatch_short_payload (w : World) (cmd : Z) (payload : list byte)
    (device_mode dest : Z) :
  cmd = 0x1A \/ cmd = 0x1B \/ cmd = 0x1C ->
  (length payload < required_length cmd)%nat ->
  dispatch cmd payload device_mode dest w
  = (w, Raise (if cmd =? 0x1A then IndexError else StructError)).
Proof.
  intros [-> | [-> | ->]] Hlen; cbn in Hlen.
  - destruct payload; [reflexivity | cbn in Hlen; lia].
  - change (dispatch 27 payload device_mode dest)
      with (_handle_set_output payload ;;; some _handle_read_output_setting).
    apply bind_raised, set_output_short, Hlen.
  - change (dispatch 28 payload device_mode dest)
      with (_handle_set_output payload ;;;
            if negb (dest =? 0x3F)
            then some _handle_read_output_setting else ret None).
    apply bind_raised, set_output_short, Hlen.
Qed.

(** X8: one malformed frame ends reception.  When a running module receives
    a wanted frame of command 0x1A with an empty payload, or of command
    0x1B or 0x1C with fewer than 8 bytes, the receive loop itself raises
    (IndexError, respectively struct.error): the call is recorded, nothing
    is sent, the device state is as before (so the module still counts as
    running), and none of the frames that follow is processed. *)
Theorem malformed_frame_ends_receive_loop
    (w : World) (msg : Message) (rest : list Message) :
  let cmd := cmd_no (decodeId (arbitration_id msg)) in
  running (self w) = true ->
  wanted (module_id (self w)) (group_id (self w)) msg = true ->
  cmd = 0x1A \/ cmd = 0x1B \/ cmd = 0x1C ->
  (length (data msg) < required_length cmd)%nat ->
  _receive_loop (msg :: rest) w
  = ({| self := self w; sent := sent w; slept := slept w;
        routed := routed w ++ [call_of msg] |},
     Raise (if cmd =? 0x1A then IndexError else StructError)).
Proof.
  intros cmd Hrun Hw Hcmd Hlen.
  rewrite receive_loop_cons, receive_body_run. cbv zeta.
  rewrite Hrun, Hw. cbn [negb].
  rewrite route_command_run. fold cmd.
  rewrite (dispatch_short_payload _ cmd (data msg) _ _ Hcmd Hlen).
  reflexivity.
Qed.

Lemma malformed_frame_ends_receive_loop_witness :
  let bad := {| arbitration_id := encodeId 0 0x0A 0x1B 0x00 0xF0;
                data := [x00; x07; xa1];
                is_extended_id := true; is_error_frame := false |} in
  let good := {| arbitration_id := encodeId 0 0x0A 0x1A 0x00 0xF0; data := [x00];
                 is_extended_id := true; is_error_frame := false |} in
  _receive_loop [bad; good] world0
  = ({| self := self world0; sent := []; slept := []; routed := [call_of bad] |},
     Raise StructError).
Proof.
  intros bad good.
  apply (malformed_frame_ends_receive_loop world0 bad [good]).
  - reflexivity.
  - vm_compute. reflexivity.
  - right; left. vm_compute. reflexivity.
  - vm_compute. lia.
Defined.

(** * Measured values and the power state *)

Lemma power_control_keeps_consistent payload w :
  measured_consistent (self w) ->
  measured_consistent (self (fst (_handle_power_control payload w))).
Proof.
  intros HP.
  destruct (power_control_cases payload w) as [[_ ->] | (b & rest & _ & _ & _ & _ & _ & ->)];
    [exact HP |].
  destruct (Z_of_byte b =? 0); cbn; [reflexivity | split; reflexivity].
Qed.

Lemma set_output_keeps_consistent payload w :
  measured_consistent (self w) ->
  measured_consistent (self (fst (_handle_set_output payload w))).
Proof.
  intros HP.
  destruct (set_output_cases payload w)
    as [-> | (v & c & _ & _ & _ & _ & _ & _ & _ & _ & ->)]; [exact HP |].
  unfold measured_consistent in *.
  cbn [is_power_on voltage_out current_out set_voltage].
  destruct (is_power_on (self w)); [reflexivity | exact HP].
Qed.

Lemma receive_loop_consistent (msgs : list Message) (w : World) :
  measured_consistent (self w) ->
  measured_consistent (self (fst (_receive_loop msgs w))).
Proof.
  apply (receive_loop_invariant measured_consistent
           power_control_keeps_consistent set_output_keeps_consistent).
Qed.

(** X9: measured values follow the power state.  From the start of the
    module on, whatever frames it receives, a module that is off measures
    0 V and 0 A, and a module that is on measures exactly its voltage
    setpoint. *)
Theorem measured_follow_power_state (mid gid : Z) (msgs : list Message) :
  let s := self (fst (_receive_loop msgs (started mid gid))) in
  if is_power_on s then voltage_out s = set_voltage s
  else voltage_out s = S754_zero false /\ current_out s = S754_zero false.
Proof.
  cbv zeta.
  pose proof (receive_loop_consistent msgs (started mid gid)) as H.
  unfold measured_consistent in H at 2. apply H.
  split; reflexivity.
Qed.

(** * The capability report *)

Lemma tenths_750 : int_of_float (fmul (of_int 750) (of_int 10)) = Ok 7500.
Proof. vm_compute. reflexivity. Qed.
Lemma tenths_100 : int_of_float (fmul (of_int 100) (of_int 10)) = Ok 1000.
Proof. vm_compute. reflexivity. Qed.
Lemma tenths_25_6 : int_of_float (fmul (decimal 256 1) (of_int 10)) = Ok 256.
Proof. vm_compute. reflexivity. Qed.
Lemma tens_15000 : int_of_float (fdiv (of_int 15000) (of_int 10)) = Ok 1500.
Proof. vm_compute. reflexivity. Qed.

Lemma read_module_info_run (w : World) :
  max_current (self w) = decimal 256 1 ->
  cap_voltage_max (self w) = of_int 750 ->
  cap_voltage_min (self w) = of_int 100 ->
  cap_power_rated (self w) = of_int 15000 ->
  _handle_read_module_info w
  = (w, Ok [x1d; x4c; x03; xe8; x01; x00; x05; xdc]).
Proof.
  intros Hi Hmax Hmin Hp.
  unfold _handle_read_module_info. rewrite bind_get_self.
  rewrite Hi, Hmax, Hmin, Hp.
  rewrite tenths_750, tenths_100, tenths_25_6, tens_15000.
  reflexivity.
Qed.

(** X10: the capability report is constant.  From the start of the module
    on, whatever frames it has received, a command 0x0A is answered with
    the four big-endian uint16 7500, 1000, 256 and 1500: 750.0 V and
    100.0 V in tenths of a volt, 25.6 A in tenths of an ampere (the binary64
    product 25.6 * 10 truncates to 256, not 255) and 15000 W in tens of
    watts. *)
Theorem module_info_reply (mid gid : Z) (msgs : list Message)
    (payload : list byte) (remote_src device_mode dest : Z) :
  let w := fst (_receive_loop msgs (started mid gid)) in
  let r := _route_command 0x0A payload remote_src device_mode dest w in
  snd r = Ok tt /\ self (fst r) = self w /\
  replied w (fst r)
    {| arbitration_id := encodeId 0x00 0x0A 0x0A remote_src mid;
       data := [x1d; x4c; x03; xe8; x01; x00; x05; xdc];
       is_extended_id := true; is_error_frame := false |}.
Proof.
  intros w.
  pose proof (receive_loop_configuration msgs (started mid gid)) as Hc.
  apply configuration_fields in Hc. fold w in Hc.
  destruct Hc as (Hm & _ & Hi & Hmax & Hmin & Hp & _ & _).
  cbn in Hm, Hi, Hmax, Hmin, Hp.
  cbv zeta. rewrite route_command_run.
  match goal with
  | |- context [dispatch _ _ _ _ ?W] =>
      change (dispatch 10 payload device_mode dest W)
        with (some _handle_read_module_info W);
      unfold some;
      rewrite (bind_returned _ _ W _ _ (read_module_info_run W Hi Hmax Hmin Hp))
  end.
  unfold ret, _send_response. cbn [truthy]. rewrite bind_get_self.
  unfold bus_send. cbn [self sent fst snd]. rewrite Hm.
  split; [reflexivity |]. split; reflexivity.
Qed.

(** * Binary64 rounding between two representable bounds *)

Lemma digits_le_53_lt (m : Z) : 0 < m -> Zdigits2 m <= 53 -> m < 2 ^ 53.
Proof.
  intros Hm Hd. destruct (Zdigits2_bounds m Hm) as [_ [_ Hhi]].
  apply Z.lt_le_trans with (2 ^ Zdigits2 m); [exact Hhi |].
  apply Z.pow_le_mono_r; lia.
Qed.

Lemma Zdigits2_pow2_53 : Zdigits2 (2 ^ 53) = 54.
Proof. reflexivity. Qed.

(** [mx * 2^ex], or a value strictly between it and [(mx + 1) * 2^ex] when
    [lx] is inexact, rounds to a positive finite number that stays between
    any two binary64 numbers it lies between. *)
Theorem binary_round_aux_between (mx ex : Z) (lx : location) (mL eL mU eU : Z) :
  0 < mx -> ex <= fexp64 (Zdigits2 mx + ex) ->
  0 < mL -> Zdigits2 mL <= 53 -> -1074 <= eL ->
  0 < mU -> Zdigits2 mU <= 53 -> -1074 <= eU <= 971 ->
  val_le mL eL mx ex ->
  val_le mx ex mU eU ->
  (lx <> loc_Exact -> val_le (mx + 1) ex mU eU) ->
  exists p e,
    binary_round_aux prec emax false mx ex lx = S754_finite false p e /\
    val_le mL eL (Zpos p) e /\ val_le (Zpos p) e mU eU /\
    Zdigits2 (Zpos p) <= 53.
Proof.
  intros Hmx Hn HmL HdL HeL HmU HdU HeU Hlow Hle Hle1.
  destruct (Zdigits2_bounds mx Hmx) as [Hd0 [Hlo Hhi]].
  pose proof (digits_le_53_lt mL HmL HdL) as HmL53.
  pose proof (digits_le_53_lt mU HmU HdU) as HmU53.
  pose proof (val_le_digits mx ex mU eU Hmx HmU Hle) as Hdig.
  set (d := Zdigits2 mx) in *.
  set (E := fexp64 (d + ex)) in *.
  assert (HE : E <= eU) by (subst E; unfold fexp64; lia).
  assert (HE0 : -1074 <= E /\ d + ex - 53 <= E) by (subst E; unfold fexp64; lia).
  destruct (binary_round_aux_steps false mx ex lx ltac:(lia) ltac:(fold d; fold E; lia))
    as (m' & Hbra & Hm' & Hexact).
  fold d in Hbra, Hm', Hexact. fold E in Hbra, Hm', Hexact.
  replace (ex + (E - ex)) with E in Hbra by lia.
  set (n := E - ex) in *.
  assert (Hn0 : 0 <= n) by (subst n; lia).
  assert (Hpn : 0 < 2 ^ n) by (apply pow2_pos; exact Hn0).
  set (m0 := mx / 2 ^ n) in *.
  (* the upper bound, on the grid of step 2^E *)
  set (K := mU * 2 ^ (eU - E)).
  assert (HK : K * 2 ^ n = mU * 2 ^ (eU - ex)).
  { subst K. rewrite <- Z.mul_assoc, <- pow2_split by (subst n; lia).
    f_equal. f_equal. subst n. lia. }
  assert (Hm'K : m' <= K).
  { destruct lx as [| c] eqn:El.
    - apply (grid_upper mx n K m'); [exact Hn0 | | lia | auto].
      rewrite HK. apply (val_le_at mx ex mU eU ex) in Hle; [| lia ..].
      rewrite Z.sub_diag in Hle. change (2 ^ 0) with 1 in Hle. lia.
    - assert (Hlt : mx + 1 <= K * 2 ^ n).
      { rewrite HK. specialize (Hle1 ltac:(discriminate)).
        apply (val_le_at (mx + 1) ex mU eU ex) in Hle1; [| lia ..].
        rewrite Z.sub_diag in Hle1. change (2 ^ 0) with 1 in Hle1. lia. }
      assert (m0 < K) by (apply Z.div_lt_upper_bound; lia).
      lia. }
  (* the quotient has at most 53 digits *)
  assert (Hm053 : m0 < 2 ^ 53).
  { apply Z.div_lt_upper_bound; [exact Hpn |].
    apply Z.lt_le_trans with (2 ^ d); [exact Hhi |].
    rewrite <- pow2_split by lia. apply Z.pow_le_mono_r; subst n; lia. }
  (* the lower bound *)
  assert (HlowE : val_le mL eL m0 E).
  { destruct (Z.le_gt_cases E eL) as [Hc | Hc].
    - apply (val_le_at mL eL m0 E E); [lia .. |].
      rewrite Z.sub_diag. change (2 ^ 0) with 1. rewrite Z.mul_1_r.
      apply grid_lower; [exact Hn0 |].
      apply (val_le_at mL eL mx ex ex) in Hlow; [| lia ..].
      rewrite Z.sub_diag in Hlow. change (2 ^ 0) with 1 in Hlow.
      rewrite <- Z.mul_assoc, <- pow2_split by (subst n; lia).
      replace (eL - E + n) with (eL - ex) by (subst n; lia). lia.
    - apply (val_le_at mL eL m0 E eL); [lia .. |].
      rewrite Z.sub_diag. change (2 ^ 0) with 1. rewrite Z.mul_1_r.
      assert (HEq : E = d + ex - 53) by (subst E; unfold fexp64 in *; lia).
      assert (H52 : 2 ^ 52 <= m0).
      { apply grid_lower; [exact Hn0 |].
        rewrite <- pow2_split by lia.
        replace (52 + n) with (d - 1) by (subst n; lia). exact Hlo. }
      assert (H2 : 2 ^ 1 <= 2 ^ (E - eL)) by (apply Z.pow_le_mono_r; lia).
      change (2 ^ 1) with 2 in H2.
      apply Z.le_trans with (2 ^ 52 * 2); [change (2 ^ 52 * 2) with (2 ^ 53); lia |].
      apply Z.mul_le_mono_nonneg; lia. }
  assert (Hm0pos : 0 < m0).
  { set (k := Z.min eL E).
    unfold val_le in HlowE. fold k in HlowE.
    assert (0 < 2 ^ (eL - k)) by (apply pow2_pos; subst k; lia).
    assert (0 < 2 ^ (E - k)) by (apply pow2_pos; subst k; lia).
    destruct (Z.lt_ge_cases 0 m0) as [Hpos | Hneg]; [exact Hpos | exfalso].
    assert (m0 * 2 ^ (E - k) <= 0) by (apply Z.mul_nonpos_nonneg; lia).
    assert (0 < mL * 2 ^ (eL - k)) by (apply Z.mul_pos_pos; lia).
    lia. }
  assert (Hm'pos : 0 < m') by lia.
  rewrite Hbra, (round_finish_spec false m' E ltac:(lia)).
  set (j := Z.max (fexp64 (Zdigits2 m' + E) - E) 0).
  (* the second shift loses nothing *)
  assert (Hj : (j = 0 /\ E <= 971 /\ Zdigits2 m' <= 53)
               \/ (j = 1 /\ m' = 2 ^ 53 /\ E + 1 <= 971)).
  { destruct (Z.le_gt_cases (Zdigits2 m') 53) as [Hc | Hc].
    - left. split; [subst j; unfold fexp64; lia | lia].
    - right.
      assert (Hge : 2 ^ 53 <= m').
      { destruct (Zdigits2_bounds m' Hm'pos) as [_ [Hl _]].
        apply Z.le_trans with (2 ^ (Zdigits2 m' - 1)); [| exact Hl].
        apply Z.pow_le_mono_r; lia. }
      assert (Hm'eq : m' = 2 ^ 53) by lia.
      split; [| split; [exact Hm'eq |]].
      + subst j. rewrite Hm'eq, Zdigits2_pow2_53. unfold fexp64. lia.
      + destruct (Z.eq_dec eU E) as [Heq | Hne]; [| lia].
        exfalso. subst K. rewrite Heq, Z.sub_diag in Hm'K.
        change (2 ^ 0) with 1 in Hm'K. lia. }
  assert (Hdiv : m' / 2 ^ j * 2 ^ j = m').
  { destruct Hj as [[-> _] | [-> [-> _]]]; [| reflexivity].
    change (2 ^ 0) with 1. rewrite Z.div_1_r. lia. }
  assert (Hdp : Zdigits2 (m' / 2 ^ j) <= 53).
  { destruct Hj as [[-> [_ Hd]] | [-> [-> _]]].
    - change (2 ^ 0) with 1. rewrite Z.div_1_r. exact Hd.
    - apply Z.eq_le_incl. reflexivity. }
  assert (Hj0 : 0 <= j) by (destruct Hj as [[-> _] | [-> _]]; lia).
  assert (Hpj : 0 < 2 ^ j) by (apply pow2_pos; exact Hj0).
  destruct (m' / 2 ^ j) as [| p | p] eqn:Eq; [lia | | lia].
  replace (E + j <=? 971) with true
    by (symmetry; apply Z.leb_le; destruct Hj as [[-> [? _]] | [-> [_ ?]]]; lia).
  exists p, (E + j). split; [reflexivity |]. split; [| split; [| exact Hdp]].
  - set (k := Z.min eL E).
    apply (val_le_at mL eL (Zpos p) (E + j) k); [subst k; lia .. |].
    unfold val_le in HlowE. fold k in HlowE.
    replace (E + j - k) with (j + (E - k)) by lia.
    rewrite pow2_split by (subst k; lia). rewrite Z.mul_assoc, Hdiv.
    assert (0 < 2 ^ (E - k)) by (apply pow2_pos; subst k; lia).
    apply Z.le_trans with (m0 * 2 ^ (E - k)); [exact HlowE |].
    apply Z.mul_le_mono_nonneg_r; lia.
  - apply (val_le_at (Zpos p) (E + j) mU eU E); [lia .. |].
    replace (E + j - E) with j by lia. fold K. rewrite Hdiv. exact Hm'K.
Qed.

(** A product between two binary64 numbers. *)
Lemma fmul_between (m1 : positive) (e1 : Z) (m2 : positive) (e2 : Z)
    (mL eL mU eU : Z) :
  2 ^ 52 <= Zpos m1 * Zpos m2 ->
  0 < mL -> Zdigits2 mL <= 53 -> -1074 <= eL ->
  0 < mU -> Zdigits2 mU <= 53 -> -1074 <= eU <= 971 ->
  val_le mL eL (Zpos m1 * Zpos m2) (e1 + e2) ->
  val_le (Zpos m1 * Zpos m2) (e1 + e2) mU eU ->
  exists p e,
    fmul (S754_finite false m1 e1) (S754_finite false m2 e2) = S754_finite false p e /\
    val_le mL eL (Zpos p) e /\ val_le (Zpos p) e mU eU /\
    Zdigits2 (Zpos p) <= 53.
Proof.
  intros Hbig HmL HdL HeL HmU HdU HeU Hlow Hle.
  unfold fmul. cbn [SFmul xorb]. rewrite Pos2Z.inj_mul.
  apply binary_round_aux_between; try assumption; try lia.
  - assert (53 <= Zdigits2 (Zpos m1 * Zpos m2))
      by (apply Zdigits2_ge; [lia | exact Hbig]).
    pose proof (fexp64_ge (Zdigits2 (Zpos m1 * Zpos m2) + (e1 + e2))). lia.
  - intros H. contradiction H. reflexivity.
Qed.

(** A quotient between two binary64 numbers. *)
Lemma fdiv_between (m1 : positive) (e1 : Z) (m2 : positive) (e2 : Z)
    (mL eL mU eU : Z) :
  Zdigits2 (Zpos m1) <= 53 ->
  -1074 < Zdigits2 (Zpos m1) + e1 - (Zdigits2 (Zpos m2) + e2) - 53 ->
  0 < mL -> Zdigits2 mL <= 53 -> -1074 <= eL ->
  0 < mU -> Zdigits2 mU <= 53 -> -1074 <= eU <= 971 ->
  val_le (mL * Zpos m2) (eL + e2) (Zpos m1) e1 ->
  val_le (Zpos m1) e1 (mU * Zpos m2) (eU + e2) ->
  exists p e,
    fdiv (S754_finite false m1 e1) (S754_finite false m2 e2) = S754_finite false p e /\
    val_le mL eL (Zpos p) e /\ val_le (Zpos p) e mU eU /\
    Zdigits2 (Zpos p) <= 53.
Proof.
  intros Hd1 Hnormal HmL HdL HeL HmU HdU HeU Hlow Hle.
  destruct (SFdiv_core_binary_spec (Zpos m1) e1 (Zpos m2) e2
              ltac:(lia) ltac:(lia) Hd1 Hnormal)
    as (q & l & Hcore & Hs & Hq & Hqbig & Hexact).
  set (e' := Zdigits2 (Zpos m1) + e1 - (Zdigits2 (Zpos m2) + e2) - 53) in *.
  set (s := e1 - e2 - e') in *.
  unfold fdiv. cbn [SFdiv xorb]. rewrite Hcore.
  pose proof (digits_le_53_lt mL HmL HdL) as HmL53.
  pose proof (digits_le_53_lt mU HmU HdU) as HmU53.
  assert (Hps : 0 < 2 ^ s) by (apply pow2_pos; lia).
  assert (Hp52 : 0 < 2 ^ 52) by (apply pow2_pos; lia).
  assert (Hq0 : 0 < q) by lia.
  pose proof (Z.div_mod (Zpos m1 * 2 ^ s) (Zpos m2) ltac:(lia)) as Hdm.
  pose proof (Z.mod_pos_bound (Zpos m1 * 2 ^ s) (Zpos m2) ltac:(lia)) as Hmod.
  rewrite <- Hq in Hdm.
  assert (Hscaled : forall k, k <= e' -> k <= eU ->
            Zpos m1 * 2 ^ s * 2 ^ (e' - k) <= mU * Zpos m2 * 2 ^ (eU - k)).
  { intros k Hk1 Hk2.
    apply (val_le_at (Zpos m1) e1 (mU * Zpos m2) (eU + e2) (k + e2)) in Hle;
      [| subst s; lia ..].
    replace (eU + e2 - (k + e2)) with (eU - k) in Hle by lia.
    replace (e1 - (k + e2)) with (s + (e' - k)) in Hle by (subst s; lia).
    rewrite (pow2_split s (e' - k)) in Hle by lia.
    rewrite Z.mul_assoc in Hle. exact Hle. }
  assert (Hqle : val_le q e' mU eU).
  { set (k := Z.min e' eU).
    apply (val_le_at q e' mU eU k); [subst k; lia .. |].
    specialize (Hscaled k ltac:(subst k; lia) ltac:(subst k; lia)).
    assert (0 < 2 ^ (e' - k)) by (apply pow2_pos; subst k; lia).
    assert (0 < 2 ^ (eU - k)) by (apply pow2_pos; subst k; lia).
    assert (Hm2 : Zpos m2 * (q * 2 ^ (e' - k)) <= Zpos m2 * (mU * 2 ^ (eU - k)))
      by nia.
    apply Z.mul_le_mono_pos_l in Hm2; lia. }
  assert (Hdigq : 53 <= Zdigits2 q) by (apply Zdigits2_ge; lia).
  assert (Hn : e' <= fexp64 (Zdigits2 q + e')).
  { pose proof (fexp64_ge (Zdigits2 q + e')). lia. }
  pose proof (val_le_digits q e' mU eU Hq0 HmU Hqle) as Hdig.
  assert (He'U : e' <= eU) by (unfold fexp64 in *; lia).
  (* the lower bound passes to the integer quotient *)
  assert (Hqlow : val_le mL eL q e').
  { destruct (Z.le_gt_cases e' eL) as [Hc | Hc].
    - apply (val_le_at mL eL q e' e'); [lia .. |].
      rewrite Z.sub_diag. change (2 ^ 0) with 1. rewrite Z.mul_1_r.
      apply (val_le_at (mL * Zpos m2) (eL + e2) (Zpos m1) e1 (e' + e2)) in Hlow;
        [| subst s; lia ..].
      replace (eL + e2 - (e' + e2)) with (eL - e') in Hlow by lia.
      replace (e1 - (e' + e2)) with s in Hlow by (subst s; lia).
      rewrite Hq. apply Z.div_le_lower_bound; [lia |]. lia.
    - apply (val_le_at mL eL q e' eL); [lia .. |].
      rewrite Z.sub_diag. change (2 ^ 0) with 1. rewrite Z.mul_1_r.
      assert (H2 : 2 ^ 1 <= 2 ^ (e' - eL)) by (apply Z.pow_le_mono_r; lia).
      change (2 ^ 1) with 2 in H2.
      apply Z.le_trans with (2 ^ 52 * 2); [change (2 ^ 52 * 2) with (2 ^ 53); lia |].
      apply Z.mul_le_mono_nonneg; lia. }
  apply binary_round_aux_between; try assumption.
  intros Hl.
  apply (val_le_at (q + 1) e' mU eU e'); [lia .. |].
  rewrite Z.sub_diag. change (2 ^ 0) with 1.
  specialize (Hscaled e' ltac:(lia) He'U).
  rewrite Z.sub_diag in Hscaled. change (2 ^ 0) with 1 in Hscaled.
  assert (Hr : (Zpos m1 * 2 ^ s) mod Zpos m2 <> 0).
  { intros Hr0. apply Hl, Hexact, Hr0. }
  assert (0 < 2 ^ (eU - e')) by (apply pow2_pos; lia).
  assert (Hm2 : Zpos m2 * q < Zpos m2 * (mU * 2 ^ (eU - e'))) by nia.
  apply Z.mul_lt_mono_pos_l in Hm2; lia.
Qed.

(** [int(y)] for a positive finite [y] between two bounds. *)
Lemma int_of_float_between (p : positive) (e mL eL mU eU : Z) :
  val_le mL eL (Zpos p) e -> val_le (Zpos p) e mU eU ->
  exists n,
    int_of_float (S754_finite false p e) = Ok n /\
    Z.shiftl mL eL <= n <= Z.shiftl mU eU.
Proof.
  intros HL HU. exists (Z.shiftl (Zpos p) e). split; [reflexivity |].
  split; apply shiftl_val_le; assumption.
Qed.

(** * A wire value divided by 1000.0, then scaled back *)

(** [v / 1000.0] for a 32-bit [v]: within one step of 2^-30 of the exact
    quotient. *)
Lemma quotient_by_1000 (v : Z) :
  1 <= v < 2 ^ 32 ->
  let k := v * 2 ^ 30 / 1000 in
  exists p e,
    fdiv (of_int v) (of_int 1000) = S754_finite false p e /\
    val_le k (-30) (Zpos p) e /\ val_le (Zpos p) e (k + 1) (-30) /\
    Zdigits2 (Zpos p) <= 53.
Proof.
  intros Hv k. rewrite of_int_1000.
  destruct (of_int_exact v ltac:(lia)) as (m1 & e1 & Hof & Hd1 & He1 & Hm1).
  rewrite Hof.
  destruct (Zdigits2_bounds v ltac:(lia)) as [Hdv0 _].
  assert (Hdv : Zdigits2 v <= 32) by (apply Zdigits2_le; lia).
  change (2 ^ 32) with 4294967296 in Hv.
  pose proof (Z.div_mod (v * 2 ^ 30) 1000 ltac:(lia)) as Hdm.
  pose proof (Z.mod_pos_bound (v * 2 ^ 30) 1000 ltac:(lia)) as Hmod.
  fold k in Hdm. change (2 ^ 30) with 1073741824 in Hdm, Hmod.
  assert (Hk : 1 <= k < 2 ^ 53 - 1) by (change (2 ^ 53) with 9007199254740992; lia).
  assert (Hm1v : Zpos m1 * 2 ^ (e1 - -73) = v * 2 ^ 73).
  { rewrite Hm1, <- Z.mul_assoc, <- pow2_split by lia. f_equal. f_equal. lia. }
  change (2 ^ 73) with 9444732965739290427392 in Hm1v.
  apply fdiv_between.
  - lia.
  - rewrite Hd1. change (Zdigits2 (Zpos 8796093022208000)) with 53. lia.
  - lia.
  - apply Zdigits2_le; lia.
  - lia.
  - lia.
  - apply Zdigits2_le; lia.
  - lia.
  - apply (val_le_at _ _ _ _ (-73)); [lia .. |].
    rewrite Hm1v. change (2 ^ (-30 + -43 - -73)) with 1. lia.
  - apply (val_le_at _ _ _ _ (-73)); [lia .. |].
    rewrite Hm1v. change (2 ^ (-30 + -43 - -73)) with 1. lia.
Qed.

(** [int((v / 1000.0) * c)] lies between the integer parts of any two
    binary64 numbers that enclose the product with a margin of [c * 2^-30]. *)
Lemma quotient_times (v : Z) (mc : positive) (ec : Z) (mL eL mU eU : Z) :
  1 <= v < 2 ^ 32 ->
  2 ^ 52 <= Zpos mc ->
  let k := v * 2 ^ 30 / 1000 in
  0 < mL -> Zdigits2 mL <= 53 -> -1074 <= eL ->
  0 < mU -> Zdigits2 mU <= 53 -> -1074 <= eU <= 971 ->
  val_le mL eL (k * Zpos mc) (-30 + ec) ->
  val_le ((k + 1) * Zpos mc) (-30 + ec) mU eU ->
  exists n,
    int_of_float (fmul (fdiv (of_int v) (of_int 1000)) (S754_finite false mc ec)) = Ok n /\
    Z.shiftl mL eL <= n <= Z.shiftl mU eU.
Proof.
  intros Hv Hmc k HmL HdL HeL HmU HdU HeU Hlow Hupp.
  destruct (quotient_by_1000 v Hv) as (p & e & -> & HL & HU & _). fold k in HL, HU.
  destruct (fmul_between p e mc ec mL eL mU eU) as (py & ey & -> & HLy & HUy & _);
    try assumption.
  - apply Z.le_trans with (1 * Zpos mc); [lia |].
    apply Z.mul_le_mono_nonneg_r; lia.
  - apply val_le_trans with (k * Zpos mc) (-30 + ec); [exact Hlow |].
    apply val_le_scale; [lia | exact HL].
  - apply val_le_trans with ((k + 1) * Zpos mc) (-30 + ec); [| exact Hupp].
    apply val_le_scale; [lia | exact HU].
  - apply int_of_float_between; assumption.
Qed.

(** The readback of a 32-bit value: [int((v / 1000.0) * 1000)] is [v] or
    [v - 1]. *)
Lemma readback_within_one (v : Z) :
  0 <= v < 2 ^ 32 ->
  exists n,
    int_of_float (fmul (fdiv (of_int v) (of_int 1000)) (of_int 1000)) = Ok n /\
    v - 1 <= n <= v /\ 0 <= n.
Proof.
  intros Hv.
  destruct (Z.eq_dec v 0) as [-> | Hnz].
  { exists 0. split; [vm_compute; reflexivity | lia]. }
  change (2 ^ 32) with 4294967296 in Hv.
  pose proof (Z.div_mod (v * 2 ^ 30) 1000 ltac:(lia)) as Hdm.
  pose proof (Z.mod_pos_bound (v * 2 ^ 30) 1000 ltac:(lia)) as Hmod.
  change (2 ^ 30) with 1073741824 in Hdm, Hmod.
  set (mL := if v <? 2 then 1 else v - 1).
  set (eL := if v <? 2 then -40 else 0).
  assert (HLpos : 0 < mL < 2 ^ 32)
    by (subst mL; change (2 ^ 32) with 4294967296; destruct (Z.ltb_spec v 2); lia).
  destruct (quotient_times v 8796093022208000 (-43) mL eL (2 * v + 1) (-1))
    as (n & Hn & Hlo & Hhi).
  - change (2 ^ 32) with 4294967296. lia.
  - change (2 ^ 52) with 4503599627370496. lia.
  - lia.
  - apply Zdigits2_le; [lia | lia |].
    apply Z.lt_trans with (2 ^ 32); [lia | reflexivity].
  - subst eL. destruct (v <? 2); lia.
  - lia.
  - apply Zdigits2_le; [lia | lia |]. change (2 ^ 53) with 9007199254740992. lia.
  - lia.
  - subst mL eL. change (2 ^ 30) with 1073741824.
    destruct (Z.ltb_spec v 2).
    + apply (val_le_at _ _ _ _ (-73)); [lia .. |].
      change (2 ^ (-40 - -73)) with 8589934592.
      change (2 ^ (-30 + -43 - -73)) with 1. lia.
    + apply (val_le_at _ _ _ _ (-73)); [lia .. |].
      change (2 ^ (0 - -73)) with 9444732965739290427392.
      change (2 ^ (-30 + -43 - -73)) with 1. lia.
  - change (2 ^ 30) with 1073741824.
    apply (val_le_at _ _ _ _ (-73)); [lia .. |].
    change (2 ^ (-1 - -73)) with 4722366482869645213696.
    change (2 ^ (-30 + -43 - -73)) with 1. lia.
  - exists n. split; [rewrite of_int_1000 at 2; exact Hn |].
    rewrite (Z.shiftl_div_pow2 (2 * v + 1) (-1)) in Hhi by lia.
    change (2 ^ (- -1)) with 2 in Hhi.
    assert ((2 * v + 1) / 2 = v)
      by (symmetry; apply (Z.div_unique (2 * v + 1) 2 v 1); lia).
    assert (0 <= Z.shiftl mL eL) by (apply Z.shiftl_nonneg; lia).
    assert (v - 1 <= Z.shiftl mL eL).
    { subst mL eL. destruct (Z.ltb_spec v 2); [lia |].
      rewrite Z.shiftl_0_r. lia. }
    lia.
Qed.

Lemma of_int_10 : of_int 10 = S754_finite false 5629499534213120 (-49).
Proof. vm_compute. reflexivity. Qed.

(** The tenths of a volt reported for a voltage of [v] mV:
    [int((v / 1000.0) * 10)] is [v / 100] or one less. *)
Lemma tenths_within_one (v : Z) :
  0 <= v < 2 ^ 32 ->
  exists n,
    int_of_float (fmul (fdiv (of_int v) (of_int 1000)) (of_int 10)) = Ok n /\
    v / 100 - 1 <= n <= v / 100 /\ 0 <= n.
Proof.
  intros Hv.
  destruct (Z.eq_dec v 0) as [-> | Hnz].
  { exists 0. split; [vm_compute; reflexivity |]. change (0 / 100) with 0. lia. }
  change (2 ^ 32) with 4294967296 in Hv.
  pose proof (Z.div_mod (v * 2 ^ 30) 1000 ltac:(lia)) as Hdm.
  pose proof (Z.mod_pos_bound (v * 2 ^ 30) 1000 ltac:(lia)) as Hmod.
  change (2 ^ 30) with 1073741824 in Hdm, Hmod.
  pose proof (Z.div_mod v 100 ltac:(lia)) as Hdv.
  pose proof (Z.mod_pos_bound v 100 ltac:(lia)) as Hmv.
  set (a := v / 100) in *.
  set (mL := if a <? 2 then 1 else a - 1).
  set (eL := if a <? 2 then -40 else 0).
  assert (HLpos : 0 < mL < 2 ^ 32)
    by (subst mL; change (2 ^ 32) with 4294967296; destruct (Z.ltb_spec a 2); lia).
  destruct (quotient_times v 5629499534213120 (-49) mL eL
              ((a + 1) * 2 ^ 20 - 1) (-20))
    as (n & Hn & Hlo & Hhi).
  - change (2 ^ 32) with 4294967296. lia.
  - change (2 ^ 52) with 4503599627370496. lia.
  - lia.
  - apply Zdigits2_le; [lia | lia |].
    apply Z.lt_trans with (2 ^ 32); [lia | reflexivity].
  - subst eL. destruct (a <? 2); lia.
  - change (2 ^ 20) with 1048576. lia.
  - change (2 ^ 20) with 1048576.
    apply Zdigits2_le; [lia | lia |]. change (2 ^ 53) with 9007199254740992. lia.
  - lia.
  - subst mL eL. change (2 ^ 30) with 1073741824.
    destruct (Z.ltb_spec a 2).
    + apply (val_le_at _ _ _ _ (-79)); [lia .. |].
      change (2 ^ (-40 - -79)) with 549755813888.
      change (2 ^ (-30 + -49 - -79)) with 1. lia.
    + apply (val_le_at _ _ _ _ (-79)); [lia .. |].
      change (2 ^ (0 - -79)) with 604462909807314587353088.
      change (2 ^ (-30 + -49 - -79)) with 1. lia.
  - change (2 ^ 30) with 1073741824. change (2 ^ 20) with 1048576.
    apply (val_le_at _ _ _ _ (-79)); [lia .. |].
    change (2 ^ (-20 - -79)) with 576460752303423488.
    change (2 ^ (-30 + -49 - -79)) with 1. lia.
  - exists n. split; [rewrite of_int_10; exact Hn |].
    rewrite (Z.shiftl_div_pow2 _ (-20)) in Hhi by lia.
    change (2 ^ (- -20)) with 1048576 in Hhi. change (2 ^ 20) with 1048576 in Hhi.
    assert (((a + 1) * 1048576 - 1) / 1048576 = a)
      by (symmetry; apply (Z.div_unique _ 1048576 a 1048575); lia).
    assert (0 <= Z.shiftl mL eL) by (apply Z.shiftl_nonneg; lia).
    assert (a - 1 <= Z.shiftl mL eL).
    { subst mL eL. destruct (Z.ltb_spec a 2); [lia |].
      rewrite Z.shiftl_0_r. lia. }
    lia.
Qed.

(** From 6553.6 V on, the tenths of a volt no longer fit 16 bits. *)
Lemma tenths_overflow (v : Z) :
  6553600 <= v < 2 ^ 32 ->
  exists n,
    int_of_float (fmul (fdiv (of_int v) (of_int 1000)) (of_int 10)) = Ok n /\
    65536 <= n.
Proof.
  intros Hv.
  destruct (Z.eq_dec v 6553600) as [-> | Hne].
  { exists 65536. split; [vm_compute; reflexivity | lia]. }
  change (2 ^ 32) with 4294967296 in Hv.
  pose proof (Z.div_mod (v * 2 ^ 30) 1000 ltac:(lia)) as Hdm.
  pose proof (Z.mod_pos_bound (v * 2 ^ 30) 1000 ltac:(lia)) as Hmod.
  change (2 ^ 30) with 1073741824 in Hdm, Hmod.
  destruct (quotient_times v 5629499534213120 (-49) 65536 0 1 40)
    as (n & Hn & Hlo & Hhi).
  - change (2 ^ 32) with 4294967296. lia.
  - change (2 ^ 52) with 4503599627370496. lia.
  - lia.
  - apply Zdigits2_le; [lia | lia |]. change (2 ^ 53) with 9007199254740992. lia.
  - lia.
  - lia.
  - apply Zdigits2_le; [lia | lia |]. change (2 ^ 53) with 9007199254740992. lia.
  - lia.
  - change (2 ^ 30) with 1073741824.
    apply (val_le_at _ _ _ _ (-79)); [lia .. |].
    change (2 ^ (0 - -79)) with 604462909807314587353088.
    change (2 ^ (-30 + -49 - -79)) with 1. lia.
  - change (2 ^ 30) with 1073741824.
    apply (val_le_at _ _ _ _ (-79)); [lia .. |].
    change (2 ^ (40 - -79)) with 664613997892457936451903530140172288.
    change (2 ^ (-30 + -49 - -79)) with 1. lia.
  - exists n. split; [rewrite of_int_10; exact Hn |].
    rewrite Z.shiftl_0_r in Hlo. lia.
Qed.

(** * Packing and unpacking agree *)

Lemma Z_of_byte_of_Z (z : Z) : Z_of_byte (byte_of_Z z) = z mod 256.
Proof.
  unfold Z_of_byte, byte_of_Z.
  pose proof (Z.mod_pos_bound z 256 ltac:(lia)) as Hr.
  destruct (Byte.of_N (Z.to_N (z mod 256))) as [b |] eqn:E.
  - apply Byte.to_of_N in E. rewrite E. apply Z2N.id. lia.
  - exfalso. apply Byte.of_N_None_iff in E. lia.
Qed.

Lemma be_value_snoc (l : list byte) (b : byte) :
  be_value (l ++ [b]) = be_value l * 256 + Z_of_byte b.
Proof. unfold be_value. rewrite fold_left_app. reflexivity. Qed.

Lemma be_value_be_bytes (n : nat) (v : Z) :
  be_value (be_bytes n v) = v mod 2 ^ (8 * Z.of_nat n).
Proof.
  revert v. induction n as [| n IH]; intros v.
  - cbn. rewrite Z.mod_1_r. reflexivity.
  - cbn [be_bytes]. rewrite be_value_snoc, IH, Z_of_byte_of_Z.
    rewrite Z.shiftr_div_pow2 by lia. change (2 ^ 8) with 256.
    replace (8 * Z.of_nat (S n)) with (8 + 8 * Z.of_nat n) by lia.
    rewrite pow2_split by lia. change (2 ^ 8) with 256.
    rewrite Z.rem_mul_r by (try apply pow2_pos; lia). lia.
Qed.

(** What [struct.pack('>I', v)] writes, [struct.unpack('>I', ...)] reads. *)
Lemma unpack_I_be_bytes (v : Z) :
  0 <= v < 2 ^ 32 -> unpack_I (be_bytes 4 v) = Ok v.
Proof.
  intros Hv. unfold unpack_I. rewrite be_bytes_length. cbn [Nat.eqb].
  rewrite be_value_be_bytes. change (2 ^ (8 * Z.of_nat 4)) with (2 ^ 32).
  rewrite Z.mod_small by exact Hv. reflexivity.
Qed.

Lemma slice_0_4_app (x y : list byte) : length x = 4%nat -> slice (x ++ y) 0 4 = x.
Proof.
  destruct x as [| a [| b [| c [| d [| e x]]]]]; try discriminate. reflexivity.
Qed.

Lemma slice_4_8_app (x y : list byte) :
  length x = 4%nat -> length y = 4%nat -> slice (x ++ y) 4 8 = y.
Proof.
  destruct x as [| a [| b [| c [| d [| e x]]]]]; try discriminate.
  destruct y as [| a' [| b' [| c' [| d' [| e' y]]]]]; try discriminate. reflexivity.
Qed.

Lemma pack_II_run (a b : Z) :
  0 <= a < 2 ^ 32 -> 0 <= b < 2 ^ 32 ->
  pack_II a b = Ok (be_bytes 4 a ++ be_bytes 4 b).
Proof.
  intros Ha Hb. unfold pack_II, pack_uint.
  change (2 ^ (8 * Z.of_nat 4)) with (2 ^ 32).
  replace ((0 <=? a) && (a <? 2 ^ 32)) with true
    by (symmetry; apply andb_true_iff; split; [apply Z.leb_le | apply Z.ltb_lt]; lia).
  replace ((0 <=? b) && (b <? 2 ^ 32)) with true
    by (symmetry; apply andb_true_iff; split; [apply Z.leb_le | apply Z.ltb_lt]; lia).
  reflexivity.
Qed.

(** * The router, when the handler replies *)

Lemma route_command_replies cmd payload remote_src device_mode dest
    (w w1 : World) (reply : list byte) :
  reply <> [] ->
  dispatch cmd payload device_mode dest
    (entered w {| call_cmd := cmd; call_data := payload;
                  call_remote_src := remote_src;
                  call_device_mode := device_mode;
                  call_dest_addr := dest |})
  = (w1, Ok (Some reply)) ->
  let r := _route_command cmd payload remote_src device_mode dest w in
  snd r = Ok tt /\ self (fst r) = self w1 /\
  replied w (fst r)
    {| arbitration_id := encodeId 0x00 0x0A cmd remote_src (module_id (self w));
       data := reply; is_extended_id := true; is_error_frame := false |}.
Proof.
  intros Hne Hd r.
  pose proof (route_command_sends cmd payload remote_src device_mode dest w) as H.
  cbv zeta in H. fold r in H. unfold entered in Hd. rewrite Hd in H. cbn [snd fst] in H.
  destruct reply as [| b d]; [contradiction Hne; reflexivity |].
  destruct H as [Hrep Hself].
  split; [| split; assumption].
  subst r. rewrite route_command_run, Hd. reflexivity.
Qed.

Lemma route_command_raises cmd payload remote_src device_mode dest
    (w w1 : World) (e : exn) :
  dispatch cmd payload device_mode dest
    (entered w {| call_cmd := cmd; call_data := payload;
                  call_remote_src := remote_src;
                  call_device_mode := device_mode;
                  call_dest_addr := dest |})
  = (w1, Raise e) ->
  let r := _route_command cmd payload remote_src device_mode dest w in
  snd r = Raise e /\ self (fst r) = self w1 /\ silent w (fst r).
Proof.
  intros Hd r.
  pose proof (route_command_sends cmd payload remote_src device_mode dest w) as H.
  cbv zeta in H. fold r in H. unfold entered in Hd. rewrite Hd in H. cbn [snd fst] in H.
  destruct H as [Hrep Hself].
  split; [| split; assumption].
  subst r. rewrite route_command_run, Hd. reflexivity.
Qed.

(** * The setpoint read back *)

Lemma read_output_setting_within_one (w : World) (v c : Z) :
  0 <= v < 2 ^ 32 -> 0 <= c < 2 ^ 32 ->
  set_voltage (self w) = fdiv (of_int v) (of_int 1000) ->
  set_current (self w) = fdiv (of_int c) (of_int 1000) ->
  exists v' c',
    _handle_read_output_setting w = (w, Ok (be_bytes 4 v' ++ be_bytes 4 c')) /\
    0 <= v' < 2 ^ 32 /\ 0 <= c' < 2 ^ 32 /\
    v - 1 <= v' <= v /\ c - 1 <= c' <= c.
Proof.
  intros Hv Hc HV HC.
  destruct (readback_within_one v Hv) as (v' & Hv' & Hrv & Hv0).
  destruct (readback_within_one c Hc) as (c' & Hc' & Hrc & Hc0).
  exists v', c'.
  assert (Rv : 0 <= v' < 2 ^ 32) by lia.
  assert (Rc : 0 <= c' < 2 ^ 32) by lia.
  split; [| repeat split; lia].
  apply (read_output_setting_run w v' c').
  - rewrite HV. exact Hv'.
  - rewrite HC. exact Hc'.
  - apply pack_II_run; assumption.
Qed.

(** X11: what a set-output reads back.  Whatever the device state, a routed
    command 0x1B with a payload of 8 bytes or more is answered with one
    reply whose two big-endian uint32 fields, unpacked as the client does,
    are each the value sent or that value less one: the voltage field is
    [mv] or [mv - 1], the current field [ma] or [ma - 1], never more and
    never less.  (The two binary64 roundings of [int((x / 1000.0) * 1000)]
    can lose one unit; they cannot gain one.) *)
Theorem set_output_reply_within_one
    (w : World) (b0 b1 b2 b3 b4 b5 b6 b7 : byte) (rest : list byte)
    (remote_src device_mode dest : Z) :
  let payload := b0 :: b1 :: b2 :: b3 :: b4 :: b5 :: b6 :: b7 :: rest in
  let mv := be_value [b0; b1; b2; b3] in
  let ma := be_value [b4; b5; b6; b7] in
  let r := _route_command 0x1B payload remote_src device_mode dest w in
  snd r = Ok tt /\
  exists reply v' c',
    replied w (fst r) reply /\
    unpack_I (slice (data reply) 0 4) = Ok v' /\
    unpack_I (slice (data reply) 4 8) = Ok c' /\
    mv - 1 <= v' <= mv /\ ma - 1 <= c' <= ma.
Proof.
  intros payload mv ma r.
  set (call := {| call_cmd := 27; call_data := payload;
                  call_remote_src := remote_src;
                  call_device_mode := device_mode;
                  call_dest_addr := dest |}).
  pose proof (set_output_run (entered w call) b0 b1 b2 b3 b4 b5 b6 b7 rest) as Hset.
  cbv zeta in Hset. fold payload mv ma in Hset.
  match type of Hset with _ = (?W, _) => set (w1 := W) in * end.
  destruct (read_output_setting_within_one w1 mv ma
              (be_value_4_range b0 b1 b2 b3) (be_value_4_range b4 b5 b6 b7)
              eq_refl eq_refl)
    as (v' & c' & Hread & Rv & Rc & Hv & Hc).
  assert (Hd : dispatch 27 payload device_mode dest (entered w call)
               = (w1, Ok (Some (be_bytes 4 v' ++ be_bytes 4 c')))).
  { change (dispatch 27 payload device_mode dest)
      with (_handle_set_output payload ;;; some _handle_read_output_setting).
    rewrite (bind_returned _ _ _ _ _ Hset). unfold some.
    rewrite (bind_returned _ _ _ _ _ Hread). reflexivity. }
  assert (Hne : be_bytes 4 v' ++ be_bytes 4 c' <> []).
  { intros E. apply (f_equal (@length byte)) in E.
    rewrite length_app, !be_bytes_length in E. discriminate E. }
  destruct (route_command_replies 27 payload remote_src device_mode dest w w1 _ Hne Hd)
    as (Hok & _ & Hrep).
  fold r in Hok, Hrep.
  split; [exact Hok |].
  eexists. exists v', c'. split; [exact Hrep |]. cbn [data].
  rewrite slice_0_4_app, slice_4_8_app by apply be_bytes_length.
  rewrite !unpack_I_be_bytes by assumption.
  repeat split; lia.
Qed.

(** The lower value does occur: 1001 mV reads back as 1000 mV. *)
Lemma readback_1001 :
  int_of_float (fmul (fdiv (of_int 1001) (of_int 1000)) (of_int 1000)) = Ok 1000.
Proof. vm_compute. reflexivity. Qed.

(** * The external report and high voltages *)

Lemma pack_HHHH_first_overflow (a b c d : Z) :
  65536 <= a -> pack_HHHH a b c d = Raise StructError.
Proof.
  intros Ha. unfold pack_HHHH.
  assert (E : pack_uint 2 a = Raise StructError).
  { unfold pack_uint. change (2 ^ (8 * Z.of_nat 2)) with 65536.
    replace (a <? 65536) with false by (symmetry; apply Z.ltb_ge; exact Ha).
    rewrite andb_false_r. reflexivity. }
  rewrite E. reflexivity.
Qed.

Lemma pack_HHHH_run (a b c d : Z) :
  0 <= a < 65536 -> 0 <= b < 65536 -> 0 <= c < 65536 -> 0 <= d < 65536 ->
  pack_HHHH a b c d = Ok (be_bytes 2 a ++ be_bytes 2 b ++ be_bytes 2 c ++ be_bytes 2 d).
Proof.
  intros Ha Hb Hc Hd. unfold pack_HHHH, pack_uint.
  change (2 ^ (8 * Z.of_nat 2)) with 65536.
  replace ((0 <=? a) && (a <? 65536)) with true
    by (symmetry; apply andb_true_iff; split; [apply Z.leb_le | apply Z.ltb_lt]; lia).
  replace ((0 <=? b) && (b <? 65536)) with true
    by (symmetry; apply andb_true_iff; split; [apply Z.leb_le | apply Z.ltb_lt]; lia).
  replace ((0 <=? c) && (c <? 65536)) with true
    by (symmetry; apply andb_true_iff; split; [apply Z.leb_le | apply Z.ltb_lt]; lia).
  replace ((0 <=? d) && (d <? 65536)) with true
    by (symmetry; apply andb_true_iff; split; [apply Z.leb_le | apply Z.ltb_lt]; lia).
  reflexivity.
Qed.

(** [_handle_read_module_external] on a module that is on and measures
    [v / 1000.0] volts. *)
Lemma read_module_external_on (w : World) (v : Z) :
  0 <= v < 2 ^ 32 ->
  is_power_on (self w) = true ->
  max_current (self w) = decimal 256 1 ->
  voltage_out (self w) = fdiv (of_int v) (of_int 1000) ->
  if v <? 6553600
  then exists n,
         v / 100 - 1 <= n <= v / 100 /\ 0 <= n /\
         _handle_read_module_external w
         = (w, Ok (be_bytes 2 n ++ be_bytes 2 256 ++ be_bytes 2 0 ++ be_bytes 2 0))
  else _handle_read_module_external w = (w, Raise StructError).
Proof.
  intros Hv Hon Hmax Hvolt.
  unfold _handle_read_module_external. rewrite bind_get_self.
  rewrite Hon, Hmax, Hvolt, tenths_25_6.
  destruct (Z.ltb_spec v 6553600) as [Hlt | Hge].
  - destruct (tenths_within_one v Hv) as (n & -> & Hn & Hn0).
    assert (v / 100 < 65536) by (apply Z.div_lt_upper_bound; lia).
    exists n. split; [exact Hn |]. split; [exact Hn0 |].
    rewrite !bind_lift_ok. rewrite Z.max_r by exact Hn0.
    unfold lift. rewrite pack_HHHH_run by lia. reflexivity.
  - destruct (tenths_overflow v ltac:(lia)) as (n & -> & Hn).
    rewrite !bind_lift_ok. rewrite Z.max_r by lia.
    unfold lift. rewrite pack_HHHH_first_overflow by exact Hn. reflexivity.
Qed.

(** X12: the external report breaks from 6553.6 V on.  On a module that is
    on (with the default 25.6 A capability), after a routed set-output of
    [mv] millivolts, a command 0x0C is answered, as long as [mv] is below
    6553600, with the measured voltage in tenths of a volt ([mv / 100] or
    one less) and the allowed current 256; from 6553600 on the tenths no
    longer fit the 16-bit field, [struct.pack] raises [struct.error], and
    no reply is sent.  Nothing in the set-output path rejects such a
    setpoint. *)
Theorem external_report_threshold
    (w : World) (b0 b1 b2 b3 b4 b5 b6 b7 : byte) (rest : list byte)
    (src dm dest : Z) (payload' : list byte) (src' dm' dest' : Z) :
  let payload := b0 :: b1 :: b2 :: b3 :: b4 :: b5 :: b6 :: b7 :: rest in
  let mv := be_value [b0; b1; b2; b3] in
  is_power_on (self w) = true ->
  max_current (self w) = decimal 256 1 ->
  let w1 := fst (_route_command 0x1B payload src dm dest w) in
  let r := _route_command 0x0C payload' src' dm' dest' w1 in
  self (fst r) = self w1 /\
  if mv <? 6553600
  then snd r = Ok tt /\
       exists n,
         mv / 100 - 1 <= n <= mv / 100 /\ 0 <= n /\
         replied w1 (fst r)
           {| arbitration_id := encodeId 0x00 0x0A 0x0C src' (module_id (self w));
              data := be_bytes 2 n ++ be_bytes 2 256 ++ be_bytes 2 0 ++ be_bytes 2 0;
              is_extended_id := true; is_error_frame := false |}
  else snd r = Raise StructError /\ silent w1 (fst r).
Proof.
  intros payload mv Hon Hmax w1 r.
  (* the world after the set-output *)
  assert (Hself1 : self w1
                   = self (fst (_handle_set_output payload
                                  (entered w {| call_cmd := 27; call_data := payload;
                                                call_remote_src := src;
                                                call_device_mode := dm;
                                                call_dest_addr := dest |})))).
  { subst w1. rewrite route_command_self.
    change (dispatch 27 payload dm dest)
      with (_handle_set_output payload ;;; some _handle_read_output_setting).
    apply bind_self_after. intros; keeps_tac. }
  unfold payload in Hself1. rewrite set_output_run in Hself1.
  cbn [fst self entered] in Hself1. fold mv in Hself1. rewrite Hon in Hself1.
  set (call' := {| call_cmd := 12; call_data := payload';
                   call_remote_src := src'; call_device_mode := dm';
                   call_dest_addr := dest' |}).
  assert (Hon1 : is_power_on (self (entered w1 call')) = true)
    by (cbn [entered self]; rewrite Hself1; reflexivity).
  assert (Hmax1 : max_current (self (entered w1 call')) = decimal 256 1)
    by (cbn [entered self]; rewrite Hself1; exact Hmax).
  assert (Hvolt1 : voltage_out (self (entered w1 call'))
                   = fdiv (of_int mv) (of_int 1000))
    by (cbn [entered self]; rewrite Hself1; reflexivity).
  assert (Hmid : module_id (self w1) = module_id (self w))
    by (rewrite Hself1; reflexivity).
  pose proof (read_module_external_on (entered w1 call') mv
                (be_value_4_range b0 b1 b2 b3) Hon1 Hmax1 Hvolt1) as Hext.
  destruct (mv <? 6553600).
  - destruct Hext as (n & Hn & Hn0 & Hrun).
    assert (Hd : dispatch 12 payload' dm' dest' (entered w1 call')
                 = (entered w1 call',
                    Ok (Some (be_bytes 2 n ++ be_bytes 2 256
                              ++ be_bytes 2 0 ++ be_bytes 2 0)))).
    { change (dispatch 12 payload' dm' dest') with (some _handle_read_module_external).
      unfold some. rewrite (bind_returned _ _ _ _ _ Hrun). reflexivity. }
    assert (Hne : be_bytes 2 n ++ be_bytes 2 256 ++ be_bytes 2 0 ++ be_bytes 2 0 <> []).
    { intros E. apply (f_equal (@length byte)) in E.
      rewrite !length_app, !be_bytes_length in E. discriminate E. }
    destruct (route_command_replies 12 payload' src' dm' dest' w1 _ _ Hne Hd)
      as (Hok & Hs & Hrep).
    fold r in Hok, Hs, Hrep. rewrite Hmid in Hrep.
    split; [exact Hs |]. split; [exact Hok |].
    exists n. repeat split; try lia. exact Hrep.
  - assert (Hd : dispatch 12 payload' dm' dest' (entered w1 call')
                 = (entered w1 call', Raise StructError)).
    { change (dispatch 12 payload' dm' dest') with (some _handle_read_module_external).
      unfold some. apply bind_raised. exact Hext. }
    destruct (route_command_raises 12 payload' src' dm' dest' w1 _ _ Hd)
      as (Hr & Hs & Hsil).
    fold r in Hr, Hs, Hsil.
    split; [exact Hs |]. split; assumption.
Qed.

Lemma external_report_threshold_witness :
  let on := fst (_route_command 0x1A [x00] 0xF0 0x0A 0x00 world0) in
  let payload := be_bytes 4 7000000 ++ be_bytes 4 10000 in
  let w1 := fst (_route_command 0x1B payload 0xF0 0x0A 0x00 on) in
  let r := _route_command 0x0C [] 0xF0 0x0A 0x00 w1 in
  snd r = Raise StructError /\ silent w1 (fst r).
Proof.
  intros on payload w1 r.
  exact (proj2 (external_report_threshold on x00 x6a xcf xc0 x00 x00 x27 x10 []
                  0xF0 0x0A 0x00 [] 0xF0 0x0A 0x00 eq_refl eq_refl)).
Defined.

(** * A module that is off *)

Lemma zero_times (c : Z) :
  0 < c < 2 ^ 53 -> int_of_float (fmul (S754_zero false) (of_int c)) = Ok 0.
Proof.
  intros Hc. destruct (of_int_exact c Hc) as (m & e & -> & _). reflexivity.
Qed.

(** X13: a module that is off reports zeros.  From the start of the module
    on, whatever frames it has received, while it is off every measurement
    command (0x01, 0x03, 0x08, 0x09 and 0x0C) is answered with eight zero
    bytes, and the device state stays as it is. *)
Theorem off_module_reports_zero (mid gid : Z) (msgs : list Message)
    (cmd : Z) (payload : list byte) (remote_src device_mode dest : Z) :
  let w := fst (_receive_loop msgs (started mid gid)) in
  is_power_on (self w) = false ->
  cmd = 0x01 \/ cmd = 0x03 \/ cmd = 0x08 \/ cmd = 0x09 \/ cmd = 0x0C ->
  let r := _route_command cmd payload remote_src device_mode dest w in
  snd r = Ok tt /\ self (fst r) = self w /\
  replied w (fst r)
    {| arbitration_id := encodeId 0x00 0x0A cmd remote_src mid;
       data := [x00; x00; x00; x00; x00; x00; x00; x00];
       is_extended_id := true; is_error_frame := false |}.
Proof.
  intros w Hoff Hcmd r.
  assert (Hm : measured_consistent (self w))
    by (apply receive_loop_consistent; split; reflexivity).
  unfold measured_consistent in Hm. rewrite Hoff in Hm. destruct Hm as [Hv Hc].
  pose proof (receive_loop_configuration msgs (started mid gid)) as Hcfg.
  apply configuration_fields in Hcfg. fold w in Hcfg.
  destruct Hcfg as (Hmid & _). cbn in Hmid.
  set (call := {| call_cmd := cmd; call_data := payload;
                  call_remote_src := remote_src;
                  call_device_mode := device_mode;
                  call_dest_addr := dest |}).
  assert (Hfloat : _handle_read_module_float (entered w call)
                   = (entered w call, Ok [x00; x00; x00; x00; x00; x00; x00; x00])).
  { unfold _handle_read_module_float. rewrite bind_get_self.
    cbn [entered self]. rewrite Hv, Hc. reflexivity. }
  assert (Hfixed : _handle_read_system_fixed (entered w call)
                   = (entered w call, Ok [x00; x00; x00; x00; x00; x00; x00; x00])).
  { unfold _handle_read_system_fixed. rewrite bind_get_self.
    cbn [entered self]. rewrite Hv, Hc.
    rewrite (zero_times 1000) by (vm_compute; split; congruence). reflexivity. }
  assert (Hext : _handle_read_module_external (entered w call)
                 = (entered w call, Ok [x00; x00; x00; x00; x00; x00; x00; x00])).
  { unfold _handle_read_module_external. rewrite bind_get_self.
    cbn [entered self]. rewrite Hv, Hoff.
    rewrite (zero_times 10) by (vm_compute; split; congruence). reflexivity. }
  assert (Hd : dispatch cmd payload device_mode dest (entered w call)
               = (entered w call, Ok (Some [x00; x00; x00; x00; x00; x00; x00; x00]))).
  { destruct Hcmd as [-> | [-> | [-> | [-> | ->]]]].
    - change (dispatch 1 payload device_mode dest) with (some _handle_read_module_float).
      unfold some. rewrite (bind_returned _ _ _ _ _ Hfloat). reflexivity.
    - change (dispatch 3 payload device_mode dest) with (some _handle_read_module_float).
      unfold some. rewrite (bind_returned _ _ _ _ _ Hfloat). reflexivity.
    - change (dispatch 8 payload device_mode dest) with (some _handle_read_system_fixed).
      unfold some. rewrite (bind_returned _ _ _ _ _ Hfixed). reflexivity.
    - change (dispatch 9 payload device_mode dest) with (some _handle_read_system_fixed).
      unfold some. rewrite (bind_returned _ _ _ _ _ Hfixed). reflexivity.
    - change (dispatch 12 payload device_mode dest) with (some _handle_read_module_external).
      unfold some. rewrite (bind_returned _ _ _ _ _ Hext). reflexivity. }
  assert (Hne : [x00; x00; x00; x00; x00; x00; x00; x00] <> []) by discriminate.
  destruct (route_command_replies cmd payload remote_src device_mode dest w _ _
              Hne Hd) as (Hok & Hs & Hrep).
  fold r in Hok, Hs, Hrep. rewrite Hmid in Hrep.
  split; [exact Hok |]. split; [exact Hs | exact Hrep].
Qed.

Lemma off_module_reports_zero_witness :
  let on := {| arbitration_id := encodeId 0 0x0A 0x1A 0x00 0xF0; data := [x00];
               is_extended_id := true; is_error_frame := false |} in
  let off := {| arbitration_id := encodeId 0 0x0A 0x1A 0x00 0xF0; data := [x01];
                is_extended_id := true; is_error_frame := false |} in
  let w := fst (_receive_loop [on; off] (started 0 0)) in
  let r := _route_command 0x08 [] 0xF0 0x0A 0x00 w in
  snd r = Ok tt /\ self (fst r) = self w /\
  replied w (fst r)
    {| arbitration_id := encodeId 0x00 0x0A 0x08 0xF0 0;
       data := [x00; x00; x00; x00; x00; x00; x00; x00];
       is_extended_id := true; is_error_frame := false |}.
Proof.
  intros on off w r.
  apply (off_module_reports_zero 0 0 [on; off] 0x08 [] 0xF0 0x0A 0x00).
  - vm_compute. reflexivity.
  - right; right; left. reflexivity.
Defined.

(** * Whole volts and amperes *)

Lemma readback_exact_multiple (V : Z) :
  0 <= V -> 1000 * V < 2 ^ 32 ->
  int_of_float (fmul (fdiv (of_int (1000 * V)) (of_int 1000)) (of_int 1000))
  = Ok (1000 * V).
Proof.
  intros HV Hlt.
  destruct (Z.eq_dec V 0) as [-> | Hnz]; [vm_compute; reflexivity |].
  change (2 ^ 32) with 4294967296 in Hlt.
  rewrite of_int_1000.
  destruct (of_int_exact (1000 * V) ltac:(change (2 ^ 53) with 9007199254740992; lia))
    as (m1 & e1 & Hof & Hd1 & He1 & Hm1).
  rewrite Hof.
  destruct (Zdigits2_bounds (1000 * V) ltac:(lia)) as [Hdv0 _].
  assert (Hdv : Zdigits2 (1000 * V) <= 32)
    by (apply Zdigits2_le; [lia | lia | change (2 ^ 32) with 4294967296; lia]).
  assert (HdV : Zdigits2 V <= 53)
    by (apply Zdigits2_le; [lia | lia | change (2 ^ 53) with 9007199254740992; lia]).
  assert (Hm1v : Zpos m1 * 2 ^ (e1 - -73) = 1000 * V * 2 ^ 73).
  { rewrite Hm1, <- Z.mul_assoc, <- pow2_split by lia. f_equal. f_equal. lia. }
  change (2 ^ 73) with 9444732965739290427392 in Hm1v.
  destruct (fdiv_between m1 e1 8796093022208000 (-43) V 0 V 0)
    as (p & e & -> & HL & HU & _); try lia.
  - rewrite Hd1. change (Zdigits2 (Zpos 8796093022208000)) with 53. lia.
  - apply (val_le_at _ _ _ _ (-73)); [lia .. |].
    rewrite Hm1v. change (2 ^ (0 + -43 - -73)) with 1073741824. lia.
  - apply (val_le_at _ _ _ _ (-73)); [lia .. |].
    rewrite Hm1v. change (2 ^ (0 + -43 - -73)) with 1073741824. lia.
  - assert (HdM : Zdigits2 (1000 * V) <= 53) by lia.
    destruct (fmul_between p e 8796093022208000 (-43) (1000 * V) 0 (1000 * V) 0)
      as (py & ey & -> & HLy & HUy & _); try lia.
    + apply val_le_trans with (V * 8796093022208000) (0 + -43).
      * apply (val_le_at _ _ _ _ (-43)); [lia .. |].
        change (2 ^ (0 - -43)) with 8796093022208.
        change (2 ^ (0 + -43 - -43)) with 1. lia.
      * apply val_le_scale; [lia | exact HL].
    + apply val_le_trans with (V * 8796093022208000) (0 + -43).
      * apply val_le_scale; [lia | exact HU].
      * apply (val_le_at _ _ _ _ (-43)); [lia .. |].
        change (2 ^ (0 - -43)) with 8796093022208.
        change (2 ^ (0 + -43 - -43)) with 1. lia.
    + destruct (int_of_float_between py ey _ _ _ _ HLy HUy) as (n & -> & Hn).
      rewrite Z.shiftl_0_r in Hn. f_equal. lia.
Qed.

(** A set-output of whole volts and amperes, then the readback: the reply
    is the payload. *)
Lemma dispatch_whole_units (w : World) (V A : Z) (device_mode dest : Z) :
  0 <= V -> 1000 * V < 2 ^ 32 -> 0 <= A -> 1000 * A < 2 ^ 32 ->
  let payload := be_bytes 4 (1000 * V) ++ be_bytes 4 (1000 * A) in
  payload <> [] /\
  exists w1, dispatch 0x1B payload device_mode dest w = (w1, Ok (Some payload)).
Proof.
  intros HV HVlt HA HAlt payload.
  assert (Hne : payload <> []).
  { intros E. apply (f_equal (@length byte)) in E. subst payload.
    rewrite length_app, !be_bytes_length in E. discriminate E. }
  split; [exact Hne |].
  destruct (set_output_cases payload w)
    as [Hbad | (v & c & Rv & Rc & Uv & Uc & Hok & _ & _ & _ & Hself)].
  { exfalso.
    assert (Hlen : (8 <= length payload)%nat)
      by (subst payload; rewrite length_app, !be_bytes_length; lia).
    destruct (at_least_8 payload Hlen)
      as (b0 & b1 & b2 & b3 & b4 & b5 & b6 & b7 & rest & E).
    rewrite E, set_output_run in Hbad. discriminate Hbad. }
  unfold payload in Uv, Uc.
  rewrite slice_0_4_app, unpack_I_be_bytes in Uv by (apply be_bytes_length || lia).
  rewrite slice_4_8_app, unpack_I_be_bytes in Uc by (apply be_bytes_length || lia).
  apply Ok_inj in Uv. apply Ok_inj in Uc. subst v c.
  destruct (_handle_set_output payload w) as [w1 res] eqn:Hset.
  cbn [fst snd] in Hok, Hself. subst res.
  assert (Hread : _handle_read_output_setting w1 = (w1, Ok payload)).
  { apply (read_output_setting_run w1 (1000 * V) (1000 * A)).
    - rewrite Hself. cbn [set_voltage]. apply readback_exact_multiple; assumption.
    - rewrite Hself. cbn [set_current]. apply readback_exact_multiple; assumption.
    - apply pack_II_run; lia. }
  exists w1.
  change (dispatch 27 payload device_mode dest)
    with (_handle_set_output payload ;;; some _handle_read_output_setting).
  rewrite (bind_returned _ _ _ _ _ Hset). unfold some.
  rewrite (bind_returned _ _ _ _ _ Hread). reflexivity.
Qed.

(** X14: whole volts and amperes read back exactly.  Whatever the device
    state, a routed command 0x1B that sets a whole number of volts and of
    amperes (the payload holds 1000 * V and 1000 * A) is answered with a
    reply carrying that very payload: on multiples of 1000 the two
    roundings lose nothing. *)
Theorem whole_units_read_back_exactly
    (w : World) (V A : Z) (remote_src device_mode dest : Z) :
  0 <= V -> 1000 * V < 2 ^ 32 -> 0 <= A -> 1000 * A < 2 ^ 32 ->
  let payload := be_bytes 4 (1000 * V) ++ be_bytes 4 (1000 * A) in
  let r := _route_command 0x1B payload remote_src device_mode dest w in
  snd r = Ok tt /\
  replied w (fst r)
    {| arbitration_id := encodeId 0x00 0x0A 0x1B remote_src (module_id (self w));
       data := payload; is_extended_id := true; is_error_frame := false |}.
Proof.
  intros HV HVlt HA HAlt payload r.
  set (call := {| call_cmd := 27; call_data := payload;
                  call_remote_src := remote_src;
                  call_device_mode := device_mode;
                  call_dest_addr := dest |}).
  destruct (dispatch_whole_units (entered w call) V A device_mode dest HV HVlt HA HAlt)
    as (Hne & w1 & Hd).
  fold payload in Hne, Hd.
  destruct (route_command_replies 27 payload remote_src device_mode dest w w1 _ Hne Hd)
    as (Hr & _ & Hrep).
  split; assumption.
Qed.

Lemma whole_units_read_back_exactly_witness :
  let payload := be_bytes 4 (1000 * 600) ++ be_bytes 4 (1000 * 15) in
  let r := _route_command 0x1B payload 0xF0 0x0A 0x00 world0 in
  snd r = Ok tt /\
  replied world0 (fst r)
    {| arbitration_id := encodeId 0x00 0x0A 0x1B 0xF0 (module_id (self world0));
       data := payload; is_extended_id := true; is_error_frame := false |}.
Proof.
  apply (whole_units_read_back_exactly world0 600 15 0xF0 0x0A 0x00);
    vm_compute; congruence.
Defined.

(** * Every wanted frame is routed once, in order *)

Lemma route_command_sent_length cmd payload remote_src device_mode dest w :
  (length (sent (fst (_route_command cmd payload remote_src device_mode dest w)))
   <= S (length (sent w)))%nat.
Proof.
  pose proof (route_command_sends cmd payload remote_src device_mode dest w) as H.
  cbv zeta in H. destruct H as [H _].
  match type of H with
  | match snd ?r with _ => _ end => destruct (snd r) as [[[| b d] |] | e]
  end; unfold replied, silent in H; rewrite H; rewrite ?length_app; cbn; lia.
Qed.

(** X15: every wanted frame is routed once, in order.  While the module
    runs, the calls of [_route_command] made by the receive loop over a
    stream of frames are the calls for the wanted frames of the stream, in
    the order received: all of them when the loop returns normally, and
    an initial segment of them when it ends by an exception.  The frames
    sent are at most as many as the routed calls. *)
Theorem receive_loop_routes_in_order (msgs : list Message) (w : World) :
  running (self w) = true ->
  let ws := filter (wanted (module_id (self w)) (group_id (self w))) msgs in
  let r := _receive_loop msgs w in
  exists n,
    (n <= length ws)%nat /\
    routed (fst r) = routed w ++ map call_of (firstn n ws) /\
    (snd r = Ok tt -> n = length ws) /\
    (length (sent (fst r)) <= length (sent w) + n)%nat.
Proof.
  intros Hrun. cbv zeta.
  remember (module_id (self w)) as mid eqn:Hmid.
  remember (group_id (self w)) as gid eqn:Hgid.
  revert w Hrun Hmid Hgid.
  induction msgs as [| msg rest IH]; intros w Hrun Hmid Hgid.
  { exists 0%nat. cbn. rewrite app_nil_r. repeat split; lia. }
  rewrite receive_loop_cons, receive_body_run. cbv zeta.
  rewrite Hrun, <- Hmid, <- Hgid. cbn [negb filter].
  destruct (wanted mid gid msg) eqn:Hw.
  - pose proof (route_command_keeps_configuration
                  (cmd_no (decodeId (arbitration_id msg))) (data msg)
                  (src_addr (decodeId (arbitration_id msg)))
                  (device_no (decodeId (arbitration_id msg)))
                  (dest_addr (decodeId (arbitration_id msg))) w) as Hc.
    apply configuration_fields in Hc.
    destruct Hc as (Hm & Hg & _ & _ & _ & _ & _ & Hr).
    pose proof (route_command_routed
                  (cmd_no (decodeId (arbitration_id msg))) (data msg)
                  (src_addr (decodeId (arbitration_id msg)))
                  (device_no (decodeId (arbitration_id msg)))
                  (dest_addr (decodeId (arbitration_id msg))) w) as Hrt.
    pose proof (route_command_sent_length
                  (cmd_no (decodeId (arbitration_id msg))) (data msg)
                  (src_addr (decodeId (arbitration_id msg)))
                  (device_no (decodeId (arbitration_id msg)))
                  (dest_addr (decodeId (arbitration_id msg))) w) as Hsn.
    change (mkCall (cmd_no (decodeId (arbitration_id msg))) (data msg)
              (src_addr (decodeId (arbitration_id msg)))
              (device_no (decodeId (arbitration_id msg)))
              (dest_addr (decodeId (arbitration_id msg))))
      with (call_of msg) in Hrt.
    destruct (_route_command _ _ _ _ _ w) as [w1 [[] | e]]; cbn [fst snd] in *.
    + destruct (IH w1) as (n & Hn & Hrouted & Hok & Hsent); try congruence.
      exists (S n). cbn [length firstn map]. split; [lia |]. split.
      * rewrite Hrouted, Hrt, <- app_assoc. reflexivity.
      * split; [intros H; rewrite (Hok H); reflexivity | lia].
    + exists 1%nat. cbn [length firstn map]. split; [lia |]. split.
      * rewrite Hrt. destruct (filter _ rest); reflexivity.
      * split; [intros H; discriminate H | lia].
  - destruct (IH w Hrun Hmid Hgid) as (n & Hn & Hrouted & Hok & Hsent).
    exists n. repeat split; assumption.
Qed.


Lemma receive_loop_routes_in_order_witness :
  let on := {| arbitration_id := encodeId 0 0x0A 0x1A 0x00 0xF0; data := [x00];
               is_extended_id := true; is_error_frame := false |} in
  let other := {| arbitration_id := encodeId 0 0x0A 0x1A 0x07 0xF0; data := [x01];
                  is_extended_id := true; is_error_frame := false |} in
  let ws := filter (wanted 0 0) [other; on; other] in
  let r := _receive_loop [other; on; other] world0 in
  exists n,
    (n <= length ws)%nat /\
    routed (fst r) = routed world0 ++ map call_of (firstn n ws) /\
    (snd r = Ok tt -> n = length ws) /\
    (length (sent (fst r)) <= length (sent world0) + n)%nat.
Proof.
  intros on other.
  exact (receive_loop_routes_in_order [other; on; other] world0 eq_refl).
Defined.

(** * The heartbeat loop and the device *)


(** * The client's commands *)

(** X17: a client command reaches its target only.  The frame
    [send_command] of the command-line client builds for a command and a
    target address is, at a running module whose id is not the monitor
    address 0xF0, routed exactly when the target is that module's id or the
    broadcast address 0x3F, as a call in scope 0x0A coming from 0xF0 with
    the client's data (eight zero bytes when none is given); at every other
    module it changes nothing. *)
Theorem client_command_reaches_target
    (w : World) (cmd : Z) (payload : option (list byte)) (target_addr : Z) :
  0 <= cmd <= 0x3F -> 0 <= target_addr <= 0xFF ->
  running (self w) = true -> module_id (self w) <> 0xF0 ->
  let msg := Client.send_command cmd payload target_addr in
  let sent_data := match payload with None => repeat x00 8 | Some d => d end in
  let w' := fst (_receive_body msg w) in
  let taken := target_addr = 0x3F \/ target_addr = module_id (self w) in
  (taken -> w' = fst (_route_command cmd sent_data 0xF0 0x0A target_addr w)) /\
  (~ taken -> w' = w).
Proof.
  intros Hc Ht Hrun Hme msg sent_data w' taken. subst w' taken.
  rewrite receive_body_run. cbv zeta. rewrite Hrun. cbn [negb].
  unfold wanted, msg, Client.send_command. cbn [arbitration_id is_error_frame data].
  rewrite (decode_encode 0 0x0A cmd target_addr 0xF0)
    by (change (2 ^ 3) with 8; change (2 ^ 4) with 16; change (2 ^ 6) with 64;
        change (2 ^ 8) with 256; lia).
  cbn [err_code device_no cmd_no dest_addr src_addr negb andb].
  change (10 =? 10) with true. change (10 =? 11) with false.
  cbn [andb orb]. rewrite orb_false_r.
  destruct (Z.eqb_spec 240 (module_id (self w))) as [E1 | E1];
    [exfalso; apply Hme; symmetry; exact E1 |].
  cbn [negb andb].
  destruct (Z.eqb_spec target_addr 63) as [E2 | E2]; cbn [orb].
  { split; [reflexivity | intros H; exfalso; apply H; left; exact E2]. }
  destruct (Z.eqb_spec target_addr (module_id (self w))) as [E3 | E3].
  { split; [reflexivity | intros H; exfalso; apply H; right; exact E3]. }
  split; [intros [H | H]; contradiction | reflexivity].
Qed.

Lemma client_command_reaches_target_witness :
  fst (_receive_body (Client.send_command 0x1A None 0x00) world0)
  = fst (_route_command 0x1A (repeat x00 8) 0xF0 0x0A 0x00 world0).
Proof.
  refine (proj1 (client_command_reaches_target world0 0x1A None 0x00 _ _ eq_refl _) _).
  - lia.
  - lia.
  - vm_compute. discriminate.
  - right. reflexivity.
Defined.

(** [float(V) * 1000] for a whole number of volts or amperes that fits
    the wire: exact. *)
Lemma whole_times_1000 (V : Z) :
  0 <= V -> 1000 * V < 2 ^ 32 ->
  int_of_float (fmul (of_int V) (of_int 1000)) = Ok (1000 * V).
Proof.
  intros HV Hlt.
  destruct (Z.eq_dec V 0) as [-> | Hnz]; [vm_compute; reflexivity |].
  change (2 ^ 32) with 4294967296 in Hlt.
  rewrite of_int_1000.
  destruct (of_int_exact V ltac:(change (2 ^ 53) with 9007199254740992; lia))
    as (m & e & -> & Hd & He & Hm).
  destruct (Zdigits2_bounds V ltac:(lia)) as [Hdv0 _].
  assert (Hdv : Zdigits2 V <= 32)
    by (apply Zdigits2_le; [lia | lia | change (2 ^ 32) with 4294967296; lia]).
  assert (HdM : Zdigits2 (1000 * V) <= 53)
    by (apply Zdigits2_le; [lia | lia | change (2 ^ 53) with 9007199254740992; lia]).
  assert (Hmv : Zpos m * 8796093022208000 = 1000 * V * 2 ^ (0 - (e + -43))).
  { rewrite Hm. replace (0 - (e + -43)) with (- e + 43) by lia.
    rewrite pow2_split by lia. change (2 ^ 43) with 8796093022208. ring. }
  destruct (fmul_between m e 8796093022208000 (-43) (1000 * V) 0 (1000 * V) 0)
    as (py & ey & -> & HLy & HUy & _); try lia.
  - apply (val_le_at _ _ _ _ (e + -43)); [lia .. |].
    rewrite Z.sub_diag. change (2 ^ 0) with 1. rewrite Hmv. lia.
  - apply (val_le_at _ _ _ _ (e + -43)); [lia .. |].
    rewrite Z.sub_diag. change (2 ^ 0) with 1. rewrite Hmv. lia.
  - destruct (int_of_float_between py ey _ _ _ _ HLy HUy) as (n & -> & Hn).
    rewrite Z.shiftl_0_r in Hn. f_equal. lia.
Qed.

Lemma make_output_data_whole (V A : Z) :
  0 <= V -> 1000 * V < 2 ^ 32 -> 0 <= A -> 1000 * A < 2 ^ 32 ->
  Client._make_output_data (of_int V) (of_int A)
  = Ok (be_bytes 4 (1000 * V) ++ be_bytes 4 (1000 * A)).
Proof.
  intros HV HVlt HA HAlt. unfold Client._make_output_data.
  rewrite !whole_times_1000 by assumption. apply pack_II_run; lia.
Qed.

(** X18: the client's whole-unit setpoints are acknowledged as sent.  For
    a whole number of volts and of amperes that fit the wire, the payload
    [_make_output_data] builds holds 1000 * V and 1000 * A; the frame
    [send_command] builds from it for command 0x1B, received by the
    running module it targets, is routed, and the module's one reply is
    addressed to the monitor address 0xF0 and carries that same payload. *)
Theorem client_preset_acknowledged (w : World) (V A : Z) :
  0 <= V -> 1000 * V < 2 ^ 32 -> 0 <= A -> 1000 * A < 2 ^ 32 ->
  running (self w) = true ->
  0 <= module_id (self w) <= 0xFF -> module_id (self w) <> 0xF0 ->
  exists payload,
    Client._make_output_data (of_int V) (of_int A) = Ok payload /\
    payload = be_bytes 4 (1000 * V) ++ be_bytes 4 (1000 * A) /\
    let msg := Client.send_command 0x1B (Some payload) (module_id (self w)) in
    let r := _receive_body msg w in
    snd r = Ok Continue /\
    replied w (fst r)
      {| arbitration_id := encodeId 0x00 0x0A 0x1B 0xF0 (module_id (self w));
         data := payload; is_extended_id := true; is_error_frame := false |}.
Proof.
  intros HV HVlt HA HAlt Hrun Hid Hme.
  exists (be_bytes 4 (1000 * V) ++ be_bytes 4 (1000 * A)).
  split; [apply make_output_data_whole; assumption |]. split; [reflexivity |].
  set (payload := be_bytes 4 (1000 * V) ++ be_bytes 4 (1000 * A)).
  cbv zeta. rewrite receive_body_run. cbv zeta. rewrite Hrun. cbn [negb].
  unfold wanted, Client.send_command. cbn [arbitration_id is_error_frame data].
  rewrite (decode_encode 0 0x0A 0x1B (module_id (self w)) 0xF0)
    by (change (2 ^ 3) with 8; change (2 ^ 4) with 16; change (2 ^ 6) with 64;
        change (2 ^ 8) with 256; lia).
  cbn [err_code device_no cmd_no dest_addr src_addr negb andb].
  replace (240 =? module_id (self w)) with false
    by (symmetry; apply Z.eqb_neq; intros E; apply Hme; symmetry; exact E).
  change (10 =? 10) with true. change (10 =? 11) with false.
  rewrite Z.eqb_refl. cbn [negb andb orb]. rewrite orb_false_r, orb_true_r.
  set (call := {| call_cmd := 27; call_data := payload;
                  call_remote_src := 240; call_device_mode := 10;
                  call_dest_addr := module_id (self w) |}).
  destruct (dispatch_whole_units (entered w call) V A 10 (module_id (self w))
              HV HVlt HA HAlt) as (Hne & w1 & Hd).
  fold payload in Hne, Hd.
  destruct (route_command_replies 27 payload 240 10 (module_id (self w)) w w1 _ Hne Hd)
    as (Hr & _ & Hrep).
  cbn [fst snd]. rewrite Hr. split; [reflexivity | exact Hrep].
Qed.

Lemma client_preset_acknowledged_witness :
  exists payload,
    Client._make_output_data (of_int 400) (of_int 8) = Ok payload /\
    payload = be_bytes 4 (1000 * 400) ++ be_bytes 4 (1000 * 8) /\
    let msg := Client.send_command 0x1B (Some payload) (module_id (self world0)) in
    let r := _receive_body msg world0 in
    snd r = Ok Continue /\
    replied world0 (fst r)
      {| arbitration_id := encodeId 0x00 0x0A 0x1B 0xF0 (module_id (self world0));
         data := payload; is_extended_id := true; is_error_frame := false |}.
Proof.
  apply (client_preset_acknowledged world0 400 8);
    try (vm_compute; congruence).
  split; vm_compute; congruence.
Defined.

(** * The measured current after power-on *)

Lemma of_int_2 : of_int 2 = S754_finite false 4503599627370496 (-51).
Proof. vm_compute. reflexivity. Qed.

(** Half of [c / 1000.0]: within one step of 2^-31 of the exact value. *)
Lemma half_quotient (c : Z) :
  1 <= c < 2 ^ 32 ->
  let k := c * 2 ^ 30 / 1000 in
  exists p e,
    fdiv (of_milli c) (of_int 2) = S754_finite false p e /\
    val_le k (-31) (Zpos p) e /\ val_le (Zpos p) e (k + 1) (-31).
Proof.
  intros Hc k. unfold of_milli.
  destruct (quotient_by_1000 c Hc) as (p & e & -> & HL & HU & Hdp). fold k in HL, HU.
  change (2 ^ 32) with 4294967296 in Hc.
  pose proof (Z.div_mod (c * 2 ^ 30) 1000 ltac:(lia)) as Hdm.
  pose proof (Z.mod_pos_bound (c * 2 ^ 30) 1000 ltac:(lia)) as Hmod.
  fold k in Hdm. change (2 ^ 30) with 1073741824 in Hdm, Hmod.
  assert (Hk : 1 <= k < 2 ^ 53 - 1) by (change (2 ^ 53) with 9007199254740992; lia).
  change (2 ^ 53) with 9007199254740992 in Hk.
  pose proof (val_le_digits k (-30) (Zpos p) e ltac:(lia) ltac:(lia) HL) as Hdig.
  destruct (Zdigits2_bounds k ltac:(lia)) as [Hdk0 _].
  rewrite of_int_2.
  destruct (fdiv_between p e 4503599627370496 (-51) k (-31) (k + 1) (-31))
    as (ph & eh & -> & HLh & HUh & _); try lia.
  - change (Zdigits2 (Zpos 4503599627370496)) with 53. lia.
  - apply Zdigits2_le; [lia | lia | change (2 ^ 53) with 9007199254740992; lia].
  - apply Zdigits2_le; [lia | lia | change (2 ^ 53) with 9007199254740992; lia].
  - apply val_le_trans with k (-30); [| exact HL].
    apply (val_le_at _ _ _ _ (-82)); [lia .. |].
    change (2 ^ (-31 + -51 - -82)) with 1.
    change (2 ^ (-30 - -82)) with 4503599627370496. lia.
  - apply val_le_trans with (k + 1) (-30); [exact HU |].
    apply (val_le_at _ _ _ _ (-82)); [lia .. |].
    change (2 ^ (-31 + -51 - -82)) with 1.
    change (2 ^ (-30 - -82)) with 4503599627370496. lia.
  - exists ph, eh. split; [reflexivity |]. split; assumption.
Qed.

(** [int(((c / 1000.0) / 2) * 1000)] between the integer parts of two
    binary64 numbers that enclose the product with a margin. *)
Lemma half_quotient_times (c : Z) (mL eL mU eU : Z) :
  1 <= c < 2 ^ 32 ->
  let k := c * 2 ^ 30 / 1000 in
  0 < mL -> Zdigits2 mL <= 53 -> -1074 <= eL ->
  0 < mU -> Zdigits2 mU <= 53 -> -1074 <= eU <= 971 ->
  val_le mL eL (k * 8796093022208000) (-31 + -43) ->
  val_le ((k + 1) * 8796093022208000) (-31 + -43) mU eU ->
  exists n,
    int_of_float (fmul (fdiv (fdiv (of_int c) (of_int 1000)) (of_int 2))
                       (of_int 1000)) = Ok n /\
    Z.shiftl mL eL <= n <= Z.shiftl mU eU.
Proof.
  intros Hc k HmL HdL HeL HmU HdU HeU Hlow Hupp.
  destruct (half_quotient c Hc) as (ph & eh & Hh & HLh & HUh). fold k in HLh, HUh.
  unfold of_milli in Hh. rewrite Hh, of_int_1000.
  destruct (fmul_between ph eh 8796093022208000 (-43) mL eL mU eU)
    as (py & ey & -> & HLy & HUy & _); try assumption.
  - apply Z.le_trans with (1 * 8796093022208000);
      [change (2 ^ 52) with 4503599627370496; lia |].
    apply Z.mul_le_mono_nonneg_r; lia.
  - apply val_le_trans with (k * 8796093022208000) (-31 + -43); [exact Hlow |].
    apply val_le_scale; [lia | exact HLh].
  - apply val_le_trans with ((k + 1) * 8796093022208000) (-31 + -43); [| exact Hupp].
    apply val_le_scale; [lia | exact HUh].
  - apply int_of_float_between; assumption.
Qed.

(** The measured current, in mA, of a module switched on with a current
    setpoint of [c] mA: [c / 2] or one less. *)
Lemma half_readback_within_one (c : Z) :
  0 <= c < 2 ^ 32 ->
  exists n,
    int_of_float (fmul (fdiv (fdiv (of_int c) (of_int 1000)) (of_int 2))
                       (of_int 1000)) = Ok n /\
    c / 2 - 1 <= n <= c / 2 /\ 0 <= n.
Proof.
  intros Hc.
  destruct (Z.eq_dec c 0) as [-> | Hnz].
  { exists 0. split; [vm_compute; reflexivity |]. change (0 / 2) with 0. lia. }
  change (2 ^ 32) with 4294967296 in Hc.
  pose proof (Z.div_mod (c * 2 ^ 30) 1000 ltac:(lia)) as Hdm.
  pose proof (Z.mod_pos_bound (c * 2 ^ 30) 1000 ltac:(lia)) as Hmod.
  change (2 ^ 30) with 1073741824 in Hdm, Hmod.
  pose proof (Z.div_mod c 2 ltac:(lia)) as Hdc.
  pose proof (Z.mod_pos_bound c 2 ltac:(lia)) as Hmc.
  set (a := c / 2) in *.
  set (mL := if a <? 2 then 1 else a - 1).
  set (eL := if a <? 2 then -40 else 0).
  assert (HLpos : 0 < mL < 2 ^ 32)
    by (subst mL; change (2 ^ 32) with 4294967296; destruct (Z.ltb_spec a 2); lia).
  destruct (half_quotient_times c mL eL ((a + 1) * 2 ^ 20 - 1) (-20))
    as (n & Hn & Hlo & Hhi).
  - change (2 ^ 32) with 4294967296. lia.
  - lia.
  - apply Zdigits2_le; [lia | lia |].
    apply Z.lt_trans with (2 ^ 32); [lia | reflexivity].
  - subst eL. destruct (a <? 2); lia.
  - change (2 ^ 20) with 1048576. lia.
  - change (2 ^ 20) with 1048576.
    apply Zdigits2_le; [lia | lia |]. change (2 ^ 53) with 9007199254740992. lia.
  - lia.
  - subst mL eL. change (2 ^ 30) with 1073741824.
    destruct (Z.ltb_spec a 2).
    + apply (val_le_at _ _ _ _ (-74)); [lia .. |].
      change (2 ^ (-40 - -74)) with 17179869184.
      change (2 ^ (-31 + -43 - -74)) with 1. lia.
    + apply (val_le_at _ _ _ _ (-74)); [lia .. |].
      change (2 ^ (0 - -74)) with 18889465931478580854784.
      change (2 ^ (-31 + -43 - -74)) with 1. lia.
  - change (2 ^ 30) with 1073741824. change (2 ^ 20) with 1048576.
    apply (val_le_at _ _ _ _ (-74)); [lia .. |].
    change (2 ^ (-20 - -74)) with 18014398509481984.
    change (2 ^ (-31 + -43 - -74)) with 1. lia.
  - exists n. split; [exact Hn |].
    rewrite (Z.shiftl_div_pow2 _ (-20)) in Hhi by lia.
    change (2 ^ (- -20)) with 1048576 in Hhi. change (2 ^ 20) with 1048576 in Hhi.
    assert (((a + 1) * 1048576 - 1) / 1048576 = a)
      by (symmetry; apply (Z.div_unique _ 1048576 a 1048575); lia).
    assert (0 <= Z.shiftl mL eL) by (apply Z.shiftl_nonneg; lia).
    assert (a - 1 <= Z.shiftl mL eL).
    { subst mL eL. destruct (Z.ltb_spec a 2); [lia |].
      rewrite Z.shiftl_0_r. lia. }
    lia.
Qed.

Lemma read_system_fixed_run (w : World) (v c : Z) :
  int_of_float (fmul (voltage_out (self w)) (of_int 1000)) = Ok v ->
  int_of_float (fmul (current_out (self w)) (of_int 1000)) = Ok c ->
  0 <= v < 2 ^ 32 -> 0 <= c < 2 ^ 32 ->
  _handle_read_system_fixed w = (w, Ok (be_bytes 4 v ++ be_bytes 4 c)).
Proof.
  intros Hv Hc Rv Rc. unfold _handle_read_system_fixed.
  rewrite bind_get_self, Hv, Hc, !bind_lift_ok.
  rewrite !Z.max_r by lia. unfold lift. rewrite pack_II_run by assumption.
  reflexivity.
Qed.





(** * Packing a binary64 as binary32 *)

Lemma fexp32_eq (e : Z) : fexp 24 128 e = fexp32 e.
Proof. reflexivity. Qed.

Lemma Zdigits2_le_0 (x k : Z) : 0 <= x < 2 ^ k -> 0 <= k -> Zdigits2 x <= k.
Proof.
  intros [H0 Hk] Hk0. destruct (Z.eq_dec x 0) as [-> | Hnz]; [cbn; lia |].
  apply Zdigits2_le; lia.
Qed.

(** One shift of the binary32 rounding: the exponent reached and the
    mantissa left. *)
Lemma shr_fexp32_spec (m e : Z) (l : location) :
  0 <= m ->
  let n := Z.max (fexp32 (Zdigits2 m + e) - e) 0 in
  snd (shr_fexp 24 128 m e l) = e + n /\
  shr_m (fst (shr_fexp 24 128 m e l)) = m / 2 ^ n.
Proof.
  intros Hm n. subst n. unfold shr_fexp. rewrite fexp32_eq.
  destruct (fexp32 (Zdigits2 m + e) - e) as [| p | p] eqn:En.
  - cbn [shr fst snd Z.max Z.compare]. change (2 ^ 0) with 1.
    rewrite Z.div_1_r, shr_m_of_loc. split; [lia | reflexivity].
  - cbn [shr fst snd].
    destruct (shr_record_of_loc m l) as [m0 r0 s0] eqn:Erec.
    assert (Hm0 : m0 = m) by (rewrite <- (shr_m_of_loc m l), Erec; reflexivity).
    subst m0. destruct (iter_shr_1 p m r0 s0 Hm) as [Hq _].
    replace (Z.max (Zpos p) 0) with (Zpos p) by lia.
    split; [reflexivity | exact Hq].
  - cbn [shr fst snd]. replace (Z.max (Zneg p) 0) with 0 by lia.
    change (2 ^ 0) with 1. rewrite Z.div_1_r, shr_m_of_loc. split; [lia | reflexivity].
Qed.

(** A mantissa at or below the exponent of its magnitude, of magnitude
    below 2^127, does not round to an infinity of binary32. *)
Lemma binary_round_aux32_finite (s : bool) (m e : Z) (l : location) :
  0 < m -> e <= fexp32 (Zdigits2 m + e) -> Zdigits2 m + e <= 127 ->
  forall s', binary_round_aux 24 128 s m e l <> S754_infinity s'.
Proof.
  intros Hm He Hmag s'.
  destruct (Zdigits2_bounds m Hm) as [Hd0 [_ Hhi]].
  set (d := Zdigits2 m) in *.
  set (E := fexp32 (d + e)) in *.
  destruct (shr_fexp32_spec m e l ltac:(lia)) as [He1 Hm1].
  fold d in He1, Hm1. fold E in He1, Hm1.
  replace (Z.max (E - e) 0) with (E - e) in He1, Hm1 by lia.
  replace (e + (E - e)) with E in He1 by lia.
  unfold binary_round_aux.
  destruct (shr_fexp 24 128 m e l) as [mrs1 e1]. cbn [fst snd] in He1, Hm1. subst e1.
  pose proof (round_nearest_even_bounds (shr_m mrs1) (loc_of_shr_record mrs1)) as Hr.
  set (m2 := round_nearest_even (shr_m mrs1) (loc_of_shr_record mrs1)) in *.
  set (n := E - e) in *.
  assert (Hpn : 0 < 2 ^ n) by (apply pow2_pos; subst n; lia).
  assert (Hq0 : 0 <= m / 2 ^ n) by (apply Z.div_pos; lia).
  (* the rounded mantissa has at most max(d - n, 0) + 1 digits *)
  set (k := Z.max (d - n) 0).
  assert (Hq : m / 2 ^ n < 2 ^ k).
  { subst k. destruct (Z.le_gt_cases n d) as [Hc | Hc].
    - replace (Z.max (d - n) 0) with (d - n) by lia.
      apply Z.div_lt_upper_bound; [exact Hpn |].
      rewrite <- pow2_split by (subst n; lia).
      replace (n + (d - n)) with d by lia. exact Hhi.
    - replace (Z.max (d - n) 0) with 0 by lia. change (2 ^ 0) with 1.
      assert (m / 2 ^ n = 0); [| lia].
      apply Z.div_small. split; [lia |].
      apply Z.lt_le_trans with (2 ^ d); [exact Hhi |].
      apply Z.pow_le_mono_r; lia. }
  assert (Hm2 : 0 <= m2 < 2 ^ (k + 1)).
  { rewrite pow2_split by (subst k; lia). change (2 ^ 1) with 2.
    assert (0 < 2 ^ k) by (apply pow2_pos; subst k; lia). lia. }
  assert (Hd2 : Zdigits2 m2 <= k + 1) by (apply Zdigits2_le_0; [exact Hm2 | subst k; lia]).
  destruct (shr_fexp32_spec m2 E loc_Exact ltac:(lia)) as [He2 _].
  destruct (shr_fexp 24 128 m2 E loc_Exact) as [mrs2 e2]. cbn [fst snd] in He2. subst e2.
  destruct (shr_m mrs2) as [| p | p]; try discriminate.
  replace (E + Z.max (fexp32 (Zdigits2 m2 + E) - E) 0 <=? 128 - 24) with true;
    [discriminate |].
  symmetry. apply Z.leb_le. subst E k n. unfold fexp32 in *. lia.
Qed.

Lemma binary_round32_finite (s : bool) (m : positive) (e : Z) :
  Zdigits2 (Zpos m) + e <= 127 ->
  forall s', binary_round 24 128 s m e <> S754_infinity s'.
Proof.
  intros Hmag s'. unfold binary_round. rewrite fexp32_eq.
  change (Zpos (digits2_pos m)) with (Zdigits2 (Zpos m)).
  set (d := Zdigits2 (Zpos m)) in *.
  destruct (Zdigits2_bounds (Zpos m) ltac:(lia)) as [Hd0 [Hlo Hhi]]. fold d in Hd0, Hlo, Hhi.
  destruct (Z.le_gt_cases (fexp32 (d + e)) e) as [Hc | Hc].
  - (* the mantissa is shifted left to the target exponent *)
    destruct (shl_align_spec m e (fexp32 (d + e)) Hc) as (mz & -> & Hmz).
    set (E := fexp32 (d + e)) in *.
    assert (Hp : 0 < 2 ^ (e - E)) by (apply pow2_pos; lia).
    assert (Hdz : Zdigits2 (Zpos mz) = d + (e - E)).
    { apply Zdigits2_unique; [| lia]. rewrite Hmz. split.
      - replace (d + (e - E) - 1) with ((d - 1) + (e - E)) by lia.
        rewrite pow2_split by lia. apply Z.mul_le_mono_nonneg_r; lia.
      - rewrite pow2_split by lia. apply Z.mul_lt_mono_pos_r; lia. }
    apply binary_round_aux32_finite; [lia | |].
    + rewrite Hdz. replace (d + (e - E) + E) with (d + e) by lia. fold E. lia.
    + rewrite Hdz. lia.
  - rewrite (shl_align_keep m e (fexp32 (d + e))) by lia.
    apply binary_round_aux32_finite; [lia | fold d; lia | fold d; lia].
Qed.

(** [struct.pack('>f', x)] succeeds on a finite [x] of magnitude below
    2^127, and on a zero. *)
Lemma pack_f_ok (x : float) :
  match x with
  | S754_zero _ => True
  | S754_finite _ m e => Zdigits2 (Zpos m) + e <= 127
  | _ => False
  end ->
  exists d, pack_f x = Ok d.
Proof.
  destruct x as [s | s | | s m e]; try contradiction; intros H.
  - eexists. reflexivity.
  - unfold pack_f.
    pose proof (binary_round32_finite s m e H) as Hfin.
    destruct (binary_round 24 128 s m e) as [s' | s' | | s' m' e'];
      try (eexists; reflexivity).
    exfalso. exact (Hfin s' eq_refl).
Qed.

(** * Values that come from the wire *)

Lemma of_milli_0 : of_milli 0 = S754_zero false.
Proof. reflexivity. Qed.

Lemma half_of_milli_0 : fdiv (of_milli 0) (of_int 2) = S754_zero false.
Proof. reflexivity. Qed.

Lemma of_milli_magnitude (v : Z) :
  0 <= v < 2 ^ 32 ->
  match of_milli v with
  | S754_zero _ => True
  | S754_finite _ m e => Zdigits2 (Zpos m) + e <= 127
  | _ => False
  end.
Proof.
  intros Hv. destruct (Z.eq_dec v 0) as [-> | Hnz]; [exact I |].
  unfold of_milli.
  destruct (quotient_by_1000 v ltac:(lia)) as (p & e & -> & _ & HU & _).
  change (2 ^ 32) with 4294967296 in Hv.
  pose proof (Z.div_mod (v * 2 ^ 30) 1000 ltac:(lia)) as Hdm.
  pose proof (Z.mod_pos_bound (v * 2 ^ 30) 1000 ltac:(lia)) as Hmod.
  change (2 ^ 30) with 1073741824 in Hdm, Hmod.
  set (k := v * 2 ^ 30 / 1000) in *. change (2 ^ 30) with 1073741824 in k.
  fold k in Hdm.
  assert (Hk : 0 < k + 1 < 2 ^ 53) by (change (2 ^ 53) with 9007199254740992; lia).
  pose proof (val_le_digits (Zpos p) e (k + 1) (-30) ltac:(lia) ltac:(lia) HU) as Hdig.
  assert (Zdigits2 (k + 1) <= 53) by (apply Zdigits2_le; lia).
  lia.
Qed.

Lemma half_of_milli_magnitude (c : Z) :
  0 <= c < 2 ^ 32 ->
  match fdiv (of_milli c) (of_int 2) with
  | S754_zero _ => True
  | S754_finite _ m e => Zdigits2 (Zpos m) + e <= 127
  | _ => False
  end.
Proof.
  intros Hc. destruct (Z.eq_dec c 0) as [-> | Hnz]; [exact I |].
  destruct (half_quotient c ltac:(lia)) as (p & e & -> & _ & HU).
  change (2 ^ 32) with 4294967296 in Hc.
  pose proof (Z.div_mod (c * 2 ^ 30) 1000 ltac:(lia)) as Hdm.
  pose proof (Z.mod_pos_bound (c * 2 ^ 30) 1000 ltac:(lia)) as Hmod.
  change (2 ^ 30) with 1073741824 in Hdm, Hmod.
  set (k := c * 2 ^ 30 / 1000) in *. change (2 ^ 30) with 1073741824 in k.
  fold k in Hdm.
  assert (Hk : 0 < k + 1 < 2 ^ 53) by (change (2 ^ 53) with 9007199254740992; lia).
  pose proof (val_le_digits (Zpos p) e (k + 1) (-31) ltac:(lia) ltac:(lia) HU) as Hdig.
  assert (Zdigits2 (k + 1) <= 53) by (apply Zdigits2_le; lia).
  lia.
Qed.

(** * The electrical fields stay values from the wire *)

Lemma from_wire_init (mid gid : Z) : from_wire (self (started mid gid)).
Proof.
  unfold from_wire. cbn [started self init set_voltage set_current voltage_out
    current_out max_current cap_voltage_max cap_voltage_min cap_power_rated].
  split; [exists 500000; split; [vm_compute; split; congruence | vm_compute; reflexivity] |].
  split; [exists 10000; split; [vm_compute; split; congruence | vm_compute; reflexivity] |].
  split; [exists 0; split; [vm_compute; split; congruence | reflexivity] |].
  split; [exists 0; split; [vm_compute; split; congruence | reflexivity] |].
  repeat split.
Qed.

Lemma power_control_keeps_from_wire payload w :
  from_wire (self w) -> from_wire (self (fst (_handle_power_control payload w))).
Proof.
  intros HP.
  destruct (power_control_cases payload w) as [[_ ->] | (b & rest & _ & _ & _ & _ & _ & ->)];
    [exact HP |].
  destruct HP as (Hsv & Hsc & Hv & Hc & Hcap).
  destruct (Z_of_byte b =? 0); unfold from_wire;
    cbn [set_voltage set_current voltage_out current_out max_current
         cap_voltage_max cap_voltage_min cap_power_rated].
  - split; [exact Hsv |]. split; [exact Hsc |]. split; [exact Hsv |].
    split; [| exact Hcap].
    destruct Hsc as (c & Rc & ->). exists c. split; [exact Rc | reflexivity].
  - split; [exact Hsv |]. split; [exact Hsc |].
    split; [exists 0; split; [vm_compute; split; congruence | reflexivity] |].
    split; [exists 0; split; [vm_compute; split; congruence | reflexivity] |].
    exact Hcap.
Qed.

Lemma set_output_keeps_from_wire payload w :
  from_wire (self w) -> from_wire (self (fst (_handle_set_output payload w))).
Proof.
  intros HP.
  destruct (set_output_cases payload w)
    as [-> | (v & c & Rv & Rc & _ & _ & _ & _ & _ & _ & ->)]; [exact HP |].
  destruct HP as (Hsv & Hsc & Hv & Hc & Hcap).
  unfold from_wire;
    cbn [set_voltage set_current voltage_out current_out max_current
         cap_voltage_max cap_voltage_min cap_power_rated].
  split; [exists v; split; [exact Rv | reflexivity] |].
  split; [exists c; split; [exact Rc | reflexivity] |].
  split; [| split; [exact Hc | exact Hcap]].
  destruct (is_power_on (self w)); [exists v; split; [exact Rv | reflexivity] | exact Hv].
Qed.

(** * Handlers on values from the wire *)

Lemma read_module_float_ok (w : World) :
  from_wire (self w) -> exists d, _handle_read_module_float w = (w, Ok d).
Proof.
  intros (_ & _ & (v & Rv & Hv) & (c & Rc & Hc) & _).
  unfold _handle_read_module_float. rewrite bind_get_self, Hv, Hc.
  destruct (pack_f_ok _ (of_milli_magnitude v Rv)) as (dv & ->).
  destruct (pack_f_ok _ (half_of_milli_magnitude c Rc)) as (dc & ->).
  eexists. reflexivity.
Qed.

Lemma read_system_fixed_ok (w : World) :
  from_wire (self w) -> exists d, _handle_read_system_fixed w = (w, Ok d).
Proof.
  intros (_ & _ & (v & Rv & Hv) & (c & Rc & Hc) & _).
  destruct (readback_within_one v Rv) as (v' & Hv' & Hrv & Hv0).
  destruct (half_readback_within_one c Rc) as (c' & Hc' & Hrc & Hc0).
  assert (c / 2 <= c).
  { pose proof (Z.div_mod c 2 ltac:(lia)). pose proof (Z.mod_pos_bound c 2 ltac:(lia)).
    lia. }
  eexists. apply (read_system_fixed_run w v' c').
  - rewrite Hv. exact Hv'.
  - rewrite Hc. exact Hc'.
  - lia.
  - lia.
Qed.

Lemma read_output_setting_ok (w : World) :
  from_wire (self w) -> exists d, _handle_read_output_setting w = (w, Ok d).
Proof.
  intros ((v & Rv & Hv) & (c & Rc & Hc) & _).
  destruct (read_output_setting_within_one w v c Rv Rc Hv Hc) as (v' & c' & H & _).
  eexists. exact H.
Qed.

Lemma some_returns {A} (c : M A) (w w1 : World) (a : A) :
  c w = (w1, Ok a) -> some c w = (w1, Ok (Some a)).
Proof. intros H. unfold some. rewrite (bind_returned _ _ _ _ _ H). reflexivity. Qed.

(** On values from the wire, every command but 0x0C returns when its
    payload is long enough. *)
Lemma dispatch_returns (w : World) (cmd : Z) (payload : list byte)
    (device_mode dest : Z) :
  from_wire (self w) -> cmd <> 0x0C ->
  (required_length cmd <= length payload)%nat ->
  exists w2 reply_data, dispatch cmd payload device_mode dest w = (w2, Ok reply_data).
Proof.
  intros HP Hcmd Hlen.
  destruct (in_dispatch_table cmd) eqn:Htab;
    [| exists w, None; apply dispatch_unknown; exact Htab].
  unfold in_dispatch_table in Htab.
  repeat match type of Htab with
         | (_ || _) = true => apply orb_true_iff in Htab; destruct Htab as [Htab | Htab]
         end;
    apply Z.eqb_eq in Htab; subst cmd; try (contradiction Hcmd; reflexivity).
  - destruct (read_module_float_ok w HP) as (d & H).
    exists w, (Some d). exact (some_returns _ _ _ _ H).
  - destruct (read_module_float_ok w HP) as (d & H).
    exists w, (Some d). exact (some_returns _ _ _ _ H).
  - eexists. eexists. reflexivity.
  - destruct (read_system_fixed_ok w HP) as (d & H).
    exists w, (Some d). exact (some_returns _ _ _ _ H).
  - destruct (read_system_fixed_ok w HP) as (d & H).
    exists w, (Some d). exact (some_returns _ _ _ _ H).
  - destruct HP as (_ & _ & _ & _ & Hi & Hmax & Hmin & Hp).
    eexists. eexists.
    exact (some_returns _ _ _ _ (read_module_info_run w Hi Hmax Hmin Hp)).
  - destruct payload as [| b rest]; [cbn in Hlen; lia |].
    destruct (dispatch_power_control w b rest device_mode dest) as (w2 & H).
    eexists. eexists. exact H.
  - destruct (dispatch_set_output w payload device_mode dest Hlen) as (w2 & b & d & H & _).
    eexists. eexists. exact H.
  - destruct (dispatch_set_output w payload device_mode dest Hlen) as (w2 & b & d & _ & H).
    eexists. eexists. exact H.
Qed.

Lemma send_response_returns cmd d t w : snd (_send_response cmd d t w) = Ok tt.
Proof. reflexivity. Qed.

Lemma route_command_returns (w : World) (cmd : Z) (payload : list byte)
    (remote_src device_mode dest : Z) :
  from_wire (self w) -> cmd <> 0x0C ->
  (required_length cmd <= length payload)%nat ->
  snd (_route_command cmd payload remote_src device_mode dest w) = Ok tt.
Proof.
  intros HP Hcmd Hlen. rewrite route_command_run.
  match goal with
  | |- context [dispatch cmd payload device_mode dest ?W] =>
      destruct (dispatch_returns W cmd payload device_mode dest HP Hcmd Hlen)
        as (w2 & rd & ->)
  end.
  destruct (truthy rd); [apply send_response_returns | reflexivity].
Qed.

(** X20: no other way to stop reception.  From the start of the module on,
    the receive loop returns normally over every stream of frames in which
    each frame carries a payload as long as its command reads (1 byte for
    0x1A, 8 bytes for 0x1B and 0x1C) and none is the external report 0x0C:
    no handler raises, whatever setpoints the frames carry and in whatever
    order they come. *)
Theorem receive_loop_never_raises (mid gid : Z) (msgs : list Message) :
  Forall well_formed msgs ->
  snd (_receive_loop msgs (started mid gid)) = Ok tt.
Proof.
  intros Hall.
  pose proof (from_wire_init mid gid) as HP.
  revert HP. generalize (started mid gid) as w.
  induction Hall as [| msg rest [Hcmd Hlen] _ IH]; intros w HP; [reflexivity |].
  rewrite receive_loop_cons.
  pose proof (receive_body_invariant from_wire power_control_keeps_from_wire
                set_output_keeps_from_wire msg w HP) as HP1.
  rewrite receive_body_run in HP1 |- *. cbv zeta in HP1 |- *.
  destruct (negb (running (self w))); [reflexivity |].
  destruct (wanted _ _ msg); [| apply IH; exact HP].
  rewrite (route_command_returns w _ _ _ _ _ HP Hcmd Hlen). cbn [fst] in HP1.
  apply IH. exact HP1.
Qed.

Lemma receive_loop_never_raises_witness :
  let on := {| arbitration_id := encodeId 0 0x0A 0x1A 0x00 0xF0; data := [x00];
               is_extended_id := true; is_error_frame := false |} in
  let set := {| arbitration_id := encodeId 0 0x0A 0x1B 0x00 0xF0;
                data := [xff; xff; xff; xff; xff; xff; xff; xff];
                is_extended_id := true; is_error_frame := false |} in
  let read := {| arbitration_id := encodeId 0 0x0A 0x03 0x00 0xF0; data := [];
                 is_extended_id := true; is_error_frame := false |} in
  snd (_receive_loop [on; set; read] (started 0 0)) = Ok tt.
Proof.
  intros on set read.
  apply (receive_loop_never_raises 0 0 [on; set; read]).
  repeat constructor; vm_compute; (discriminate || lia).
Defined.
